(** * janggu: genomic indexer and genomic arrays

    A shallow embedding of [janggu/data/genomic_indexer.py] and
    [janggu/data/genomicarray.py], and the properties of the region
    indexer and of the array stores that the specification states.

    Python integers are unbounded: they are modelled by [Z], with [//] as
    [Z.div] and [%] as [Z.modulo] (both round towards minus infinity for a
    positive divisor, as in Python).  Python's [bool] is a subclass of
    [int]; [True] and [False] are the integers 1 and 0 here.  Raised
    exceptions are values of [exn]. *)

From Stdlib Require Import Ascii.
From stdpp Require Import gmap strings list fin_maps pretty.

Local Open Scope Z_scope.

(** ** Exceptions and results *)

Inductive exn : Type :=
| ValueError
| IndexError
| KeyError
| TypeError
| OSError
| AttributeError
| ZeroDivisionError
| NameError
| Exception.

Inductive result (A : Type) : Type :=
| Ok (a : A)
| Raise (e : exn).

Arguments Ok {A} a.
Arguments Raise {A} e.

Definition bind {A B : Type} (r : result A) (k : A -> result B) : result B :=
  match r with
  | Ok a => k a
  | Raise e => Raise e
  end.

Notation "x <- c ;; k" := (bind c (fun x => k))
  (at level 100, c at next level, right associativity).

Definition is_ok {A : Type} (r : result A) : bool :=
  match r with Ok _ => true | Raise _ => false end.

(** ** Genomic intervals (HTSeq.GenomicInterval) *)

Inductive strand_t : Type := Plus | Minus | NoStrand.

Record GenomicInterval : Type := {
  iv_chrom : string;
  iv_start : Z;
  iv_end : Z;
  iv_strand : strand_t
}.

(** The Python values that are taken as keys of the subscript operators
    of the two classes: [None], an integer, a string, a genomic interval
    and a tuple of such values.  Other values (a list, a dictionary, a
    boolean, an object of another class) are not among them; what is
    proved of a key is proved of these. *)
#[local] Unset Elimination Schemes.
Inductive pyobj : Type :=
| PyNone
| PyInt (z : Z)
| PyStr (s : string)
| PyInterval (iv : GenomicInterval)
| PyTuple (items : list pyobj).
#[local] Set Elimination Schemes.

(** Python sequence indexing [l[i]]: a negative index counts from the end. *)
Definition py_index {A : Type} (l : list A) (i : Z) : result A :=
  let n := Z.of_nat (length l) in
  let j := if i <? 0 then i + n else i in
  if (0 <=? j) && (j <? n) then
    match l !! Z.to_nat j with
    | Some x => Ok x
    | None => Raise IndexError
    end
  else Raise IndexError.

(** [range(n)]: empty when [n <= 0]. *)
Definition py_range (n : Z) : list Z := Z.of_nat <$> seq 0 (Z.to_nat n).

(** [[x] * n]: empty when [n <= 0]. *)
Definition py_repeat {A : Type} (x : A) (n : Z) : list A := replicate (Z.to_nat n) x.

(** ** genomic_indexer.py *)

Record GenomicIndexer : Type := {
  binsize : Z;
  stepsize : Z;
  flank : Z;
  chrs : list string;
  offsets : list Z;
  inregionidx : list Z;
  strand : list strand_t;
  rel_end : list Z
}.

(** [GenomicIndexer.__init__]: the three property setters, in order. *)
Definition GenomicIndexer_init (binsize stepsize flank : Z) : result (Z * Z * Z) :=
  if binsize <=? 0 then Raise ValueError
  else if stepsize <=? 0 then Raise ValueError
  else if flank <? 0 then Raise ValueError
  else Ok (binsize, stepsize, flank).

(** The five local lists that the loop of [create_from_file] extends. *)
Record columns : Type := {
  c_chrs : list string;
  c_offsets : list Z;
  c_inregionidx : list Z;
  c_strand : list strand_t;
  c_rel_end : list Z
}.

Definition no_columns : columns :=
  {| c_chrs := []; c_offsets := []; c_inregionidx := [];
     c_strand := []; c_rel_end := [] |}.

(** [val] of the loop body. *)
Definition region_val (binsize stepsize : Z) (iv : GenomicInterval) : Z :=
  if stepsize <=? binsize
  then iv_end iv - iv_start iv - binsize + stepsize
  else iv_end iv - iv_start iv.

(** The condition under which the loop body records a trailing fragment. *)
Definition has_fragment (fixed_size_batches : bool) (val stepsize : Z) : bool :=
  negb fixed_size_batches && (0 <? val mod stepsize).

(** One iteration of the loop of [create_from_file]. *)
Definition add_region (binsize stepsize : Z) (fixed_size_batches : bool)
    (acc : columns) (iv : GenomicInterval) : columns :=
  let val := region_val binsize stepsize iv in
  let reglen := val / stepsize in
  let acc1 :=
    {| c_chrs := c_chrs acc ++ py_repeat (iv_chrom iv) reglen;
       c_offsets := c_offsets acc ++ py_repeat (iv_start iv) reglen;
       c_inregionidx := c_inregionidx acc ++ py_range reglen;
       c_strand := c_strand acc ++ py_repeat (iv_strand iv) reglen;
       c_rel_end := c_rel_end acc ++ py_repeat binsize reglen |} in
  if has_fragment fixed_size_batches val stepsize then
    {| c_chrs := c_chrs acc1 ++ [iv_chrom iv];
       c_offsets := c_offsets acc1 ++ [iv_start iv];
       c_inregionidx := c_inregionidx acc1 ++ [reglen];
       c_strand := c_strand acc1 ++ [iv_strand iv];
       c_rel_end := c_rel_end acc1 ++ [val - (val / stepsize) * stepsize] |}
  else acc1.

(** [GenomicIndexer.create_from_file]; [regions] is the sequence of the
    [reg.iv] of the records that the region reader yields. *)
Definition create_from_file (regions : list GenomicInterval)
    (binsize stepsize flank : Z) (fixed_size_batches : bool)
    : result GenomicIndexer :=
  p <- GenomicIndexer_init binsize stepsize flank ;;
  let cols := fold_left (add_region binsize stepsize fixed_size_batches)
                        regions no_columns in
  Ok {| binsize := p.1.1; stepsize := p.1.2; flank := p.2;
        chrs := c_chrs cols; offsets := c_offsets cols;
        inregionidx := c_inregionidx cols; strand := c_strand cols;
        rel_end := c_rel_end cols |}.

(** [GenomicIndexer.__len__] *)
Definition GenomicIndexer_len (g : GenomicIndexer) : Z := Z.of_nat (length (chrs g)).

(** [GenomicIndexer.__getitem__] *)
Definition GenomicIndexer_getitem (g : GenomicIndexer) (index : pyobj) : result GenomicInterval :=
  match index with
  | PyInt i =>
      off <- py_index (offsets g) i ;;
      k <- py_index (inregionidx g) i ;;
      let start := off + k * stepsize g in
      val <- py_index (rel_end g) i ;;
      let end_ := start + (if 0 <? val then val else 1) in
      c <- py_index (chrs g) i ;;
      s <- py_index (strand g) i ;;
      Ok {| iv_chrom := c; iv_start := start - flank g;
            iv_end := end_ + flank g; iv_strand := s |}
  | _ => Raise IndexError
  end.

(** The [include] and [exclude] arguments of [idx_by_chrom]. *)
Inductive chrom_filter : Type :=
| FNone
| FStr (s : string)
| FList (names : list string).

(** The two [isinstance(_, str)] rewrites, then truthiness: [None] and the
    empty list are false. *)
Definition filter_names (f : chrom_filter) : list string :=
  match f with
  | FNone => []
  | FStr s => [s]
  | FList names => names
  end.

(** A string as an element of a numpy array of strings: the array holds
    fixed-width strings padded with NUL characters, so the NUL characters
    at the end of a string are lost. *)
Fixpoint np_str (s : string) : string :=
  match s with
  | EmptyString => EmptyString
  | String c rest =>
      match np_str rest with
      | EmptyString =>
          if bool_decide (c = "000"%char) then EmptyString else String c EmptyString
      | String c' rest' => String c (String c' rest')
      end
  end.

(** [np.where(np.asarray(chrs) == name)[0]]: the comparison is that of
    numpy strings. *)
Definition where_eq (names : list string) (name : string) : list nat :=
  filter (fun i => np_str <$> names !! i = Some (np_str name)) (seq 0 (length names)).

(** [GenomicIndexer.idx_by_chrom]; the order of the returned list is that
    of a Python set and carries no meaning. *)
Definition idx_by_chrom (g : GenomicIndexer) (include exclude : chrom_filter)
    : list nat :=
  let inc := filter_names include in
  let exc := filter_names exclude in
  let idxs0 : gset nat :=
    match inc with
    | [] => list_to_set (seq 0 (length (chrs g)))
    | _ => fold_left (fun s name => s ∪ list_to_set (where_eq (chrs g) name)) inc ∅
    end in
  let idxs : gset nat :=
    fold_left (fun s name => s ∖ list_to_set (where_eq (chrs g) name)) exc idxs0 in
  elements idxs.

(** The bin count of one region in the words of the specification:
    [n = (L - binsize + stepsize) div stepsize] when [stepsize <= binsize]
    and [n = L div stepsize] otherwise, plus one when [fixed_size_batches]
    is false and [L mod stepsize > 0]. *)
Definition spec_bin_count (binsize stepsize : Z) (fixed_size_batches : bool)
    (iv : GenomicInterval) : Z :=
  let L := iv_end iv - iv_start iv in
  let n := if stepsize <=? binsize then (L - binsize + stepsize) / stepsize
           else L / stepsize in
  n + (if negb fixed_size_batches && (0 <? L mod stepsize) then 1 else 0).

(** The number of rows that one iteration of the loop appends. *)
Definition bin_count (binsize stepsize : Z) (fixed_size_batches : bool)
    (iv : GenomicInterval) : Z :=
  let val := region_val binsize stepsize iv in
  Z.max 0 (val / stepsize)
  + (if has_fragment fixed_size_batches val stepsize then 1 else 0).

Definition total (count : GenomicInterval -> Z) (regions : list GenomicInterval) : Z :=
  foldr (fun iv acc => count iv + acc) 0 regions.

(** The entry of a column for the trailing fragment, when there is one. *)
Definition fragment {A : Type} (fixed_size_batches : bool) (val stepsize : Z)
    (x : A) : list A :=
  if has_fragment fixed_size_batches val stepsize then [x] else [].

(** The five columns have one entry per bin. *)
Record aligned (c : columns) : Prop := {
  al_offsets : length (c_offsets c) = length (c_chrs c);
  al_inregionidx : length (c_inregionidx c) = length (c_chrs c);
  al_strand : length (c_strand c) = length (c_chrs c);
  al_rel_end : length (c_rel_end c) = length (c_chrs c)
}.

Record indexer_aligned (g : GenomicIndexer) : Prop := {
  ia_offsets : length (offsets g) = length (chrs g);
  ia_inregionidx : length (inregionidx g) = length (chrs g);
  ia_strand : length (strand g) = length (chrs g);
  ia_rel_end : length (rel_end g) = length (chrs g)
}.

(** ** genomicarray.py

    A chromosome array, whether a numpy array in memory or a dataset of
    the HDF5 file, is subscripted with numpy's rules: slices are clipped
    to the axis, an integer subscript outside its axis raises
    [IndexError], and the assigned value is broadcast to the cells of the
    slice.  The two differ in an assignment: numpy checks the value
    against the slice even when the slice is empty and raises
    [ValueError]; h5py returns at once on an empty selection, raises
    [TypeError] for a value that does not broadcast, and cannot write to
    a file that was opened read-only. *)

(** Python slicing [a[start:stop]] on an axis of length [n]: a negative
    bound counts from the end and both bounds are clipped to the axis. *)
Definition slice_bound (i : Z) (n : nat) : Z :=
  if i <? 0 then Z.max (i + Z.of_nat n) 0 else Z.min i (Z.of_nat n).

(** First position and number of positions of [a[start:stop]]. *)
Definition slice_range (start stop : Z) (n : nat) : nat * nat :=
  let lo := slice_bound start n in
  let hi := slice_bound stop n in
  (Z.to_nat lo, Z.to_nat (hi - lo)).

(** An integer subscript on an axis of length [n]. *)
Definition norm_index (i : Z) (n : nat) : result nat :=
  let j := if i <? 0 then i + Z.of_nat n else i in
  if (0 <=? j) && (j <? Z.of_nat n) then Ok (Z.to_nat j) else Raise IndexError.

(** [posixpath.join(dir, name)] for a relative, non-empty [name]. *)
Fixpoint ends_with_slash (s : string) : bool :=
  match s with
  | EmptyString => false
  | String c EmptyString => bool_decide (c = "/"%char)
  | String _ rest => ends_with_slash rest
  end.

Definition path_join (dir name : string) : string :=
  if bool_decide (dir = "") then name
  else if ends_with_slash dir then dir +:+ name
  else dir +:+ "/" +:+ name.

(** [index[i]] for a Python value. *)
Definition py_getitem (o : pyobj) (i : Z) : result pyobj :=
  match o with
  | PyTuple items => py_index items i
  | PyStr s => py_index ((fun c => PyStr (String c EmptyString)) <$> String.list_ascii_of_string s) i
  | _ => Raise TypeError
  end.

Section GenomicArrays.

(** The element type of the arrays (what the typecode denotes) and its
    zero; a value that is written is an element already. *)
Context {V : Type} (zero : V).

(** The type of [loader_args], and [janggu.utils._get_output_data_location],
    which maps the data tags ([None] or a list) to the cache directory. *)
Context {LoaderArgs : Type}.
Variable get_output_data_location : option (list string) -> string.

(** A dense three-axis array: position, strand, condition. *)
Record ndarray : Type := {
  shape : nat * nat * nat;
  cells : list (list (list V))
}.

(** [numpy.zeros(shape, dtype=typecode)] for a typecode that denotes the
    element type [V]; a typecode that numpy does not know is outside this
    model. *)
Definition np_zeros (n0 n1 n2 : Z) : result ndarray :=
  if (n0 <? 0) || (n1 <? 0) || (n2 <? 0) then Raise ValueError
  else Ok {| shape := (Z.to_nat n0, Z.to_nat n1, Z.to_nat n2);
             cells := replicate (Z.to_nat n0)
                        (replicate (Z.to_nat n1) (replicate (Z.to_nat n2) zero)) |}.

(** [a[start:stop]] *)
Definition nd_slice (a : ndarray) (start stop : Z) : ndarray :=
  let '(n0, n1, n2) := shape a in
  let '(lo, k) := slice_range start stop n0 in
  {| shape := (k, n1, n2); cells := take k (drop lo (cells a)) |}.

(** The right-hand side of an assignment: a scalar or a sequence. *)
Inductive value : Type :=
| Scalar (v : V)
| Vector (vs : list V).

(** Broadcasting of the assigned value to [k] cells. *)
Definition broadcast (val : value) (k : nat) : result (list V) :=
  match val with
  | Scalar v => Ok (replicate k v)
  | Vector vs =>
      if bool_decide (length vs = k) then Ok vs
      else match vs with
           | [v] => Ok (replicate k v)
           | _ => Raise ValueError
           end
  end.

Definition set_cell (si ci : nat) (row : list (list V)) (v : V) : list (list V) :=
  alter (fun conds => <[ci := v]> conds) si row.

(** [a[start:stop, s, c] = val] *)
Definition nd_setitem (a : ndarray) (start stop s c : Z) (val : value)
    : result ndarray :=
  let '(n0, n1, n2) := shape a in
  let '(lo, k) := slice_range start stop n0 in
  si <- norm_index s n1 ;;
  ci <- norm_index c n2 ;;
  vs <- broadcast val k ;;
  Ok {| shape := shape a;
        cells := take lo (cells a)
                 ++ zip_with (set_cell si ci) (take k (drop lo (cells a))) vs
                 ++ drop (lo + k) (cells a) |}.

(** A value of the [data] dictionary of [NPGenomicArray.__init__]. *)
Inductive entry : Type :=
| EArray (a : ndarray)
| EStrings (l : list string)
| EInt (z : Z).

(** An HDF5 file: its datasets and the three attributes. *)
Record h5file : Type := {
  h5_datasets : gmap string ndarray;
  h5_conditions : option (list string);
  h5_order : option Z;
  h5_resolution : option Z
}.

Definition empty_h5 : h5file :=
  {| h5_datasets := ∅; h5_conditions := None; h5_order := None;
     h5_resolution := None |}.

Inductive file_mode : Type := ReadOnly | Writable.

(** [self.handle]: a dictionary, or an open HDF5 file. *)
Inductive handle_t : Type :=
| HDict (d : gmap string entry)
| HFile (f : h5file) (mode : file_mode).

Record GenomicArray : Type := {
  stranded : bool;
  condition : list string;
  order : Z;
  resolution : Z;
  typecode : string;
  handle : handle_t
}.

Definition set_handle (self : GenomicArray) (h : handle_t) : GenomicArray :=
  {| stranded := stranded self; condition := condition self;
     order := order self; resolution := resolution self;
     typecode := typecode self; handle := h |}.

(** [GenomicArray.__init__]; the class attribute [handle = dict()] is the
    initial handle. *)
Definition GenomicArray_init (stranded : bool) (conditions : option (list string))
    (typecode : string) (resolution order : Z) : result GenomicArray :=
  let conditions := default ["sample"%string] conditions in
  (* the [order] setter, then the two checks of the constructor *)
  if order <=? 0 then Raise ValueError
  else if order <? 1 then Raise Exception
  else if 4 <? order then Raise Exception
  else if resolution <=? 0 then Raise ValueError
  else Ok {| stranded := stranded; condition := conditions; order := order;
             resolution := resolution; typecode := typecode;
             handle := HDict ∅ |}.

(** [self.handle[chrom]] *)
Definition handle_lookup (h : handle_t) (chrom : string) : result ndarray :=
  match h with
  | HDict d =>
      match d !! chrom with
      | Some (EArray a) => Ok a
      | Some _ => Raise TypeError
      | None => Raise KeyError
      end
  | HFile f _ =>
      match h5_datasets f !! chrom with
      | Some a => Ok a
      | None => Raise KeyError
      end
  end.

(** The handle after the array of [chrom] was assigned to in place; a
    file that was opened read-only refuses the assignment. *)
Definition handle_store (h : handle_t) (chrom : string) (a : ndarray)
    : result handle_t :=
  match h with
  | HDict d => Ok (HDict (<[chrom := EArray a]> d))
  | HFile f Writable =>
      Ok (HFile {| h5_datasets := <[chrom := a]> (h5_datasets f);
                   h5_conditions := h5_conditions f;
                   h5_order := h5_order f;
                   h5_resolution := h5_resolution f |} Writable)
  | HFile _ ReadOnly => Raise OSError
  end.

(** Whether the handle accepts an assignment to its arrays. *)
Definition writable (h : handle_t) : bool :=
  match h with
  | HFile _ ReadOnly => false
  | _ => true
  end.

(** [a // b] *)
Definition floordiv (a b : Z) : result Z :=
  if b =? 0 then Raise ZeroDivisionError else Ok (a / b).

Definition strand_axis (stranded : bool) (s : strand_t) : Z :=
  match stranded, s with
  | true, Minus => 1
  | _, _ => 0
  end.

(** Broadcasting of the assigned value to [k] cells of a dataset of an
    HDF5 file: the rule is numpy's, the error is [TypeError]. *)
Definition h5_broadcast (val : value) (k : nat) : result (list V) :=
  match broadcast val k with
  | Ok vs => Ok vs
  | Raise _ => Raise TypeError
  end.

(** [dataset[start:stop, s, c] = val] on a dataset of an HDF5 file.  The
    selection is made first, and an integer subscript outside its axis
    raises [IndexError]; on an empty selection the assignment returns at
    once, before the value is looked at and before anything is written;
    a value that does not broadcast to the selection raises [TypeError];
    then the cells are written, which a file that was opened read-only
    refuses.  [None]: nothing was written. *)
Definition h5_setitem (m : file_mode) (a : ndarray) (start stop s c : Z)
    (val : value) : result (option ndarray) :=
  let '(n0, n1, n2) := shape a in
  let '(lo, k) := slice_range start stop n0 in
  si <- norm_index s n1 ;;
  ci <- norm_index c n2 ;;
  if bool_decide (k = 0%nat) then Ok None
  else
    vs <- h5_broadcast val k ;;
    match m with
    | ReadOnly => Raise OSError
    | Writable =>
        Ok (Some {| shape := shape a;
                    cells := take lo (cells a)
                             ++ zip_with (set_cell si ci) (take k (drop lo (cells a))) vs
                             ++ drop (lo + k) (cells a) |})
    end.

(** [GenomicArray.__setitem__]: the assignment is numpy's when the handle
    is a dictionary of arrays and h5py's when it is an HDF5 file. *)
Definition GenomicArray_setitem (self : GenomicArray) (index : pyobj)
    (val : value) : result GenomicArray :=
  interval <- py_getitem index 0 ;;
  cond <- py_getitem index 1 ;;
  match interval, cond with
  | PyInterval iv, PyInt c =>
      start <- floordiv (iv_start iv) (resolution self) ;;
      end_ <- floordiv (iv_end iv) (resolution self) ;;
      a <- handle_lookup (handle self) (iv_chrom iv) ;;
      match handle self with
      | HDict _ =>
          a' <- nd_setitem a start end_
                  (strand_axis (stranded self) (iv_strand iv)) c val ;;
          h <- handle_store (handle self) (iv_chrom iv) a' ;;
          Ok (set_handle self h)
      | HFile _ m =>
          written <- h5_setitem m a start end_
                       (strand_axis (stranded self) (iv_strand iv)) c val ;;
          match written with
          | None => Ok self
          | Some a' =>
              h <- handle_store (handle self) (iv_chrom iv) a' ;;
              Ok (set_handle self h)
          end
      end
  | _, _ => Raise IndexError
  end.

(** [GenomicArray.__getitem__] *)
Definition GenomicArray_getitem (self : GenomicArray) (index : pyobj)
    : result ndarray :=
  match index with
  | PyInterval iv =>
      start <- floordiv (iv_start iv) (resolution self) ;;
      end_ <- floordiv (iv_end iv) (resolution self) ;;
      a <- handle_lookup (handle self) (iv_chrom iv) ;;
      Ok (nd_slice a start end_)
  | _ => Raise IndexError
  end.

(** *** Cells, columns and well-formed arrays *)

Definition row_cell (si ci : nat) (row : list (list V)) : option V :=
  row !! si ≫= (fun conds => conds !! ci).

Definition nd_get (a : ndarray) (i si ci : nat) : option V :=
  cells a !! i ≫= row_cell si ci.

(** [a[:, si, ci]] *)
Definition nd_column (a : ndarray) (si ci : nat) : list V :=
  omap (row_cell si ci) (cells a).

Definition row_wf (n1 n2 : nat) (row : list (list V)) : Prop :=
  length row = n1 /\ Forall (fun conds => length conds = n2) row.

(** The cells of an array fill its shape. *)
Definition nd_wf (a : ndarray) : Prop :=
  length (cells a) = (shape a).1.1
  /\ Forall (row_wf (shape a).1.2 (shape a).2) (cells a).

Definition all_zero (a : ndarray) : Prop :=
  forall i si ci : nat,
    (i < (shape a).1.1)%nat -> (si < (shape a).1.2)%nat -> (ci < (shape a).2)%nat ->
    nd_get a i si ci = Some zero.

Definition strand_count (stranded : bool) : nat := if stranded then 2%nat else 1%nat.

(** The shape of a chromosome array in the words of the specification:
    [(ceil(chrom_length / resolution) + 1, 2 if stranded else 1,
    len(conditions))]. *)
Definition spec_shape (chrom_length resolution : Z) (stranded : bool)
    (conditions : list string) : nat * nat * nat :=
  (Z.to_nat (- ((- chrom_length) / resolution) + 1), strand_count stranded,
   length conditions).

(** [read(interval, condition_index)] in the words of the specification:
    an error unless the index is an integer within
    [[0, len(conditions))], else
    [handle[chrom][cell_start:cell_end, strand_axis, condition_index]]. *)
Definition spec_read (self : GenomicArray) (iv : GenomicInterval) (c : pyobj)
    : result (list V) :=
  match c with
  | PyInt c =>
      if (0 <=? c) && (c <? Z.of_nat (length (condition self))) then
        start <- floordiv (iv_start iv) (resolution self) ;;
        end_ <- floordiv (iv_end iv) (resolution self) ;;
        a <- handle_lookup (handle self) (iv_chrom iv) ;;
        si <- norm_index (strand_axis (stranded self) (iv_strand iv)) (shape a).1.2 ;;
        ci <- norm_index c (shape a).2 ;;
        Ok (nd_column (nd_slice a start end_) si ci)
      else Raise IndexError
  | _ => Raise TypeError
  end.

(** *** The file system and the constructors *)

Inductive file : Type :=
| H5 (f : h5file)
| Npz (d : gmap string entry).

(** What the constructors act on: the directories and files of the cache,
    and how many times a loader was invoked. *)
Record world : Type := {
  dirs : gset string;
  files : gmap string file;
  loader_calls : nat
}.

Definition M (A : Type) : Type := world -> world * result A.

Definition retM {A : Type} (a : A) : M A := fun w => (w, Ok a).

Definition raiseM {A : Type} (e : exn) : M A := fun w => (w, Raise e).

Definition liftM {A : Type} (r : result A) : M A := fun w => (w, r).

Definition bindM {A B : Type} (m : M A) (k : A -> M B) : M B :=
  fun w =>
    match m w with
    | (w', Ok a) => k a w'
    | (w', Raise e) => (w', Raise e)
    end.

Notation "x <~ c ;; k" := (bindM c (fun x => k))
  (at level 100, c at next level, right associativity).

(** [os.path.exists] *)
Definition exists_in (w : world) (p : string) : bool :=
  bool_decide (p ∈ dirs w) || bool_decide (is_Some (files w !! p)).

Definition path_exists (p : string) : M bool :=
  fun w => (w, Ok (exists_in w p)).

(** The parents of the path [pre ++ rest] that end within [rest]: the
    prefixes that a ['/'] follows, the empty prefix (the root or the
    working directory) and a prefix that itself ends with ['/'] aside. *)
Fixpoint parents_from (pre rest : string) : list string :=
  match rest with
  | EmptyString => []
  | String c rest' =>
      (if bool_decide (c = "/"%char) && negb (bool_decide (pre = ""))
          && negb (ends_with_slash pre)
       then [pre] else [])
      ++ parents_from (pre +:+ String c EmptyString) rest'
  end.

Definition parents (p : string) : list string := parents_from "" p.

(** [os.makedirs]: the directory is made with every parent on the way to
    it; the parents that exist already stay as they are.  The errors of
    the operating system (a parent that is a file, a missing permission)
    are not modelled. *)
Definition makedirs (p : string) : M unit :=
  fun w => ({| dirs := {[p]} ∪ list_to_set (parents p) ∪ dirs w; files := files w;
               loader_calls := loader_calls w |}, Ok tt).

Definition write_file (p : string) (f : file) : M unit :=
  fun w => ({| dirs := dirs w; files := <[p := f]> (files w);
               loader_calls := loader_calls w |}, Ok tt).

Definition read_file (p : string) : M (option file) :=
  fun w => (w, Ok (files w !! p)).

(** A loader populates the store it is given, or raises. *)
Definition loader_t : Type := GenomicArray -> LoaderArgs -> result GenomicArray.

(** [if loader: loader(self, *loader_args)] *)
Definition invoke_loader (loader : option loader_t)
    (loader_args : option LoaderArgs) (self : GenomicArray) : M GenomicArray :=
  match loader with
  | None => retM self
  | Some run =>
      match loader_args with
      | None => raiseM TypeError
      | Some args =>
          fun w => ({| dirs := dirs w; files := files w;
                       loader_calls := S (loader_calls w) |}, run self args)
      end
  end.

(** [datatags + ['stranded'] if datatags else ['stranded']] when stranded. *)
Definition cache_tags (stranded : bool) (datatags : option (list string))
    : option (list string) :=
  if stranded then
    match datatags with
    | Some (t :: ts) => Some ((t :: ts) ++ ["stranded"%string])
    | _ => Some ["stranded"%string]
    end
  else datatags.

(** One zero array per chromosome, of shape
    [(chroms[chrom] + 1, 2 if stranded else 1, len(self.condition))]. *)
Definition zero_arrays (chroms : gmap string Z) (stranded : bool)
    (conditions : list string) : result (gmap string ndarray) :=
  map_fold (fun chrom n acc =>
              m <- acc ;;
              a <- np_zeros (n + 1) (if stranded then 2 else 1)
                            (Z.of_nat (length conditions)) ;;
              Ok (<[chrom := a]> m))
           (Ok ∅) chroms.

Definition set_meta (self : GenomicArray) (conditions : list string)
    (order resolution : Z) (h : handle_t) : GenomicArray :=
  {| stranded := stranded self; condition := conditions; order := order;
     resolution := resolution; typecode := typecode self; handle := h |}.

Definition attr {A : Type} (a : option A) : M A :=
  match a with
  | Some x => retM x
  | None => raiseM KeyError
  end.

(** The [order] and [resolution] property setters. *)
Definition positive (z : Z) : M Z :=
  if z <=? 0 then raiseM ValueError else retM z.

(** The branch of [HDF5GenomicArray.__init__] that creates the file.
    Opening the file for writing creates it empty; the datasets and the
    attributes reach it when the handle is closed.  When the loader
    raises, the handle is not closed by the constructor: what the file
    holds then, and a file that another handle keeps open, are outside
    this model. *)
Definition HDF5_create (self : GenomicArray) (chroms : gmap string Z)
    (stranded : bool) (path : string) (loader : option loader_t)
    (loader_args : option LoaderArgs) : M GenomicArray :=
  _ <~ write_file path (H5 empty_h5) ;;
  datasets <~ liftM (zero_arrays chroms stranded (condition self)) ;;
  let f := {| h5_datasets := datasets;
              h5_conditions := Some (condition self);
              h5_order := Some (order self);
              h5_resolution := Some (resolution self) |} in
  self <~ invoke_loader loader loader_args (set_handle self (HFile f Writable)) ;;
  match handle self with
  | HFile f' _ => _ <~ write_file path (H5 f') ;; retM self
  | HDict _ => raiseM AttributeError
  end.

(** The end of [HDF5GenomicArray.__init__]: the file is opened read-only
    and the three attributes are taken from it. *)
Definition HDF5_reload (self : GenomicArray) (path : string) : M GenomicArray :=
  content <~ read_file path ;;
  match content with
  | Some (H5 f) =>
      conditions <~ attr (h5_conditions f) ;;
      order <~ attr (h5_order f) ;;
      order <~ positive order ;;
      resolution <~ attr (h5_resolution f) ;;
      resolution <~ positive resolution ;;
      retM (set_meta self conditions order resolution (HFile f ReadOnly))
  | _ => raiseM OSError
  end.

(** [HDF5GenomicArray.__init__] *)
Definition HDF5GenomicArray_init (chroms : gmap string Z) (stranded : bool)
    (conditions : option (list string)) (typecode : string)
    (datatags : option (list string)) (resolution order : Z)
    (cache overwrite : bool) (loader : option loader_t)
    (loader_args : option LoaderArgs) : M GenomicArray :=
  self <~ liftM (GenomicArray_init stranded conditions typecode resolution order) ;;
  _ <~ (if cache then retM tt else raiseM ValueError) ;;
  let memmap_dir := get_output_data_location (cache_tags stranded datatags) in
  let path := path_join memmap_dir "storage.h5" in
  dir_exists <~ path_exists memmap_dir ;;
  _ <~ (if dir_exists then retM tt else makedirs memmap_dir) ;;
  file_exists <~ path_exists path ;;
  self <~ (if negb file_exists || overwrite
           then HDF5_create self chroms stranded path loader loader_args
           else retM self) ;;
  HDF5_reload self path.

(** The local variables of [NPGenomicArray.__init__] that both branches
    define: [data], [names], [condition], [order], [resolution]. *)
Record np_locals : Type := {
  l_data : gmap string entry;
  l_names : gset string;
  l_condition : list string;
  l_order : Z;
  l_resolution : Z
}.

Definition reserved : gset string :=
  {[ "conditions"%string; "order"%string; "resolution"%string ]}.

(** The branch of [NPGenomicArray.__init__] that builds the arrays.  The
    loader assigns into the arrays of [self.handle], which is the very
    dictionary [data]: [data] afterwards is the dictionary of the store
    that the loader leaves. *)
Definition NP_create (self : GenomicArray) (chroms : gmap string Z)
    (stranded : bool) (resolution order : Z) (cache : bool) (path : string)
    (loader : option loader_t) (loader_args : option LoaderArgs)
    : M (GenomicArray * option np_locals) :=
  arrays <~ liftM (zero_arrays chroms stranded (condition self)) ;;
  let data : gmap string entry := EArray <$> arrays in
  self <~ invoke_loader loader loader_args (set_handle self (HDict data)) ;;
  let data := match handle self with HDict d => d | HFile _ _ => data end in
  let names := dom data in
  let data := <["resolution"%string := EInt resolution]>
                (<["order"%string := EInt order]>
                   (<["conditions"%string := EStrings (condition self)]> data)) in
  _ <~ (if cache then write_file path (Npz data) else retM tt) ;;
  retM (self, Some {| l_data := data; l_names := names;
                      l_condition := condition self; l_order := order;
                      l_resolution := resolution |}).

(** The [if cache:] branch that loads the archive.  The entries
    [conditions], [order] and [resolution] of an archive that this
    constructor saved are a list of labels and two integers. *)
Definition NP_reload (path : string) : M np_locals :=
  content <~ read_file path ;;
  match content with
  | Some (Npz d) =>
      conditions <~ (match d !! "conditions"%string with
                     | Some (EStrings l) => retM l
                     | Some _ => raiseM TypeError
                     | None => raiseM KeyError
                     end) ;;
      order <~ (match d !! "order"%string with
                | Some (EInt z) => retM z
                | Some _ => raiseM TypeError
                | None => raiseM KeyError
                end) ;;
      resolution <~ (match d !! "resolution"%string with
                     | Some (EInt z) => retM z
                     | Some _ => raiseM TypeError
                     | None => raiseM KeyError
                     end) ;;
      retM {| l_data := d; l_names := dom d ∖ reserved;
              l_condition := conditions; l_order := order;
              l_resolution := resolution |}
  | _ => raiseM OSError
  end.

(** [NPGenomicArray.__init__] *)
Definition NPGenomicArray_init (chroms : gmap string Z) (stranded : bool)
    (conditions : option (list string)) (typecode : string)
    (datatags : option (list string)) (resolution order : Z)
    (cache overwrite : bool) (loader : option loader_t)
    (loader_args : option LoaderArgs) : M GenomicArray :=
  self <~ liftM (GenomicArray_init stranded conditions typecode resolution order) ;;
  let memmap_dir := get_output_data_location (cache_tags stranded datatags) in
  let path := path_join memmap_dir "storage.npz" in
  dir_exists <~ path_exists memmap_dir ;;
  _ <~ (if cache && negb dir_exists then makedirs memmap_dir else retM tt) ;;
  file_exists <~ path_exists path ;;
  let fresh := (cache && negb file_exists) || overwrite || negb cache in
  built <~ (if fresh
            then NP_create self chroms stranded resolution order cache path
                           loader loader_args
            else retM (self, None)) ;;
  locals <~ (if cache then NP_reload path
             else match built.2 with
                  | Some locals => retM locals
                  | None => raiseM NameError
                  end) ;;
  let self := built.1 in
  let h := HDict (filter (fun kv => kv.1 ∈ l_names locals) (l_data locals)) in
  resolution <~ positive (l_resolution locals) ;;
  order <~ positive (l_order locals) ;;
  retM (set_meta self (l_condition locals) order resolution h).

(** [create_genomic_array] *)
Definition create_genomic_array (chroms : gmap string Z) (stranded : bool)
    (conditions : option (list string)) (typecode : string) (storage : string)
    (resolution order : Z) (datatags : option (list string))
    (cache overwrite : bool) (loader : option loader_t)
    (loader_args : option LoaderArgs) : M GenomicArray :=
  if bool_decide (storage = "hdf5"%string) then
    HDF5GenomicArray_init chroms stranded conditions typecode datatags
                          resolution order cache overwrite loader loader_args
  else if bool_decide (storage = "ndarray"%string) then
    NPGenomicArray_init chroms stranded conditions typecode datatags
                        resolution order cache overwrite loader loader_args
  else raiseM Exception.

End GenomicArrays.

(** ** Example inputs *)

Definition region_0_2 : GenomicInterval :=
  {| iv_chrom := "chr1"; iv_start := 0; iv_end := 2; iv_strand := Plus |}.

Definition region_0_9 : GenomicInterval :=
  {| iv_chrom := "chr1"; iv_start := 0; iv_end := 9; iv_strand := Plus |}.

Definition region_0_10 : GenomicInterval :=
  {| iv_chrom := "chr1"; iv_start := 0; iv_end := 10; iv_strand := Plus |}.

(** The indexer of [chr1:0-10] with [binsize = stepsize = 5]. *)
Definition two_bins : GenomicIndexer :=
  {| binsize := 5; stepsize := 5; flank := 0;
     chrs := ["chr1"; "chr1"]%string; offsets := [0; 0]; inregionidx := [0; 1];
     strand := [Plus; Plus]; rel_end := [5; 5] |}.

Definition cache_dir (datatags : option (list string)) : string := "cache".

Definition empty_world : world (V:=Z) :=
  {| dirs := ∅; files := ∅; loader_calls := 0 |}.

Definition chr1_of_10 : gmap string Z := {[ "chr1"%string := 10 ]}.

(** A stranded in-memory store at resolution 2 with one condition and four
    cells on [chr1]. *)
Definition small_array : ndarray (V:=Z) :=
  {| shape := (4, 2, 1)%nat; cells := replicate 4 (replicate 2 (replicate 1 0)) |}.

Definition small_store : GenomicArray (V:=Z) :=
  {| stranded := true; condition := ["sample"%string]; order := 1; resolution := 2;
     typecode := "int"; handle := HDict {[ "chr1"%string := EArray small_array ]} |}.

Definition interval_2_6 : GenomicInterval :=
  {| iv_chrom := "chr1"; iv_start := 2; iv_end := 6; iv_strand := Minus |}.

Definition interval_3_7 : GenomicInterval :=
  {| iv_chrom := "chr1"; iv_start := 3; iv_end := 7; iv_strand := Minus |}.

Definition interval_4_5 : GenomicInterval :=
  {| iv_chrom := "chr1"; iv_start := 4; iv_end := 5; iv_strand := Plus |}.

(** A loader that writes 7 on the first two cells of [chr1]. *)
Definition sevens : loader_t (V:=Z) (LoaderArgs:=unit) :=
  fun self _ =>
    GenomicArray_setitem self
      (PyTuple [PyInterval {| iv_chrom := "chr1"; iv_start := 0; iv_end := 2;
                              iv_strand := Plus |}; PyInt 0])
      (Scalar 7).

(** The cache after a first construction of a stranded HDF5 store with two
    conditions, [resolution = 2], [order = 3] and the loader [sevens], and
    that store. *)
Definition first_world : world (V:=Z) :=
  Eval vm_compute in
    (HDF5GenomicArray_init 0 cache_dir chr1_of_10 true
       (Some ["rep1"; "rep2"]%string) "int" None 2 3 true false
       (Some sevens) (Some tt) empty_world).1.

Definition first_store : GenomicArray (V:=Z) :=
  Eval vm_compute in
    match (HDF5GenomicArray_init 0 cache_dir chr1_of_10 true
             (Some ["rep1"; "rep2"]%string) "int" None 2 3 true false
             (Some sevens) (Some tt) empty_world).2 with
    | Ok arr => arr
    | Raise _ => small_store
    end.

(** The array of [chr1] in that store. *)
Definition first_array : ndarray (V:=Z) :=
  Eval vm_compute in
    match handle_lookup (handle first_store) "chr1" with
    | Ok a => a
    | Raise _ => small_array
    end.

(** The file that the first construction left in the cache. *)
Definition first_file : h5file (V:=Z) :=
  Eval vm_compute in
    match files first_world !! path_join (cache_dir None) "storage.h5" with
    | Some (H5 f) => f
    | _ => empty_h5
    end.

(** The cache and the store after the factory built an HDF5 store at
    [resolution = 2] without a loader. *)
Definition zero_world : world (V:=Z) :=
  Eval vm_compute in
    (create_genomic_array 0 cache_dir chr1_of_10 true None "int" "hdf5" 2 1 None
       true false None (None : option unit) empty_world).1.

Definition zero_store : GenomicArray (V:=Z) :=
  Eval vm_compute in
    match (create_genomic_array 0 cache_dir chr1_of_10 true None "int" "hdf5" 2 1 None
             true false None (None : option unit) empty_world).2 with
    | Ok arr => arr
    | Raise _ => small_store
    end.

(** ** More of the indexer and of the stores

    The table of an indexer as a list of rows, and what the constructors
    hand to the loader. *)

(** One row of the table: the entries of the five columns for one bin. *)
Record bin_row : Type := {
  r_chrom : string;
  r_offset : Z;
  r_index : Z;
  r_strand : strand_t;
  r_rel_end : Z
}.

Definition region_rows (binsize stepsize : Z) (fixed_size_batches : bool)
    (iv : GenomicInterval) : list bin_row :=
  let val := region_val binsize stepsize iv in
  let n := val / stepsize in
  ((fun k => {| r_chrom := iv_chrom iv; r_offset := iv_start iv; r_index := k;
                r_strand := iv_strand iv; r_rel_end := binsize |}) <$> py_range n)
  ++ fragment fixed_size_batches val stepsize
       {| r_chrom := iv_chrom iv; r_offset := iv_start iv; r_index := n;
          r_strand := iv_strand iv; r_rel_end := val - n * stepsize |}.

Definition bin_interval (stepsize flank : Z) (r : bin_row) : GenomicInterval :=
  let start := r_offset r + r_index r * stepsize in
  {| iv_chrom := r_chrom r; iv_start := start - flank;
     iv_end := start + (if 0 <? r_rel_end r then r_rel_end r else 1) + flank;
     iv_strand := r_strand r |}.

Definition columns_of (rows : list bin_row) : columns :=
  {| c_chrs := r_chrom <$> rows; c_offsets := r_offset <$> rows;
     c_inregionidx := r_index <$> rows; c_strand := r_strand <$> rows;
     c_rel_end := r_rel_end <$> rows |}.

(** ['{}:{}-{}'.format(iv.chrom, iv.start, iv.end)] *)
Definition format_interval (iv : GenomicInterval) : string :=
  iv_chrom iv +:+ ":" +:+ pretty (iv_start iv) +:+ "-" +:+ pretty (iv_end iv).

(** [for iv in self]: the class has [__getitem__] and no [__iter__], so the
    loop asks for the items 0, 1, 2, ... and ends at the first
    [IndexError]; any other exception leaves the loop.  [fuel] bounds the
    number of items that are asked for. *)
Fixpoint iter_items (g : GenomicIndexer) (fuel : nat) (i : Z)
    : result (list GenomicInterval) :=
  match fuel with
  | O => Ok []
  | S fuel =>
      match GenomicIndexer_getitem g (PyInt i) with
      | Ok iv => rest <- iter_items g fuel (i + 1) ;; Ok (iv :: rest)
      | Raise IndexError => Ok []
      | Raise e => Raise e
      end
  end.

(** [GenomicIndexer.tostr]; the item [len(self.offsets)] is the first
    subscript of [__getitem__] that is out of range at the latest. *)
Definition tostr (g : GenomicIndexer) : result (list string) :=
  ivs <- iter_items g (S (length (offsets g))) 0 ;;
  Ok (format_interval <$> ivs).

(** The number of items that every column has. *)
Definition shortest_column (g : GenomicIndexer) : nat :=
  Nat.min (length (offsets g))
    (Nat.min (length (inregionidx g))
       (Nat.min (length (rel_end g))
          (Nat.min (length (chrs g)) (length (strand g))))).

(** An integer subscript that numpy accepts on an axis of length [n]. *)
Definition in_axis (i : Z) (n : nat) : Prop := - Z.of_nat n <= i < Z.of_nat n.

Section MoreDefinitions.

Context {V : Type} (zero : V) {LoaderArgs : Type}.

(** Every array of the handle fills its shape. *)
Definition store_wf (self : GenomicArray (V:=V)) : Prop :=
  forall (chrom : string) (a : ndarray (V:=V)),
    handle_lookup (handle self) chrom = Ok a -> nd_wf a.

(** Every configured chromosome has a zero array of shape
    [(chrom_length + 1, 2 if stranded else 1, len(self.condition))]. *)
Definition zeroed_store (self : GenomicArray (V:=V)) (chroms : gmap string Z) : Prop :=
  forall (chrom : string) (n : Z),
    chroms !! chrom = Some n ->
    exists a, handle_lookup (handle self) chrom = Ok a
      /\ shape a = (Z.to_nat (n + 1), strand_count (stranded self), length (condition self))
      /\ all_zero zero a.

(** How many times [if loader: loader(self, *loader_args)] calls the loader
    when it returns. *)
Definition loader_runs (loader : option (loader_t (V:=V) (LoaderArgs:=LoaderArgs)))
    : nat :=
  match loader with
  | Some _ => 1%nat
  | None => 0%nat
  end.

(** A value that numpy broadcasts to [k] cells: a scalar, a sequence of
    [k] elements or a sequence of one element. *)
Definition fits (val : value (V:=V)) (k : nat) : Prop :=
  match val with
  | Scalar _ => True
  | Vector vs => length vs = k \/ length vs = 1%nat
  end.

(** [self'] is what [if loader: loader(self, *loader_args)] leaves of
    [self0] when it returns. *)
Definition loaded (loader : option (loader_t (V:=V) (LoaderArgs:=LoaderArgs)))
    (loader_args : option LoaderArgs) (self0 self' : GenomicArray (V:=V)) : Prop :=
  match loader with
  | None => self' = self0
  | Some run => exists args, loader_args = Some args /\ run self0 args = Ok self'
  end.

End MoreDefinitions.

(** ** More example inputs *)

(** The indexer of [chr1:0-9] with [binsize = stepsize = 5] and variable
    sizes: one bin and a fragment of four positions. *)
Definition ragged_bins : GenomicIndexer :=
  {| binsize := 5; stepsize := 5; flank := 0;
     chrs := ["chr1"; "chr1"]%string; offsets := [0; 0]; inregionidx := [0; 1];
     strand := [Plus; Plus]; rel_end := [5; 4] |}.

Definition interval_5_9 : GenomicInterval :=
  {| iv_chrom := "chr1"; iv_start := 5; iv_end := 9; iv_strand := Plus |}.

(** [small_store] after 7 was written to the minus strand of [chr1:2-6]. *)
Definition written_store : GenomicArray (V:=Z) :=
  Eval vm_compute in
    match GenomicArray_setitem small_store
            (PyTuple [PyInterval interval_2_6; PyInt 0]) (Scalar 7) with
    | Ok self => self
    | Raise _ => small_store
    end.

(** The cache after a first construction of a stranded in-memory store
    with caching, two conditions, [resolution = 2], [order = 3] and the
    loader [sevens], and that store. *)
Definition archive_world : world (V:=Z) :=
  Eval vm_compute in
    (NPGenomicArray_init 0 cache_dir chr1_of_10 true
       (Some ["rep1"; "rep2"]%string) "int" None 2 3 true false
       (Some sevens) (Some tt) empty_world).1.

Definition archive_store : GenomicArray (V:=Z) :=
  Eval vm_compute in
    match (NPGenomicArray_init 0 cache_dir chr1_of_10 true
             (Some ["rep1"; "rep2"]%string) "int" None 2 3 true false
             (Some sevens) (Some tt) empty_world).2 with
    | Ok arr => arr
    | Raise _ => small_store
    end.

(** * Properties *)

(** ** The region indexer *)

Lemma length_py_repeat {A : Type} (x : A) (n : Z) :
  Z.of_nat (length (py_repeat x n)) = Z.max 0 n.
Proof. unfold py_repeat. rewrite length_replicate. lia. Qed.

Lemma length_py_range (n : Z) : Z.of_nat (length (py_range n)) = Z.max 0 n.
Proof. unfold py_range. rewrite length_fmap, length_seq. lia. Qed.

Lemma add_region_aligned b s fx acc iv :
  aligned acc -> aligned (add_region b s fx acc iv).
Proof.
  intros [H1 H2 H3 H4]. unfold add_region.
  destruct (has_fragment _ _ _); constructor; simpl;
    rewrite ?length_app; simpl; unfold py_repeat, py_range;
    rewrite ?length_replicate, ?length_fmap, ?length_seq; lia.
Qed.

Lemma add_region_length b s fx acc iv :
  Z.of_nat (length (c_chrs (add_region b s fx acc iv)))
  = Z.of_nat (length (c_chrs acc)) + bin_count b s fx iv.
Proof.
  unfold add_region, bin_count.
  destruct (has_fragment _ _ _); simpl; rewrite ?length_app, ?Nat2Z.inj_add;
    rewrite length_py_repeat; simpl; lia.
Qed.

Lemma fold_add_region_length b s fx regions : forall acc,
  Z.of_nat (length (c_chrs (fold_left (add_region b s fx) regions acc)))
  = Z.of_nat (length (c_chrs acc)) + total (bin_count b s fx) regions.
Proof.
  induction regions as [|iv regions IH]; intros acc; simpl.
  - lia.
  - rewrite IH, add_region_length. lia.
Qed.

Lemma fold_add_region_aligned b s fx regions : forall acc,
  aligned acc -> aligned (fold_left (add_region b s fx) regions acc).
Proof.
  induction regions as [|iv regions IH]; intros acc Hacc; simpl; [done|].
  apply IH, add_region_aligned, Hacc.
Qed.

Lemma GenomicIndexer_init_ok b s fl :
  0 < b -> 0 < s -> 0 <= fl -> GenomicIndexer_init b s fl = Ok (b, s, fl).
Proof.
  intros Hb Hs Hf. unfold GenomicIndexer_init.
  destruct (Z.leb_spec b 0); [lia|].
  destruct (Z.leb_spec s 0); [lia|].
  destruct (Z.ltb_spec fl 0); [lia|]. done.
Qed.

Lemma create_from_file_aligned regions b s fl fx g :
  create_from_file regions b s fl fx = Ok g -> indexer_aligned g.
Proof.
  unfold create_from_file. destruct (GenomicIndexer_init b s fl) as [p|e]; simpl; [|done].
  intros [= <-].
  destruct (fold_add_region_aligned b s fx regions no_columns) as [H1 H2 H3 H4].
  { by constructor. }
  by constructor.
Qed.

(** C1 (as amended).  For positive [binsize] and [stepsize] and a
    non-negative [flank] the indexer is built, and its length is the sum
    over the regions of [max(0, val div stepsize)], where [val] is
    [L - binsize + stepsize] when [stepsize <= binsize] and [L] otherwise,
    plus one per region when [fixed_size_batches] is false and
    [val mod stepsize > 0]. *)
Theorem create_from_file_length regions b s fl fx :
  0 < b -> 0 < s -> 0 <= fl ->
  exists g, create_from_file regions b s fl fx = Ok g
    /\ GenomicIndexer_len g = total (bin_count b s fx) regions.
Proof.
  intros Hb Hs Hf. unfold create_from_file.
  rewrite GenomicIndexer_init_ok by done. simpl.
  eexists; split; [reflexivity|]. unfold GenomicIndexer_len. simpl.
  rewrite fold_add_region_length. simpl. lia.
Qed.

(** C2 (as amended).  One iteration of the loop appends
    [n = val div stepsize] full rows (none when [n <= 0]) and then at most
    one trailing row.  The trailing row is there exactly when
    [fixed_size_batches] is false and [val mod stepsize > 0]; its length is
    [val - n * stepsize = val mod stepsize] and its in-region index is [n].
    When [binsize <= stepsize], [val] is the region length [L]. *)
Theorem add_region_rows b s fx acc iv :
  let val := region_val b s iv in
  let n := val / s in
  let acc' := add_region b s fx acc iv in
  (c_chrs acc' = c_chrs acc ++ py_repeat (iv_chrom iv) n ++ fragment fx val s (iv_chrom iv)
   /\ c_offsets acc' = c_offsets acc ++ py_repeat (iv_start iv) n
                       ++ fragment fx val s (iv_start iv)
   /\ c_strand acc' = c_strand acc ++ py_repeat (iv_strand iv) n
                      ++ fragment fx val s (iv_strand iv)
   /\ c_inregionidx acc' = c_inregionidx acc ++ py_range n ++ fragment fx val s n
   /\ c_rel_end acc' = c_rel_end acc ++ py_repeat b n ++ fragment fx val s (val - n * s))
  /\ (forall (A : Type) (x : A),
        fragment fx val s x = [x] <-> fx = false /\ 0 < val mod s)
  /\ (forall (A : Type) (x : A),
        fragment fx val s x = [] <-> fx = true \/ val mod s <= 0)
  /\ val - n * s = val mod s
  /\ (b <= s -> val = iv_end iv - iv_start iv).
Proof.
  intros val n acc'. subst acc'. unfold add_region, fragment. fold val. fold n.
  split; [|split; [|split; [|split]]].
  - destruct (has_fragment fx val s); simpl; rewrite <- ?app_assoc, ?app_nil_r; done.
  - intros A x. unfold has_fragment.
    destruct fx, (Z.ltb_spec 0 (val mod s)); simpl;
      intuition (congruence || lia).
  - intros A x. unfold has_fragment.
    destruct fx, (Z.ltb_spec 0 (val mod s)); simpl;
      intuition (congruence || lia).
  - subst n. pose proof (Z_div_mod_eq_full val s). lia.
  - intros Hbs. subst val. unfold region_val.
    destruct (Z.leb_spec s b); [|done]. lia.
Qed.

Lemma py_index_ok {A : Type} (l : list A) (i : Z) :
  is_ok (py_index l i) = true <-> - Z.of_nat (length l) <= i < Z.of_nat (length l).
Proof.
  unfold py_index.
  destruct (Z.ltb_spec i 0).
  - destruct (Z.leb_spec 0 (i + Z.of_nat (length l))),
             (Z.ltb_spec (i + Z.of_nat (length l)) (Z.of_nat (length l))); simpl;
      try (split; [done|lia]).
    destruct (lookup_lt_is_Some_2 l (Z.to_nat (i + Z.of_nat (length l)))) as [x ->]; [lia|].
    simpl. split; [lia|done].
  - destruct (Z.leb_spec 0 i), (Z.ltb_spec i (Z.of_nat (length l))); simpl;
      try (split; [done|lia]).
    destruct (lookup_lt_is_Some_2 l (Z.to_nat i)) as [x ->]; [lia|].
    simpl. split; [lia|done].
Qed.

Lemma py_index_error {A : Type} (l : list A) (i : Z) (e : exn) :
  py_index l i = Raise e -> e = IndexError.
Proof.
  unfold py_index. destruct (_ && _); [|congruence].
  destruct (l !! _); congruence.
Qed.

Lemma py_index_wrap {A : Type} (l : list A) (i : Z) :
  - Z.of_nat (length l) <= i < 0 -> py_index l i = py_index l (i + Z.of_nat (length l)).
Proof.
  intros Hi. unfold py_index.
  destruct (Z.ltb_spec i 0); [|lia].
  destruct (Z.ltb_spec (i + Z.of_nat (length l)) 0); [lia|]. done.
Qed.

Lemma getitem_int_ok g i :
  indexer_aligned g ->
  (is_ok (GenomicIndexer_getitem g (PyInt i)) = true
   <-> - GenomicIndexer_len g <= i < GenomicIndexer_len g).
Proof.
  intros [H1 H2 H3 H4]. unfold GenomicIndexer_len. simpl.
  pose proof (py_index_ok (offsets g) i) as Ho.
  pose proof (py_index_ok (inregionidx g) i) as Hk.
  pose proof (py_index_ok (rel_end g) i) as Hr.
  pose proof (py_index_ok (chrs g) i) as Hc.
  pose proof (py_index_ok (strand g) i) as Hs.
  rewrite H1 in Ho. rewrite H2 in Hk. rewrite H4 in Hr. rewrite H3 in Hs.
  destruct (py_index (offsets g) i); simpl in *; [|tauto].
  destruct (py_index (inregionidx g) i); simpl in *; [|tauto].
  destruct (py_index (rel_end g) i); simpl in *; [|tauto].
  destruct (py_index (chrs g) i); simpl in *; [|tauto].
  destruct (py_index (strand g) i); simpl in *; tauto.
Qed.

Lemma getitem_error g index :
  is_ok (GenomicIndexer_getitem g index) = false ->
  GenomicIndexer_getitem g index = Raise IndexError.
Proof.
  destruct index; try done. simpl.
  repeat match goal with
  | |- context [py_index ?l ?i] =>
      let E := fresh in
      destruct (py_index l i) eqn:E; simpl;
      [clear E|apply py_index_error in E; by subst]
  end. done.
Qed.

(** C7 (as amended).  On a built indexer, [get(i)] for an integer [i]
    returns an interval exactly when [-length() <= i < length()]; a
    negative index in that range addresses the bin [i + length()], as
    Python sequences do.  An integer outside that range, and every key that
    is not an integer, raises [IndexError]. *)
Theorem getitem_domain regions b s fl fx g :
  create_from_file regions b s fl fx = Ok g ->
  (forall i, is_ok (GenomicIndexer_getitem g (PyInt i)) = true
             <-> - GenomicIndexer_len g <= i < GenomicIndexer_len g)
  /\ (forall i, - GenomicIndexer_len g <= i < 0 ->
        GenomicIndexer_getitem g (PyInt i)
        = GenomicIndexer_getitem g (PyInt (i + GenomicIndexer_len g)))
  /\ (forall i, ~ (- GenomicIndexer_len g <= i < GenomicIndexer_len g) ->
        GenomicIndexer_getitem g (PyInt i) = Raise IndexError)
  /\ (forall index, (forall i, index <> PyInt i) ->
        GenomicIndexer_getitem g index = Raise IndexError).
Proof.
  intros Hg. pose proof (create_from_file_aligned _ _ _ _ _ _ Hg) as Hal.
  split; [|split; [|split]].
  - intros i. by apply getitem_int_ok.
  - intros i Hi. destruct Hal as [H1 H2 H3 H4]. unfold GenomicIndexer_len in *. simpl.
    rewrite (py_index_wrap (offsets g)), (py_index_wrap (inregionidx g)),
      (py_index_wrap (rel_end g)), (py_index_wrap (chrs g)),
      (py_index_wrap (strand g)) by lia.
    by rewrite H1, H2, H3, H4.
  - intros i Hi. apply getitem_error.
    pose proof (getitem_int_ok g i Hal) as Hok.
    destruct (is_ok _); [|done]. exfalso. apply Hi, Hok. done.
  - intros index Hne. destruct index; try done. by destruct (Hne z).
Qed.

Lemma elem_of_where_eq (names : list string) (name : string) (i : nat) :
  i ∈ where_eq names name
  <-> exists n, names !! i = Some n /\ np_str n = np_str name.
Proof.
  unfold where_eq. rewrite list_elem_of_filter, elem_of_seq. split.
  - intros [H _]. destruct (names !! i) as [n|]; [|done].
    injection H as H. eauto.
  - intros (n & Hn & Heq). rewrite Hn. cbn. split; [by rewrite Heq|].
    apply lookup_lt_Some in Hn. lia.
Qed.

Lemma where_eq_lt (names : list string) (name : string) (i : nat) :
  i ∈ where_eq names name -> (i < length names)%nat.
Proof.
  intros (n & Hn & _)%elem_of_where_eq. by apply lookup_lt_Some in Hn.
Qed.

(** C8.  For every indexer and chromosome name [c], the indices returned
    for [include = {c}] and those returned for [exclude = {c}] partition
    the index set [{0, ..., length() - 1}]: their union is the whole set,
    their intersection is empty, and neither list repeats an index. *)
Theorem idx_by_chrom_partition (g : GenomicIndexer) (c : string) :
  let inc : gset nat := list_to_set (idx_by_chrom g (FList [c]) FNone) in
  let exc : gset nat := list_to_set (idx_by_chrom g FNone (FList [c])) in
  inc ∪ exc = list_to_set (seq 0 (length (chrs g)))
  /\ inc ∩ exc = ∅
  /\ NoDup (idx_by_chrom g (FList [c]) FNone)
  /\ NoDup (idx_by_chrom g FNone (FList [c])).
Proof.
  unfold idx_by_chrom. simpl. rewrite !list_to_set_elements_L.
  split; [|split; [|split]]; try apply NoDup_elements.
  - apply set_eq. intros i.
    rewrite !elem_of_union, elem_of_difference, !elem_of_list_to_set,
      elem_of_seq, elem_of_empty.
    split.
    + intros [[[]|H]|[H _]]; [|lia].
      apply where_eq_lt in H. lia.
    + intros [_ Hi]. destruct (decide (i ∈ where_eq (chrs g) c)); [left; right; done|].
      right. split; [lia|done].
  - apply set_eq. intros i.
    rewrite elem_of_intersection, !elem_of_union, elem_of_difference,
      !elem_of_list_to_set, !elem_of_empty. tauto.
Qed.

(** ** The array store: reading and writing *)

Section ArrayFacts.
Context {V : Type} (zero : V).
Implicit Types (a : ndarray (V:=V)) (self : GenomicArray (V:=V)).
Implicit Types (val : value (V:=V)) (h : handle_t (V:=V)).

Lemma slice_bound_range (i : Z) (n : nat) : 0 <= slice_bound i n <= Z.of_nat n.
Proof. unfold slice_bound. destruct (Z.ltb_spec i 0); lia. Qed.

Lemma slice_range_bounds (start stop : Z) (n lo k : nat) :
  slice_range start stop n = (lo, k) -> (lo + k <= n)%nat.
Proof.
  unfold slice_range. intros [= <- <-].
  pose proof (slice_bound_range start n). pose proof (slice_bound_range stop n). lia.
Qed.

Lemma slice_range_empty (start : Z) (n : nat) :
  slice_range start start n = (Z.to_nat (slice_bound start n), 0%nat).
Proof. unfold slice_range. by rewrite Z.sub_diag. Qed.

Lemma slice_range_inside (start stop : Z) (n : nat) :
  0 <= start <= stop -> stop <= Z.of_nat n ->
  slice_range start stop n = (Z.to_nat start, Z.to_nat (stop - start)).
Proof.
  intros H1 H2. unfold slice_range, slice_bound.
  destruct (Z.ltb_spec start 0), (Z.ltb_spec stop 0); try lia.
  rewrite !Z.min_l by lia. done.
Qed.

Lemma norm_index_lt (i : Z) (n j : nat) : norm_index i n = Ok j -> (j < n)%nat.
Proof.
  unfold norm_index. destruct (Z.ltb_spec i 0).
  - destruct (Z.leb_spec 0 (i + Z.of_nat n)), (Z.ltb_spec (i + Z.of_nat n) (Z.of_nat n));
      simpl; intros [= <-]; lia.
  - destruct (Z.leb_spec 0 i), (Z.ltb_spec i (Z.of_nat n)); simpl; intros [= <-]; lia.
Qed.

Lemma floordiv_ok (x r : Z) : r <> 0 -> floordiv x r = Ok (x / r).
Proof. intros Hr. unfold floordiv. by destruct (Z.eqb_spec r 0). Qed.

Lemma broadcast_length val k vs : broadcast val k = Ok vs -> length vs = k.
Proof.
  destruct val as [v|l]; simpl.
  - intros [= <-]. apply length_replicate.
  - case_bool_decide; [congruence|].
    destruct l as [|v [|v' l]]; try done. intros [= <-]. apply length_replicate.
Qed.

Lemma broadcast_empty val :
  (forall vs, val = Vector vs -> (length vs <= 1)%nat) ->
  exists vs', broadcast val 0 = Ok vs'.
Proof.
  destruct val as [v|vs]; simpl; [eauto|].
  intros H. specialize (H vs eq_refl).
  destruct vs as [|v [|v' vs]]; simpl in *; eauto. lia.
Qed.

(** *** Well-formed arrays: [numpy.zeros] builds one, an assignment keeps it *)

Lemma np_zeros_wf (n0 n1 n2 : Z) a : np_zeros zero n0 n1 n2 = Ok a -> nd_wf a.
Proof.
  unfold np_zeros. destruct (_ || _); [done|]. intros [= <-].
  split; cbn [shape cells fst snd]; [apply length_replicate|].
  apply Forall_replicate. split; [apply length_replicate|].
  apply Forall_replicate, length_replicate.
Qed.

Lemma set_cell_wf (n1 n2 si ci : nat) (row : list (list V)) (v : V) :
  row_wf n1 n2 row -> row_wf n1 n2 (set_cell si ci row v).
Proof.
  intros [Hlen Hrow]. unfold set_cell. split; [by rewrite length_alter|].
  apply Forall_alter; [done|]. intros conds _ Hc. by rewrite length_insert.
Qed.

Lemma zip_with_set_cell_wf (n1 n2 si ci : nat) (rows : list (list (list V))) :
  forall vs, Forall (row_wf n1 n2) rows ->
             Forall (row_wf n1 n2) (zip_with (set_cell si ci) rows vs).
Proof.
  induction rows as [|row rows IH]; intros [|v vs] Hwf; simpl; try done.
  apply Forall_cons in Hwf as [Hrow Hrows].
  constructor; [by apply set_cell_wf|by apply IH].
Qed.

Lemma nd_setitem_wf a (start stop s c : Z) val a' :
  nd_wf a -> nd_setitem a start stop s c val = Ok a' -> nd_wf a'.
Proof.
  destruct a as [[[n0 n1] n2] rows]. unfold nd_wf, nd_setitem.
  cbn [shape cells fst snd]. intros [Hlen Hwf].
  destruct (slice_range start stop n0) as [lo k] eqn:Hsr.
  pose proof (slice_range_bounds _ _ _ _ _ Hsr) as Hb.
  destruct (norm_index s n1) as [si|]; cbn [bind]; [|done].
  destruct (norm_index c n2) as [ci|]; cbn [bind]; [|done].
  destruct (broadcast val k) as [vs|] eqn:Hvs; cbn [bind]; [|done].
  apply broadcast_length in Hvs. intros [= <-]. cbn [shape cells fst snd]. split.
  - rewrite !length_app, length_zip_with, !length_take, !length_drop. lia.
  - rewrite !Forall_app. split; [by apply Forall_take|]. split.
    + by apply zip_with_set_cell_wf, Forall_take, Forall_drop.
    + by apply Forall_drop.
Qed.

(** *** An assignment to an empty cell range *)

Lemma nd_setitem_empty a (start s c : Z) val a' :
  nd_setitem a start start s c val = Ok a' -> a' = a.
Proof.
  unfold nd_setitem. destruct a as [[[n0 n1] n2] rows]. cbn [shape cells].
  rewrite slice_range_empty.
  destruct (norm_index s n1); cbn [bind]; [|done].
  destruct (norm_index c n2); cbn [bind]; [|done].
  destruct (broadcast val 0); cbn [bind]; [|done].
  intros [= <-]. f_equal. rewrite Nat.add_0_r. cbn [take zip_with app].
  apply take_drop.
Qed.

Lemma handle_store_same h (chrom : string) a :
  handle_lookup h chrom = Ok a -> writable h = true ->
  handle_store h chrom a = Ok h.
Proof.
  destruct h as [d|[ds cs o r] [|]]; simpl; try done.
  - destruct (d !! chrom) as [[x| |]|] eqn:E; try done.
    intros [= ->] _. by rewrite insert_id.
  - destruct (ds !! chrom) as [x|] eqn:E; [|done].
    intros [= ->] _. by rewrite insert_id.
Qed.

Lemma handle_lookup_store h h' (chrom : string) a :
  handle_store h chrom a = Ok h' -> handle_lookup h' chrom = Ok a.
Proof.
  destruct h as [d|f [|]]; simpl; try done; intros [= <-]; simpl;
    by rewrite lookup_insert_eq.
Qed.

Lemma set_handle_same self : set_handle self (handle self) = self.
Proof. by destruct self. Qed.

Lemma nd_setitem_inv a (start stop s c : Z) val a' :
  nd_setitem a start stop s c val = Ok a' ->
  exists si ci vs,
    norm_index s (shape a).1.2 = Ok si
    /\ norm_index c (shape a).2 = Ok ci
    /\ broadcast val (slice_range start stop (shape a).1.1).2 = Ok vs
    /\ shape a' = shape a
    /\ cells a' = take (slice_range start stop (shape a).1.1).1 (cells a)
                  ++ zip_with (set_cell si ci)
                       (take (slice_range start stop (shape a).1.1).2
                             (drop (slice_range start stop (shape a).1.1).1 (cells a)))
                       vs
                  ++ drop ((slice_range start stop (shape a).1.1).1
                           + (slice_range start stop (shape a).1.1).2) (cells a).
Proof.
  destruct a as [[[n0 n1] n2] rows]. unfold nd_setitem. cbn [shape cells fst snd].
  destruct (slice_range start stop n0) as [lo k]. cbn [fst snd].
  destruct (norm_index s n1) as [si|]; cbn [bind]; [|done].
  destruct (norm_index c n2) as [ci|]; cbn [bind]; [|done].
  destruct (broadcast val k) as [vs|]; cbn [bind]; [|done].
  intros [= <-]. eexists si, ci, vs. done.
Qed.

Lemma setitem_unfold self (iv : GenomicInterval) (c : Z) val :
  GenomicArray_setitem self (PyTuple [PyInterval iv; PyInt c]) val
  = (start <- floordiv (iv_start iv) (resolution self) ;;
     end_ <- floordiv (iv_end iv) (resolution self) ;;
     a <- handle_lookup (handle self) (iv_chrom iv) ;;
     match handle self with
     | HDict _ =>
         a' <- nd_setitem a start end_
                 (strand_axis (stranded self) (iv_strand iv)) c val ;;
         h <- handle_store (handle self) (iv_chrom iv) a' ;;
         Ok (set_handle self h)
     | HFile _ m =>
         written <- h5_setitem m a start end_
                      (strand_axis (stranded self) (iv_strand iv)) c val ;;
         match written with
         | None => Ok self
         | Some a' =>
             h <- handle_store (handle self) (iv_chrom iv) a' ;;
             Ok (set_handle self h)
         end
     end).
Proof. done. Qed.

Lemma h5_setitem_inv (m : file_mode) a (start stop s c : Z) val
    (written : option (ndarray (V:=V))) :
  h5_setitem m a start stop s c val = Ok written ->
  exists si ci,
    norm_index s (shape a).1.2 = Ok si /\ norm_index c (shape a).2 = Ok ci
    /\ (((slice_range start stop (shape a).1.1).2 = 0%nat /\ written = None)
        \/ ((slice_range start stop (shape a).1.1).2 <> 0%nat /\ m = Writable
            /\ exists a', written = Some a'
                 /\ nd_setitem a start stop s c val = Ok a')).
Proof.
  unfold h5_setitem, nd_setitem, h5_broadcast.
  destruct (shape a) as [[n0 n1] n2]. cbn [fst snd].
  destruct (slice_range start stop n0) as [lo k] eqn:Hsr. cbn [snd].
  destruct (norm_index s n1) as [si|]; cbn [bind]; [|done].
  destruct (norm_index c n2) as [ci|]; cbn [bind]; [|done].
  case_bool_decide as Hk.
  - intros [= <-]. exists si, ci. split; [done|]. split; [done|]. by left.
  - destruct (broadcast val k) as [vs|]; cbn [bind]; [|done].
    destruct m; [done|]. intros [= <-]. exists si, ci.
    split; [done|]. split; [done|]. right. split; [done|]. split; [done|]. eauto.
Qed.

Lemma h5_setitem_empty (m : file_mode) a (start stop s c : Z) val :
  (slice_range start stop (shape a).1.1).2 = 0%nat ->
  is_ok (norm_index s (shape a).1.2) = true ->
  is_ok (norm_index c (shape a).2) = true ->
  h5_setitem m a start stop s c val = Ok None.
Proof.
  unfold h5_setitem. destruct (shape a) as [[n0 n1] n2]. cbn [fst snd].
  destruct (slice_range start stop n0) as [lo k]. cbn [snd]. intros -> Hs Hc.
  destruct (norm_index s n1); [|done]. destruct (norm_index c n2); [|done]. done.
Qed.

Lemma h5_setitem_nd a (start stop s c : Z) val a' :
  (slice_range start stop (shape a).1.1).2 <> 0%nat ->
  nd_setitem a start stop s c val = Ok a' ->
  h5_setitem Writable a start stop s c val = Ok (Some a').
Proof.
  unfold h5_setitem, nd_setitem, h5_broadcast.
  destruct (shape a) as [[n0 n1] n2]. cbn [fst snd].
  destruct (slice_range start stop n0) as [lo k]. cbn [snd]. intros Hk.
  destruct (norm_index s n1) as [si|]; cbn [bind]; [|done].
  destruct (norm_index c n2) as [ci|]; cbn [bind]; [|done].
  rewrite bool_decide_eq_false_2 by done.
  destruct (broadcast val k) as [vs|]; cbn [bind]; [|done].
  by intros [= <-].
Qed.

(** What a write that returns has done: nothing, on an empty selection of
    a dataset of a file; else the array of the chromosome was assigned
    to and stored in a handle that accepts it. *)
Lemma setitem_inv self (iv : GenomicInterval) (c : Z) val self' :
  GenomicArray_setitem self (PyTuple [PyInterval iv; PyInt c]) val = Ok self' ->
  exists a si ci,
    resolution self <> 0
    /\ handle_lookup (handle self) (iv_chrom iv) = Ok a
    /\ norm_index (strand_axis (stranded self) (iv_strand iv)) (shape a).1.2 = Ok si
    /\ norm_index c (shape a).2 = Ok ci
    /\ ((self' = self
         /\ (slice_range (iv_start iv / resolution self)
                (iv_end iv / resolution self) (shape a).1.1).2 = 0%nat)
        \/ exists a' h',
             writable (handle self) = true
             /\ nd_setitem a (iv_start iv / resolution self)
                  (iv_end iv / resolution self)
                  (strand_axis (stranded self) (iv_strand iv)) c val = Ok a'
             /\ handle_store (handle self) (iv_chrom iv) a' = Ok h'
             /\ self' = set_handle self h').
Proof.
  rewrite setitem_unfold. unfold floordiv.
  destruct (Z.eqb_spec (resolution self) 0); [done|]. cbn [bind].
  destruct (handle_lookup (handle self) (iv_chrom iv)) as [a|] eqn:Ha; cbn [bind]; [|done].
  destruct (handle self) as [d|f m] eqn:Hh.
  - destruct (nd_setitem a _ _ _ c val) as [a'|] eqn:Ha'; cbn [bind]; [|done].
    cbn [handle_store bind]. intros [= <-].
    destruct (nd_setitem_inv _ _ _ _ _ _ _ Ha') as (si & ci & _ & Hsi & Hci & _).
    exists a, si, ci. split; [done|]. split; [done|]. split; [done|]. split; [done|].
    right. eexists a', _. done.
  - destruct (h5_setitem m a _ _ _ c val) as [written|] eqn:Hw; cbn [bind]; [|done].
    apply h5_setitem_inv in Hw as (si & ci & Hsi & Hci & Hcase).
    destruct Hcase as [[Hk ->]|(Hk & -> & a' & -> & Ha')].
    + intros [= <-]. exists a, si, ci.
      split; [done|]. split; [done|]. split; [done|]. split; [done|]. by left.
    + cbn [handle_store bind]. intros [= <-]. exists a, si, ci.
      split; [done|]. split; [done|]. split; [done|]. split; [done|].
      right. eexists a', _. done.
Qed.

(** C10 (as amended).  Let the two endpoints of the interval fall in the
    same storage cell.  Then a write at that interval never changes the
    store: when it returns, the store, and so every cell of every
    chromosome array, is what it was.  On a stored chromosome, with the
    strand and the condition within their axes, the write returns
    without an error when the handle is an HDF5 file, whatever the value,
    and when the value is a scalar or a sequence of at most one element.
    On the dictionary of arrays in memory a sequence of two or more
    values raises [ValueError]: numpy checks the value against the empty
    cell range. *)
Theorem setitem_same_cell self (iv : GenomicInterval) (c : Z) val :
  iv_start iv / resolution self = iv_end iv / resolution self ->
  (forall self',
      GenomicArray_setitem self (PyTuple [PyInterval iv; PyInt c]) val = Ok self' ->
      self' = self)
  /\ (forall a,
        resolution self <> 0 ->
        handle_lookup (handle self) (iv_chrom iv) = Ok a ->
        is_ok (norm_index (strand_axis (stranded self) (iv_strand iv)) (shape a).1.2)
          = true ->
        is_ok (norm_index c (shape a).2) = true ->
        (exists f m, handle self = HFile f m)
        \/ (forall vs, val = Vector vs -> (length vs <= 1)%nat) ->
        GenomicArray_setitem self (PyTuple [PyInterval iv; PyInt c]) val = Ok self)
  /\ (forall a d vs,
        resolution self <> 0 ->
        handle self = HDict d ->
        handle_lookup (handle self) (iv_chrom iv) = Ok a ->
        is_ok (norm_index (strand_axis (stranded self) (iv_strand iv)) (shape a).1.2)
          = true ->
        is_ok (norm_index c (shape a).2) = true ->
        val = Vector vs -> (2 <= length vs)%nat ->
        GenomicArray_setitem self (PyTuple [PyInterval iv; PyInt c]) val
        = Raise ValueError).
Proof.
  intros Hcell.
  assert (Hframe : forall self',
      GenomicArray_setitem self (PyTuple [PyInterval iv; PyInt c]) val = Ok self' ->
      self' = self).
  { intros self' Hset.
    apply setitem_inv in Hset
      as (a & si & ci & _ & Ha & _ & _ & [[-> _]|(a' & h' & Hw & Ha' & Hh' & ->)]);
      [done|].
    rewrite <- Hcell in Ha'. apply nd_setitem_empty in Ha'. subst a'.
    rewrite handle_store_same in Hh' by done. injection Hh' as <-.
    apply set_handle_same. }
  split; [exact Hframe|]. split.
  - intros a Hres Ha Hs Hc Hval. rewrite setitem_unfold, !floordiv_ok by done.
    cbn [bind]. rewrite Ha. cbn [bind]. rewrite <- Hcell.
    destruct (handle self) as [d|f m] eqn:Hh.
    + destruct Hval as [(f & m & [=])|Hval].
      assert (exists a', nd_setitem a (iv_start iv / resolution self)
                (iv_start iv / resolution self)
                (strand_axis (stranded self) (iv_strand iv)) c val = Ok a') as [a' Ha'].
      { unfold nd_setitem. destruct a as [[[n0 n1] n2] rows].
        cbn [shape cells fst snd] in *. rewrite slice_range_empty.
        destruct (norm_index _ n1); [|done]. destruct (norm_index c n2); [|done].
        cbn [bind]. destruct (broadcast_empty val Hval) as [vs ->]. cbn [bind]. eauto. }
      rewrite Ha'. cbn [bind]. apply nd_setitem_empty in Ha'. subst a'.
      rewrite handle_store_same by done. cbn [bind].
      rewrite <- Hh. apply f_equal, set_handle_same.
    + rewrite h5_setitem_empty; [done| |done|done].
      by rewrite slice_range_empty.
  - intros a d vs Hres Hh Ha Hs Hc -> Hlen. rewrite setitem_unfold, !floordiv_ok by done.
    cbn [bind]. rewrite Ha, Hh. cbn [bind]. rewrite <- Hcell.
    unfold nd_setitem. destruct (shape a) as [[n0 n1] n2]. cbn [fst snd] in *.
    rewrite slice_range_empty.
    destruct (norm_index _ n1); [|done]. destruct (norm_index c n2); [|done].
    cbn [bind broadcast]. rewrite bool_decide_eq_false_2 by lia.
    destruct vs as [|v [|v' vs]]; cbn [length] in Hlen; [lia|lia|done].
Qed.

(** *** Reading back what was written *)

Lemma row_cell_set_cell (n1 n2 si ci : nat) (row : list (list V)) (v : V) :
  row_wf n1 n2 row -> (si < n1)%nat -> (ci < n2)%nat ->
  row_cell si ci (set_cell si ci row v) = Some v.
Proof.
  intros [Hlen Hrow] Hsi Hci. unfold row_cell, set_cell.
  rewrite list_lookup_alter_eq.
  destruct (lookup_lt_is_Some_2 row si) as [conds Hconds]; [lia|].
  rewrite Hconds. simpl.
  apply list_lookup_insert_eq.
  rewrite Forall_lookup in Hrow. rewrite (Hrow _ _ Hconds). done.
Qed.

Lemma column_zip_with (n1 n2 si ci : nat) (rows : list (list (list V))) :
  forall vs,
    Forall (row_wf n1 n2) rows -> (si < n1)%nat -> (ci < n2)%nat ->
    length rows = length vs ->
    omap (row_cell si ci) (zip_with (set_cell si ci) rows vs) = vs.
Proof.
  induction rows as [|row rows IH]; intros [|v vs] Hwf Hsi Hci Hlen; try done.
  apply Forall_cons in Hwf as [Hrow Hrows]. simpl in *.
  rewrite (row_cell_set_cell n1 n2) by done.
  f_equal. apply IH; [done..|lia].
Qed.

Lemma nd_setitem_slice a (start stop s c : Z) val (si ci : nat) (vs : list V) :
  nd_wf a ->
  norm_index s (shape a).1.2 = Ok si ->
  norm_index c (shape a).2 = Ok ci ->
  broadcast val (slice_range start stop (shape a).1.1).2 = Ok vs ->
  exists a', nd_setitem a start stop s c val = Ok a'
    /\ shape a' = shape a
    /\ nd_column (nd_slice a' start stop) si ci = vs.
Proof.
  destruct a as [[[n0 n1] n2] rows]. unfold nd_wf, nd_setitem, nd_slice, nd_column.
  cbn [shape cells fst snd]. intros [Hlen Hwf] Hsi Hci Hvs.
  destruct (slice_range start stop n0) as [lo k] eqn:Hsr. cbn [snd] in Hvs.
  pose proof (slice_range_bounds _ _ _ _ _ Hsr) as Hb.
  rewrite Hsi, Hci, Hvs. cbn [bind shape cells].
  eexists. split; [reflexivity|]. split; [reflexivity|].
  cbn [shape]. rewrite Hsr. cbn [cells].
  pose proof (broadcast_length _ _ _ Hvs) as Hk.
  rewrite drop_app_length' by (rewrite length_take; lia).
  rewrite take_app_length'.
  - apply (column_zip_with n1 n2).
    + by apply Forall_take, Forall_drop.
    + by apply norm_index_lt in Hsi.
    + by apply norm_index_lt in Hci.
    + rewrite length_take, length_drop. lia.
  - rewrite length_zip_with, length_take, length_drop. lia.
Qed.

(** C5 (as amended).  On a writable store whose array for the chromosome
    is well-formed, a write at [(interval, c)] with subscripts within
    their axes and a value that broadcasts to the cell range succeeds.
    Reading afterwards with the interval alone, or with any interval of
    the same chromosome whose endpoints fall in the same cells, returns
    the block of those cells, and its column at the strand axis and at
    condition [c] holds the written values.  Reading with the key
    [(interval, c)] raises [IndexError]. *)
Theorem write_then_read self (iv iv' : GenomicInterval) (c : Z) val a
    (si ci : nat) (vs : list V) :
  resolution self <> 0 ->
  handle_lookup (handle self) (iv_chrom iv) = Ok a ->
  nd_wf a ->
  writable (handle self) = true ->
  norm_index (strand_axis (stranded self) (iv_strand iv)) (shape a).1.2 = Ok si ->
  norm_index c (shape a).2 = Ok ci ->
  broadcast val (slice_range (iv_start iv / resolution self)
                             (iv_end iv / resolution self) (shape a).1.1).2 = Ok vs ->
  iv_chrom iv' = iv_chrom iv ->
  iv_start iv' / resolution self = iv_start iv / resolution self ->
  iv_end iv' / resolution self = iv_end iv / resolution self ->
  exists self' sub,
    GenomicArray_setitem self (PyTuple [PyInterval iv; PyInt c]) val = Ok self'
    /\ GenomicArray_getitem self' (PyInterval iv') = Ok sub
    /\ nd_column sub si ci = vs
    /\ GenomicArray_getitem self' (PyTuple [PyInterval iv'; PyInt c]) = Raise IndexError.
Proof.
  intros Hres Ha Hwf Hw Hsi Hci Hvs Hchrom Hstart Hend.
  destruct (nd_setitem_slice a _ _ _ _ _ _ _ _ Hwf Hsi Hci Hvs) as (a' & Ha' & Hshape & Hcol).
  assert (exists h', handle_store (handle self) (iv_chrom iv) a' = Ok h') as [h' Hh'].
  { destruct (handle self) as [d|f [|]]; simpl; try done; eauto. }
  assert (Hread : forall self',
             resolution self' = resolution self ->
             handle_lookup (handle self') (iv_chrom iv) = Ok a' ->
             GenomicArray_getitem self' (PyInterval iv')
             = Ok (nd_slice a' (iv_start iv / resolution self)
                     (iv_end iv / resolution self))).
  { intros self' Hr Hl. unfold GenomicArray_getitem. rewrite Hr.
    rewrite !floordiv_ok by done. cbn [bind]. by rewrite Hchrom, Hstart, Hend, Hl. }
  assert (Hstored : GenomicArray_getitem (set_handle self h') (PyInterval iv')
                    = Ok (nd_slice a' (iv_start iv / resolution self)
                            (iv_end iv / resolution self))).
  { apply Hread; [done|]. apply (handle_lookup_store _ _ _ _ Hh'). }
  rewrite setitem_unfold, !floordiv_ok by done. cbn [bind]. rewrite Ha. cbn [bind].
  destruct (handle self) as [d|f m] eqn:Hh.
  - rewrite Ha'. cbn [bind]. rewrite Hh'. cbn [bind].
    eexists _, _. split; [done|]. split; [exact Hstored|]. done.
  - destruct m; [done|].
    destruct (decide ((slice_range (iv_start iv / resolution self)
                         (iv_end iv / resolution self) (shape a).1.1).2 = 0%nat))
      as [Hk|Hk].
    + rewrite h5_setitem_empty; [|done|by rewrite Hsi|by rewrite Hci].
      assert (a' = a) as ->.
      { destruct (nd_setitem_inv _ _ _ _ _ _ _ Ha')
          as (si' & ci' & vs' & _ & _ & Hvs' & Hsh & Hcells).
        rewrite Hk in Hcells, Hvs'. apply broadcast_length in Hvs'.
        destruct vs'; [|done]. rewrite Nat.add_0_r in Hcells.
        rewrite take_0 in Hcells. cbn [zip_with app] in Hcells.
        rewrite take_drop in Hcells.
        destruct a', a. cbn [shape cells] in *. congruence. }
      eexists self, _. split; [done|]. split; [|done].
      apply Hread; [done|]. by rewrite Hh.
    + rewrite (h5_setitem_nd _ _ _ _ _ _ _ Hk Ha'). cbn [bind]. rewrite Hh'.
      cbn [bind]. eexists _, _. split; [done|]. split; [exact Hstored|]. done.
Qed.

(** C4 (as amended).  [read] takes the interval alone.  Every key that is
    not a genomic interval raises [IndexError], and so does the pair
    [(interval, c)] for every [c].  For an interval whose cell range
    [start div resolution .. end div resolution] lies within the array
    of its chromosome, the result is
    [handle[chrom][start div resolution : end div resolution]]: those
    rows, with their whole strand and condition axes. *)
Theorem getitem_interval_only self :
  (forall index, (forall iv, index <> PyInterval iv) ->
      GenomicArray_getitem self index = Raise IndexError)
  /\ (forall iv c,
        GenomicArray_getitem self (PyTuple [PyInterval iv; c]) = Raise IndexError)
  /\ (forall iv a,
        resolution self <> 0 ->
        handle_lookup (handle self) (iv_chrom iv) = Ok a ->
        0 <= iv_start iv / resolution self <= iv_end iv / resolution self ->
        iv_end iv / resolution self <= Z.of_nat (shape a).1.1 ->
        exists sub,
          GenomicArray_getitem self (PyInterval iv) = Ok sub
          /\ shape sub = (Z.to_nat (iv_end iv / resolution self
                                    - iv_start iv / resolution self),
                          (shape a).1.2, (shape a).2)
          /\ cells sub = take (Z.to_nat (iv_end iv / resolution self
                                         - iv_start iv / resolution self))
                              (drop (Z.to_nat (iv_start iv / resolution self)) (cells a))).
Proof.
  split; [|split].
  - intros index Hne. destruct index; try done. by destruct (Hne iv).
  - done.
  - intros iv a Hres Ha Hlo Hhi. unfold GenomicArray_getitem.
    rewrite !floordiv_ok by done. cbn [bind]. rewrite Ha. cbn [bind].
    eexists. split; [reflexivity|]. unfold nd_slice.
    destruct a as [[[n0 n1] n2] rows]. cbn [shape cells fst snd] in *.
    rewrite slice_range_inside by done. done.
Qed.
End ArrayFacts.

(** ** The constructors and the cache *)

Lemma string_length_append (s1 s2 : string) :
  String.length (s1 +:+ s2) = (String.length s1 + String.length s2)%nat.
Proof. induction s1 as [|c s1 IH]; simpl; [done|]. by rewrite IH. Qed.

Lemma path_join_ne (dir name : string) :
  name <> ""%string -> path_join dir name <> dir.
Proof.
  intros Hname Heq. apply (f_equal String.length) in Heq. revert Heq.
  unfold path_join. case_bool_decide as Hd.
  - subst dir. destruct name; [done|]. simpl. lia.
  - destruct (ends_with_slash dir); rewrite !string_length_append;
      destruct name; try done; simpl; lia.
Qed.

Section ConstructorFacts.
Context {V : Type} (zero : V) {LoaderArgs : Type}.
Variable location : option (list string) -> string.
Implicit Types (w : world (V:=V)) (self arr : GenomicArray (V:=V)).
Implicit Types (f : h5file (V:=V)) (la : option LoaderArgs).
Implicit Types (ld : option (loader_t (V:=V) (LoaderArgs:=LoaderArgs))).

Lemma bindM_inv {A B : Type} (m : M (V:=V) A) (k : A -> M (V:=V) B) w w' (b : B) :
  bindM m k w = (w', Ok b) ->
  exists a w1, m w = (w1, Ok a) /\ k a w1 = (w', Ok b).
Proof.
  unfold bindM. destruct (m w) as [w1 [a|e]]; [eauto|done].
Qed.

Lemma exists_in_file w (path : string) (x : file (V:=V)) :
  files w !! path = Some x -> exists_in w path = true.
Proof.
  intros H. unfold exists_in. rewrite H.
  rewrite (bool_decide_eq_true_2 (is_Some (Some x))) by eauto.
  apply orb_true_r.
Qed.

Lemma path_join_longer (dir name : string) :
  name <> ""%string ->
  (String.length dir < String.length (path_join dir name))%nat.
Proof.
  intros Hname. unfold path_join. case_bool_decide as Hd.
  - subst dir. destruct name; [done|]. simpl. lia.
  - destruct (ends_with_slash dir); rewrite !string_length_append;
      destruct name; try done; simpl; lia.
Qed.

Lemma parents_from_shorter (rest pre a : string) :
  a ∈ parents_from pre rest ->
  (String.length a < String.length pre + String.length rest)%nat.
Proof.
  revert pre. induction rest as [|ch rest IH]; intros pre; cbn [parents_from].
  - by intros ?%elem_of_nil.
  - rewrite elem_of_app. intros [Ha|Ha].
    + destruct (_ && _); [|by apply elem_of_nil in Ha].
      apply list_elem_of_singleton in Ha as ->. simpl. lia.
    + apply IH in Ha. rewrite string_length_append in Ha. simpl in *. lia.
Qed.

Lemma parents_shorter (p a : string) :
  a ∈ parents p -> (String.length a < String.length p)%nat.
Proof. intros Ha. by apply parents_from_shorter in Ha. Qed.

Lemma string_app_assoc (s1 s2 s3 : string) :
  (s1 +:+ s2) +:+ s3 = s1 +:+ (s2 +:+ s3).
Proof.
  induction s1 as [|ch s1 IH]; [done|].
  change (String ch ((s1 +:+ s2) +:+ s3) = String ch (s1 +:+ (s2 +:+ s3))).
  by rewrite IH.
Qed.

Lemma string_app_empty (s : string) : s +:+ "" = s.
Proof.
  induction s as [|ch s IH]; [done|].
  change (String ch (s +:+ "") = String ch s). by rewrite IH.
Qed.

Lemma parents_from_prefix (rest pre a : string) :
  a ∈ parents_from pre rest ->
  exists r1 r2, rest = r1 +:+ String "/" r2 /\ a = pre +:+ r1.
Proof.
  revert pre. induction rest as [|ch rest IH]; intros pre; cbn [parents_from].
  - by intros ?%elem_of_nil.
  - rewrite elem_of_app. intros [Ha|Ha].
    + destruct (bool_decide (ch = "/"%char)) eqn:Hch; cbn [andb] in Ha;
        [|by apply elem_of_nil in Ha].
      apply bool_decide_eq_true_1 in Hch as ->.
      destruct (_ && _); [|by apply elem_of_nil in Ha].
      apply list_elem_of_singleton in Ha as ->.
      exists ""%string, rest. split; [done|]. by rewrite string_app_empty.
    + apply IH in Ha as (r1 & r2 & -> & ->).
      exists (String ch r1), r2. split; [done|]. by rewrite string_app_assoc.
Qed.

(** A parent of a path is the part of the path before one of its
    ['/']. *)
Lemma parents_prefix (p a : string) :
  a ∈ parents p -> exists rest, p = a +:+ String "/" rest.
Proof.
  intros Ha. apply parents_from_prefix in Ha as (r1 & r2 & -> & ->). eauto.
Qed.

Lemma exists_in_makedirs w (dir p : string) :
  (String.length dir < String.length p)%nat ->
  exists_in {| dirs := {[dir]} ∪ list_to_set (parents dir) ∪ dirs w; files := files w;
               loader_calls := loader_calls w |} p = exists_in w p.
Proof.
  intros Hlen. unfold exists_in. cbn. f_equal.
  apply bool_decide_ext.
  rewrite !elem_of_union, elem_of_singleton, elem_of_list_to_set. split; [|tauto].
  intros [[->|Hp]|Hp]; [lia| |done].
  apply parents_shorter in Hp. lia.
Qed.

Lemma GenomicArray_init_inv (stranded : bool) conditions (tc : string) (res ord : Z) self :
  GenomicArray_init stranded conditions tc res ord = Ok self ->
  condition self = default ["sample"%string] conditions.
Proof.
  unfold GenomicArray_init.
  destruct (ord <=? 0); [done|]. destruct (ord <? 1); [done|].
  destruct (4 <? ord); [done|]. destruct (res <=? 0); [done|].
  by intros [= <-].
Qed.

Lemma GenomicArray_init_ok (stranded : bool) conditions (tc : string) (res ord : Z) :
  1 <= ord <= 4 -> 0 < res ->
  exists self : GenomicArray (V:=V),
    GenomicArray_init stranded conditions tc res ord = Ok self.
Proof.
  intros Hord Hres. unfold GenomicArray_init.
  destruct (Z.leb_spec ord 0); [lia|]. destruct (Z.ltb_spec ord 1); [lia|].
  destruct (Z.ltb_spec 4 ord); [lia|]. destruct (Z.leb_spec res 0); [lia|]. eauto.
Qed.

(** *** Reloading the HDF5 file *)

Lemma HDF5_reload_inv self (path : string) w w' arr :
  HDF5_reload self path w = (w', Ok arr) ->
  w' = w /\ exists f,
    files w !! path = Some (H5 f)
    /\ h5_conditions f = Some (condition arr)
    /\ h5_order f = Some (order arr)
    /\ h5_resolution f = Some (resolution arr)
    /\ 0 < order arr /\ 0 < resolution arr
    /\ handle arr = HFile f ReadOnly.
Proof.
  unfold HDF5_reload, bindM, read_file, attr, positive, retM, raiseM.
  destruct (files w !! path) as [[f|d]|]; try done.
  destruct (h5_conditions f) as [c|] eqn:Hc; [|done].
  destruct (h5_order f) as [o|] eqn:Ho; [|done].
  destruct (Z.leb_spec o 0); [done|].
  destruct (h5_resolution f) as [r|] eqn:Hr; [|done].
  destruct (Z.leb_spec r 0); [done|].
  intros [= <- <-]. split; [done|]. exists f. done.
Qed.

Lemma HDF5_reload_ok self (path : string) w f (c : list string) (o r : Z) :
  files w !! path = Some (H5 f) ->
  h5_conditions f = Some c -> h5_order f = Some o -> h5_resolution f = Some r ->
  0 < o -> 0 < r ->
  HDF5_reload self path w = (w, Ok (set_meta self c o r (HFile f ReadOnly))).
Proof.
  intros Hf Hc Ho Hr Hopos Hrpos.
  unfold HDF5_reload, bindM, read_file, attr, positive, retM, raiseM.
  rewrite Hf, Hc, Ho, Hr.
  destruct (Z.leb_spec o 0); [lia|].
  destruct (Z.leb_spec r 0); [lia|]. done.
Qed.

(** The HDF5 constructor on an existing cache, without [overwrite]: the
    file is reloaded in a world with the same files and the same count
    of loader calls. *)
Lemma HDF5_init_cached w f (chroms : gmap string Z) (stranded : bool) conditions
    (tc : string) datatags (res ord : Z) (cache : bool) ld la :
  files w !! path_join (location (cache_tags stranded datatags)) "storage.h5"
    = Some (H5 f) ->
  exists w',
    files w' = files w /\ loader_calls w' = loader_calls w
    /\ HDF5GenomicArray_init zero location chroms stranded conditions tc datatags
         res ord cache false ld la w
       = match GenomicArray_init stranded conditions tc res ord with
         | Raise e => (w, Raise e)
         | Ok self =>
             if cache
             then HDF5_reload self
                    (path_join (location (cache_tags stranded datatags)) "storage.h5") w'
             else (w, Raise ValueError)
         end.
Proof.
  intros Hf. unfold HDF5GenomicArray_init, bindM, liftM.
  destruct (GenomicArray_init stranded conditions tc res ord) as [self|e];
    [|by exists w].
  destruct cache; cbn; [|by exists w].
  destruct (exists_in w (location (cache_tags stranded datatags))); cbn.
  - exists w. rewrite (exists_in_file _ _ _ Hf). done.
  - exists {| dirs := {[location (cache_tags stranded datatags)]}
                      ∪ list_to_set (parents (location (cache_tags stranded datatags)))
                      ∪ dirs w;
              files := files w; loader_calls := loader_calls w |}.
    rewrite (exists_in_file _ _ (H5 f)) by done. done.
Qed.

Lemma HDF5_init_inv w w' arr (chroms : gmap string Z) (stranded : bool) conditions
    (tc : string) datatags (res ord : Z) (cache ow : bool) ld la :
  HDF5GenomicArray_init zero location chroms stranded conditions tc datatags
    res ord cache ow ld la w = (w', Ok arr) ->
  exists f,
    files w' !! path_join (location (cache_tags stranded datatags)) "storage.h5"
      = Some (H5 f)
    /\ h5_conditions f = Some (condition arr)
    /\ h5_order f = Some (order arr)
    /\ h5_resolution f = Some (resolution arr)
    /\ 0 < order arr /\ 0 < resolution arr
    /\ handle arr = HFile f ReadOnly.
Proof.
  unfold HDF5GenomicArray_init. intros H.
  do 6 (apply bindM_inv in H as (? & ? & _ & H)).
  apply HDF5_reload_inv in H as [-> H]. exact H.
Qed.

(** C6.  Let a cache exist at the location that the tags of a
    construction of the HDF5 store lead to: the file [storage.h5] is
    there.  Without [overwrite], whatever the other arguments and the
    loader, the construction invokes no loader and leaves every file as
    it is.  The store that it returns reads that file through a read-only
    handle, and its [condition], [order] and [resolution] are the
    attributes that the file holds, not the arguments of the
    construction; it does return such a store when caching is enabled,
    its [order] and [resolution] arguments are valid and the file holds
    the three attributes, with a positive order and resolution.  So,
    when the file was left by an earlier construction that returned a
    store, the new store has the [condition], [order] and [resolution]
    of that store, and is returned whenever caching is enabled and the
    [order] and [resolution] arguments are valid. *)
Theorem HDF5_cache_reuse w f (chroms : gmap string Z) (stranded : bool) conditions
    (tc : string) datatags (res ord : Z) (cache : bool) ld la :
  files w !! path_join (location (cache_tags stranded datatags)) "storage.h5"
    = Some (H5 f) ->
  let r := HDF5GenomicArray_init zero location chroms stranded conditions tc
             datatags res ord cache false ld la w in
  loader_calls r.1 = loader_calls w
  /\ files r.1 = files w
  /\ (forall arr, r.2 = Ok arr ->
        h5_conditions f = Some (condition arr)
        /\ h5_order f = Some (order arr)
        /\ h5_resolution f = Some (resolution arr)
        /\ handle arr = HFile f ReadOnly)
  /\ (forall (c : list string) (o rs : Z),
        h5_conditions f = Some c -> h5_order f = Some o -> h5_resolution f = Some rs ->
        0 < o -> 0 < rs ->
        cache = true -> 1 <= ord <= 4 -> 0 < res ->
        exists arr, r.2 = Ok arr
          /\ condition arr = c /\ order arr = o /\ resolution arr = rs)
  /\ (forall w0 arr1 (chroms1 : gmap string Z) (stranded1 : bool) conditions1
             (tc1 : string) datatags1 (res1 ord1 : Z) (cache1 ow1 : bool) ld1 la1,
        HDF5GenomicArray_init zero location chroms1 stranded1 conditions1 tc1
          datatags1 res1 ord1 cache1 ow1 ld1 la1 w0 = (w, Ok arr1) ->
        location (cache_tags stranded1 datatags1)
        = location (cache_tags stranded datatags) ->
        (forall arr, r.2 = Ok arr ->
           condition arr = condition arr1 /\ order arr = order arr1
           /\ resolution arr = resolution arr1)
        /\ (cache = true -> 1 <= ord <= 4 -> 0 < res -> exists arr, r.2 = Ok arr)).
Proof.
  intros Hf r.
  destruct (HDF5_init_cached w f chroms stranded conditions tc datatags res ord
              cache ld la Hf) as (w' & Hfiles & Hcalls & Hrun).
  assert (Hf' : files w' !! path_join (location (cache_tags stranded datatags))
                  "storage.h5" = Some (H5 f)) by (by rewrite Hfiles).
  assert (Hworld : loader_calls r.1 = loader_calls w /\ files r.1 = files w).
  { subst r. rewrite Hrun.
    destruct (GenomicArray_init stranded conditions tc res ord) as [self|e]; [|done].
    destruct cache; [|done].
    pose proof (HDF5_reload_inv self (path_join (location (cache_tags stranded datatags))
                                       "storage.h5") w') as Hinv.
    destruct (HDF5_reload self _ w') as [w2 [arr|e]] eqn:Hrel.
    - destruct (Hinv w2 arr eq_refl) as [-> _]. done.
    - unfold HDF5_reload, bindM, read_file, attr, positive, retM, raiseM in Hrel.
      rewrite Hf' in Hrel.
      destruct (h5_conditions f); [|by injection Hrel as <- _].
      destruct (h5_order f) as [o|]; [|by injection Hrel as <- _].
      destruct (o <=? 0); [by injection Hrel as <- _|].
      destruct (h5_resolution f) as [rs|]; [|by injection Hrel as <- _].
      destruct (rs <=? 0); by injection Hrel as <- _. }
  assert (Hfile : forall arr, r.2 = Ok arr ->
            h5_conditions f = Some (condition arr)
            /\ h5_order f = Some (order arr)
            /\ h5_resolution f = Some (resolution arr)
            /\ handle arr = HFile f ReadOnly).
  { subst r. rewrite Hrun. intros arr.
    destruct (GenomicArray_init stranded conditions tc res ord) as [self|e]; [|done].
    destruct cache; [|done].
    destruct (HDF5_reload self _ w') as [w2 [arr'|e]] eqn:Hrel; [|done].
    cbn [snd]. intros [= ->].
    apply HDF5_reload_inv in Hrel as (_ & f' & Hf2 & Hc & Ho & Hr & _ & _ & Hh).
    rewrite Hf' in Hf2. injection Hf2 as <-. done. }
  assert (Hret : forall (c : list string) (o rs : Z),
            h5_conditions f = Some c -> h5_order f = Some o ->
            h5_resolution f = Some rs -> 0 < o -> 0 < rs ->
            cache = true -> 1 <= ord <= 4 -> 0 < res ->
            exists arr, r.2 = Ok arr
              /\ condition arr = c /\ order arr = o /\ resolution arr = rs).
  { intros c o rs Hc Ho Hr Hopos Hrpos -> Hord Hres. subst r. rewrite Hrun.
    destruct (GenomicArray_init_ok stranded conditions tc res ord Hord Hres)
      as [self ->].
    rewrite (HDF5_reload_ok self _ w' f c o rs Hf' Hc Ho Hr Hopos Hrpos). cbn [snd].
    eexists. split; [done|]. done. }
  split; [apply Hworld|]. split; [apply Hworld|]. split; [exact Hfile|].
  split; [exact Hret|].
  intros w0 arr1 chroms1 stranded1 conditions1 tc1 datatags1 res1 ord1 cache1 ow1 ld1
    la1 Hfirst Hloc.
  apply HDF5_init_inv in Hfirst as (f1 & Hf1 & Hc & Ho & Hr & Hopos & Hrpos & _).
  rewrite Hloc, Hf in Hf1. injection Hf1 as <-.
  split.
  - intros arr Harr. destruct (Hfile arr Harr) as (Hc' & Ho' & Hr' & _).
    rewrite Hc in Hc'. rewrite Ho in Ho'. rewrite Hr in Hr'.
    injection Hc' as <-. injection Ho' as <-. injection Hr' as <-. done.
  - intros Hcache Hord Hres.
    destruct (Hret _ _ _ Hc Ho Hr Hopos Hrpos Hcache Hord Hres) as (arr & Harr & _).
    eauto.
Qed.

(** C9.  A storage kind other than ['hdf5'] and ['ndarray'] raises an
    [Exception] and leaves the world as it was: no directory, no file,
    no loader call.  For ['hdf5'] and for ['ndarray'] the factory is the
    constructor of that backend on the same arguments and loader. *)
Theorem create_genomic_array_dispatch (chroms : gmap string Z) (stranded : bool)
    conditions (tc : string) (res ord : Z) datatags (cache ow : bool) ld la :
  (forall (storage : string) w,
      storage <> "hdf5"%string -> storage <> "ndarray"%string ->
      create_genomic_array zero location chroms stranded conditions tc storage res ord
        datatags cache ow ld la w = (w, Raise Exception))
  /\ create_genomic_array zero location chroms stranded conditions tc "hdf5" res ord
       datatags cache ow ld la
     = HDF5GenomicArray_init zero location chroms stranded conditions tc datatags
         res ord cache ow ld la
  /\ create_genomic_array zero location chroms stranded conditions tc "ndarray" res ord
       datatags cache ow ld la
     = NPGenomicArray_init zero location chroms stranded conditions tc datatags
         res ord cache ow ld la.
Proof.
  split; [|split]; [|done|done].
  intros storage w H1 H2. unfold create_genomic_array.
  rewrite !bool_decide_eq_false_2 by done. done.
Qed.

(** *** The arrays of a freshly built store *)

Lemma np_zeros_inv (n0 n1 n2 : Z) (a : ndarray (V:=V)) :
  np_zeros zero n0 n1 n2 = Ok a ->
  shape a = (Z.to_nat n0, Z.to_nat n1, Z.to_nat n2) /\ all_zero zero a.
Proof.
  unfold np_zeros. destruct (_ || _); [done|]. intros [= <-]. split; [done|].
  intros i si ci Hi Hsi Hci. unfold nd_get, row_cell. cbn [shape cells fst snd] in *.
  rewrite lookup_replicate_2 by done. cbn.
  rewrite lookup_replicate_2 by done. cbn.
  by rewrite lookup_replicate_2.
Qed.

Lemma zero_arrays_lookup (chroms : gmap string Z) (stranded : bool)
    (conditions : list string) (arrays : gmap string (ndarray (V:=V))) (chrom : string) :
  zero_arrays zero chroms stranded conditions = Ok arrays ->
  match chroms !! chrom with
  | Some n => exists a, arrays !! chrom = Some a
                /\ np_zeros zero (n + 1) (if stranded then 2 else 1)
                            (Z.of_nat (length conditions)) = Ok a
  | None => arrays !! chrom = None
  end.
Proof.
  unfold zero_arrays. revert arrays.
  apply (map_fold_weak_ind (fun r (m : gmap string Z) =>
    forall arrays, r = Ok arrays ->
      match m !! chrom with
      | Some n => exists a, arrays !! chrom = Some a
                    /\ np_zeros zero (n + 1) (if stranded then 2 else 1)
                                (Z.of_nat (length conditions)) = Ok a
      | None => arrays !! chrom = None
      end)).
  - intros arrays [= <-]. by rewrite !lookup_empty.
  - intros c n m r Hm IH arrays.
    destruct r as [m'|e]; cbn [bind]; [|done].
    destruct (np_zeros zero (n + 1) _ _) as [a|e] eqn:Ha; cbn [bind]; [|done].
    intros [= <-]. specialize (IH m' eq_refl).
    destruct (decide (c = chrom)) as [->|Hne].
    + rewrite !lookup_insert_eq. eauto.
    + rewrite !lookup_insert_ne by done. done.
Qed.

Lemma zero_arrays_shape (chroms : gmap string Z) (stranded : bool)
    (conditions : list string) (arrays : gmap string (ndarray (V:=V)))
    (chrom : string) (n : Z) :
  zero_arrays zero chroms stranded conditions = Ok arrays ->
  chroms !! chrom = Some n ->
  exists a, arrays !! chrom = Some a
    /\ shape a = (Z.to_nat (n + 1), strand_count stranded, length conditions)
    /\ all_zero zero a.
Proof.
  intros Harr Hn. pose proof (zero_arrays_lookup _ _ _ _ chrom Harr) as H.
  rewrite Hn in H. destruct H as (a & Ha & Hz). exists a. split; [done|].
  apply np_zeros_inv in Hz as [-> Hz]. split; [|done].
  rewrite Nat2Z.id. by destruct stranded.
Qed.

Lemma HDF5_create_inv self (chroms : gmap string Z) (stranded : bool) (path : string)
    la w w' self' :
  HDF5_create zero self chroms stranded path None la w = (w', Ok self') ->
  exists datasets f,
    zero_arrays zero chroms stranded (condition self) = Ok datasets
    /\ h5_datasets f = datasets
    /\ files w' !! path = Some (H5 f).
Proof.
  unfold HDF5_create, bindM, write_file, liftM, invoke_loader, retM.
  destruct (zero_arrays zero chroms stranded (condition self)) as [ds|e]; [|done].
  cbn. intros [= <- <-]. eexists _, _. split; [done|]. split; [|apply lookup_insert_eq].
  done.
Qed.

Lemma HDF5_fresh_arrays w w' arr (chroms : gmap string Z) (stranded : bool) conditions
    (tc : string) datatags (res ord : Z) (cache ow : bool) la (chrom : string) (n : Z) :
  HDF5GenomicArray_init zero location chroms stranded conditions tc datatags
    res ord cache ow None la w = (w', Ok arr) ->
  ow = true
  \/ exists_in w (path_join (location (cache_tags stranded datatags)) "storage.h5")
     = false ->
  chroms !! chrom = Some n ->
  exists a,
    handle_lookup (handle arr) chrom = Ok a
    /\ shape a = (Z.to_nat (n + 1), strand_count stranded,
                  length (default ["sample"%string] conditions))
    /\ all_zero zero a.
Proof.
  unfold HDF5GenomicArray_init. intros H Hfresh Hn.
  apply bindM_inv in H as (self & w1 & Hbase & H).
  unfold liftM in Hbase. injection Hbase as <- Hbase.
  apply GenomicArray_init_inv in Hbase as Hcond.
  apply bindM_inv in H as ([] & w2 & Hcache & H).
  destruct cache; [|done]. injection Hcache as <-.
  apply bindM_inv in H as (de & w3 & Hde & H).
  unfold path_exists in Hde. injection Hde as <- <-.
  apply bindM_inv in H as ([] & w4 & Hmk & H).
  apply bindM_inv in H as (fe & w5 & Hfe & H).
  unfold path_exists in Hfe. injection Hfe as <- <-.
  assert (negb (exists_in w4 (path_join (location (cache_tags stranded datatags))
                                        "storage.h5")) || ow = true) as Hbranch.
  { destruct Hfresh as [->|Hex]; [apply orb_true_r|].
    destruct (exists_in w _) in Hmk.
    - injection Hmk as <-. by rewrite Hex.
    - unfold makedirs in Hmk. injection Hmk as <-.
      rewrite exists_in_makedirs, Hex; [done|]. by apply path_join_longer. }
  rewrite Hbranch in H.
  apply bindM_inv in H as (self' & w6 & Hcreate & H).
  apply HDF5_create_inv in Hcreate as (ds & f & Hds & Hf & Hfile).
  unfold HDF5_reload, bindM, read_file in H. rewrite Hfile in H.
  unfold attr, positive, retM, raiseM in H.
  destruct (h5_conditions f); [|done].
  destruct (h5_order f) as [o|]; [|done]. destruct (o <=? 0); [done|].
  destruct (h5_resolution f) as [r|]; [|done]. destruct (r <=? 0); [done|].
  injection H as <- <-. cbn [handle set_meta handle_lookup].
  rewrite Hf. rewrite Hcond in Hds.
  destruct (zero_arrays_shape _ _ _ _ _ _ Hds Hn) as (a & -> & Hshape & Hzero).
  eauto.
Qed.

Lemma NP_create_inv self (chroms : gmap string Z) (stranded : bool) (res ord : Z)
    (cache : bool) (path : string) la w w' built :
  NP_create zero self chroms stranded res ord cache path None la w = (w', Ok built) ->
  exists arrays locals,
    zero_arrays zero chroms stranded (condition self) = Ok arrays
    /\ built.2 = Some locals
    /\ l_names locals = dom arrays
    /\ (forall chrom, chrom ∉ reserved ->
          l_data locals !! chrom = EArray <$> arrays !! chrom)
    /\ (cache = true -> files w' !! path = Some (Npz (l_data locals))).
Proof.
  unfold NP_create, bindM, write_file, liftM, invoke_loader, retM.
  destruct (zero_arrays zero chroms stranded (condition self)) as [arrays|e]; [|done].
  cbn [set_handle handle condition].
  intros Hb.
  destruct cache; injection Hb as <- <-; cbn [snd files];
    (eexists arrays, _; split; [done|]; split; [done|]; cbn [l_names l_data];
     split; [by rewrite dom_fmap_L|]; split;
     [intros chrom Hres; unfold reserved in Hres;
      rewrite !lookup_insert_ne, lookup_fmap
        by (intros <-; apply Hres;
            rewrite !elem_of_union, !elem_of_singleton; tauto);
      done|]).
  - intros _. apply lookup_insert_eq.
  - done.
Qed.

Lemma NP_reload_inv (path : string) w w' (locals : np_locals (V:=V)) :
  NP_reload path w = (w', Ok locals) ->
  exists d, files w !! path = Some (Npz d)
    /\ l_data locals = d /\ l_names locals = dom d ∖ reserved.
Proof.
  unfold NP_reload, bindM, read_file, retM, raiseM.
  destruct (files w !! path) as [[f|d]|]; try done.
  destruct (d !! "conditions"%string) as [[?|?|?]|]; try done.
  destruct (d !! "order"%string) as [[?|?|?]|]; try done.
  destruct (d !! "resolution"%string) as [[?|?|?]|]; try done.
  intros [= <- <-]. eauto.
Qed.

Lemma NP_fresh_arrays w w' arr (chroms : gmap string Z) (stranded : bool) conditions
    (tc : string) datatags (res ord : Z) (cache ow : bool) la (chrom : string) (n : Z) :
  NPGenomicArray_init zero location chroms stranded conditions tc datatags
    res ord cache ow None la w = (w', Ok arr) ->
  ow = true \/ cache = false
  \/ exists_in w (path_join (location (cache_tags stranded datatags)) "storage.npz")
     = false ->
  chroms !! chrom = Some n ->
  chrom ∉ reserved ->
  exists a,
    handle_lookup (handle arr) chrom = Ok a
    /\ shape a = (Z.to_nat (n + 1), strand_count stranded,
                  length (default ["sample"%string] conditions))
    /\ all_zero zero a.
Proof.
  unfold NPGenomicArray_init. intros H Hfresh Hn Hres.
  apply bindM_inv in H as (self & w1 & Hbase & H).
  unfold liftM in Hbase. injection Hbase as <- Hbase.
  apply GenomicArray_init_inv in Hbase as Hcond.
  apply bindM_inv in H as (de & w3 & Hde & H).
  unfold path_exists in Hde. injection Hde as <- <-.
  apply bindM_inv in H as ([] & w4 & Hmk & H).
  apply bindM_inv in H as (fe & w5 & Hfe & H).
  unfold path_exists in Hfe. injection Hfe as <- <-.
  assert (cache && negb (exists_in w4 (path_join (location (cache_tags stranded datatags))
                                                 "storage.npz")) || ow
          || negb cache = true) as Hbranch.
  { destruct Hfresh as [->|[->|Hex]]; [by rewrite orb_true_r|by rewrite orb_true_r|].
    destruct cache; [|cbn; by rewrite orb_true_r]. cbn [andb] in *.
    destruct (exists_in w _) in Hmk.
    - injection Hmk as <-. by rewrite Hex.
    - unfold makedirs in Hmk. injection Hmk as <-.
      rewrite exists_in_makedirs, Hex; [done|]. by apply path_join_longer. }
  rewrite Hbranch in H.
  apply bindM_inv in H as (built & w6 & Hcreate & H).
  apply NP_create_inv in Hcreate as (arrays & locals & Harr & Hb & Hnames & Hdata & Hfile).
  rewrite Hcond in Harr.
  destruct (zero_arrays_shape _ _ _ _ _ _ Harr Hn) as (a & Ha & Hshape & Hzero).
  apply bindM_inv in H as (locals' & w7 & Hlocals & H).
  assert (filter (fun kv => kv.1 ∈ l_names locals') (l_data locals') !! chrom
          = Some (EArray a)) as Hlookup.
  { apply map_lookup_filter_Some. cbn [fst].
    destruct cache.
    - apply NP_reload_inv in Hlocals as (d & Hd & -> & ->).
      rewrite (Hfile eq_refl) in Hd. injection Hd as <-.
      assert (l_data locals !! chrom = Some (EArray a)) as Hl.
      { by rewrite Hdata, Ha. }
      split; [done|]. apply elem_of_difference. split; [|done].
      by apply elem_of_dom_2 in Hl.
    - rewrite Hb in Hlocals. injection Hlocals as _ <-.
      split; [by rewrite Hdata, Ha|]. rewrite Hnames. by apply elem_of_dom_2 in Ha. }
  unfold bindM, positive, retM, raiseM in H.
  destruct (l_resolution locals' <=? 0); [done|].
  destruct (l_order locals' <=? 0); [done|].
  injection H as <- <-. cbn [handle set_meta handle_lookup].
  rewrite Hlookup. eauto.
Qed.

(** C3 (as amended).  In both backends, a store that the factory builds
    afresh (with [overwrite], or with no cache at the tag-derived
    location, or in memory without caching) and without a loader holds,
    for every configured chromosome, an array of shape
    [(chrom_length + 1, 2 if stranded else 1, len(conditions))] whose
    cells are all zero: the first axis does not depend on the
    resolution.  (In the in-memory backend the chromosome is not named
    [conditions], [order] or [resolution].) *)
Theorem fresh_arrays_zero (storage : string) w w' arr (chroms : gmap string Z)
    (stranded : bool) conditions (tc : string) datatags (res ord : Z)
    (cache ow : bool) la (chrom : string) (n : Z) :
  storage = "hdf5"%string \/ storage = "ndarray"%string ->
  create_genomic_array zero location chroms stranded conditions tc storage res ord
    datatags cache ow None la w = (w', Ok arr) ->
  ow = true
  \/ (storage = "ndarray"%string /\ cache = false)
  \/ exists_in w (path_join (location (cache_tags stranded datatags))
                            (if bool_decide (storage = "hdf5"%string)
                             then "storage.h5" else "storage.npz")) = false ->
  chroms !! chrom = Some n ->
  (storage = "ndarray"%string -> chrom ∉ reserved) ->
  exists a,
    handle_lookup (handle arr) chrom = Ok a
    /\ shape a = (Z.to_nat (n + 1), strand_count stranded,
                  length (default ["sample"%string] conditions))
    /\ all_zero zero a.
Proof.
  intros [->| ->] Hbuild Hfresh Hn Hres; unfold create_genomic_array in Hbuild.
  - rewrite bool_decide_eq_true_2 in Hbuild, Hfresh by done.
    eapply HDF5_fresh_arrays; [exact Hbuild| |exact Hn].
    destruct Hfresh as [?|[[? _]|?]]; [by left|done|by right].
  - rewrite bool_decide_eq_false_2 in Hbuild, Hfresh by done.
    rewrite bool_decide_eq_true_2 in Hbuild by done.
    eapply NP_fresh_arrays; [exact Hbuild| |exact Hn|by apply Hres].
    destruct Hfresh as [?|[[_ ?]|?]]; [by left|by right; left|by right; right].
Qed.
End ConstructorFacts.

(** ** The properties at concrete inputs *)

Lemma create_from_file_length_witness :
  exists g, create_from_file [region_0_10] 5 3 0 false = Ok g
    /\ GenomicIndexer_len g = total (bin_count 5 3 false) [region_0_10].
Proof. apply (create_from_file_length [region_0_10] 5 3 0 false); lia. Defined.

(** A region shorter than [binsize - stepsize] yields no bin, where the
    formula of the specification counts [-7]. *)
Lemma length_not_spec_total :
  exists g, create_from_file [region_0_2] 10 1 0 true = Ok g
    /\ GenomicIndexer_len g = 0
    /\ total (spec_bin_count 10 1 true) [region_0_2] = -7
    /\ GenomicIndexer_len g <> total (spec_bin_count 10 1 true) [region_0_2].
Proof. eexists. split; [reflexivity|]. repeat split. discriminate. Qed.

Lemma add_region_rows_witness :
  region_val 3 5 region_0_10 = iv_end region_0_10 - iv_start region_0_10.
Proof.
  exact (proj2 (proj2 (proj2 (proj2 (add_region_rows 3 5 false no_columns region_0_10))))
           ltac:(lia)).
Defined.

(** With [binsize = 5] and [stepsize = 3] the region [chr1:0-10] has two
    full bins and a trailing bin of length 2, not [L - n * stepsize = 4];
    with [binsize = 3] and [stepsize = 2] the region [chr1:0-9] has
    [L mod stepsize = 1 > 0] and no trailing bin. *)
Lemma fragment_not_spec :
  (c_rel_end (add_region 5 3 false no_columns region_0_10) = [5; 5; 2]
   /\ c_inregionidx (add_region 5 3 false no_columns region_0_10) = [0; 1; 2]
   /\ (iv_end region_0_10 - iv_start region_0_10) - 2 * 3 = 4
   /\ last (c_rel_end (add_region 5 3 false no_columns region_0_10))
      <> Some ((iv_end region_0_10 - iv_start region_0_10) - 2 * 3))
  /\ (c_rel_end (add_region 3 2 false no_columns region_0_9) = py_repeat 3 4
      /\ c_inregionidx (add_region 3 2 false no_columns region_0_9) = py_range 4
      /\ 0 < (iv_end region_0_9 - iv_start region_0_9) mod 2
      /\ has_fragment false (region_val 3 2 region_0_9) 2 = false).
Proof. repeat split; try reflexivity. discriminate. Qed.

Lemma two_bins_built : create_from_file [region_0_10] 5 5 0 true = Ok two_bins.
Proof. reflexivity. Qed.

Lemma getitem_domain_witness :
  (forall i, is_ok (GenomicIndexer_getitem two_bins (PyInt i)) = true
             <-> - GenomicIndexer_len two_bins <= i < GenomicIndexer_len two_bins)
  /\ (forall i, - GenomicIndexer_len two_bins <= i < 0 ->
        GenomicIndexer_getitem two_bins (PyInt i)
        = GenomicIndexer_getitem two_bins (PyInt (i + GenomicIndexer_len two_bins)))
  /\ (forall i, ~ (- GenomicIndexer_len two_bins <= i < GenomicIndexer_len two_bins) ->
        GenomicIndexer_getitem two_bins (PyInt i) = Raise IndexError)
  /\ (forall index, (forall i, index <> PyInt i) ->
        GenomicIndexer_getitem two_bins index = Raise IndexError).
Proof. apply (getitem_domain [region_0_10] 5 5 0 true two_bins). reflexivity. Defined.

(** A negative index returns an interval: [get(-1)] is the last bin. *)
Lemma getitem_negative_index :
  create_from_file [region_0_10] 5 5 0 true = Ok two_bins
  /\ GenomicIndexer_len two_bins = 2
  /\ GenomicIndexer_getitem two_bins (PyInt (-1))
     = Ok {| iv_chrom := "chr1"; iv_start := 5; iv_end := 10; iv_strand := Plus |}
  /\ ~ (0 <= -1 < GenomicIndexer_len two_bins).
Proof. repeat split. lia. Qed.

(** [small_store] is what the in-memory constructor builds for a
    chromosome of length 3. *)
Lemma small_store_built :
  NPGenomicArray_init 0 cache_dir ({[ "chr1"%string := 3 ]} : gmap string Z) true None
    "int" None 2 1 false false None (None : option unit) empty_world
  = (empty_world, Ok small_store).
Proof. vm_compute. reflexivity. Qed.

Lemma small_array_wf : nd_wf small_array.
Proof. split; [reflexivity|]. repeat constructor. Qed.

Lemma fresh_arrays_zero_witness :
  exists a,
    handle_lookup (handle zero_store) "chr1" = Ok a
    /\ shape a = (11, 2, 1)%nat
    /\ all_zero 0 a.
Proof.
  apply (fresh_arrays_zero 0 cache_dir "hdf5" empty_world zero_world zero_store
           chr1_of_10 true None "int" None 2 1 true false (None : option unit)
           "chr1" 10).
  - left. reflexivity.
  - vm_compute. reflexivity.
  - right. right. vm_compute. reflexivity.
  - vm_compute. reflexivity.
  - intros H. discriminate H.
Defined.

(** At [resolution = 2] a chromosome of length 10 gets 11 cells in both
    backends, where the shape of the specification has
    [ceil(10 / 2) + 1 = 6]. *)
Lemma shape_ignores_resolution :
  (exists w' arr a,
      create_genomic_array 0 cache_dir chr1_of_10 true None "int" "hdf5" 2 1 None
        true false None (None : option unit) empty_world = (w', Ok arr)
      /\ handle_lookup (handle arr) "chr1" = Ok a
      /\ shape a = (11, 2, 1)%nat
      /\ shape a <> spec_shape 10 2 true (condition arr))
  /\ (exists w' arr a,
        create_genomic_array 0 cache_dir chr1_of_10 true None "int" "ndarray" 2 1 None
          true false None (None : option unit) empty_world = (w', Ok arr)
        /\ handle_lookup (handle arr) "chr1" = Ok a
        /\ shape a = (11, 2, 1)%nat
        /\ shape a <> spec_shape 10 2 true (condition arr))
  /\ spec_shape 10 2 true ["sample"%string] = (6, 2, 1)%nat.
Proof.
  split; [|split]; [| |reflexivity].
  - eexists _, _, _. split; [vm_compute; reflexivity|].
    split; [vm_compute; reflexivity|]. split; [reflexivity|]. vm_compute. discriminate.
  - eexists _, _, _. split; [vm_compute; reflexivity|].
    split; [vm_compute; reflexivity|]. split; [reflexivity|]. vm_compute. discriminate.
Qed.

Lemma getitem_interval_only_witness :
  exists sub,
    GenomicArray_getitem small_store (PyInterval interval_2_6) = Ok sub
    /\ shape sub = (2, 2, 1)%nat
    /\ cells sub = take 2 (drop 1 (cells small_array)).
Proof.
  apply (proj2 (proj2 (getitem_interval_only small_store)) interval_2_6 small_array).
  - discriminate.
  - vm_compute. reflexivity.
  - vm_compute. split; discriminate.
  - vm_compute. discriminate.
Defined.

(** With the valid condition index 0 the key [(interval, 0)] raises
    [IndexError], where the read of the specification returns the two
    cells of that condition; the key [interval] returns the block of both
    strands. *)
Lemma read_with_condition_fails :
  (0 <= 0 < Z.of_nat (length (condition small_store)))
  /\ GenomicArray_getitem small_store (PyTuple [PyInterval interval_2_6; PyInt 0])
     = Raise IndexError
  /\ spec_read small_store interval_2_6 (PyInt 0) = Ok [0; 0]
  /\ GenomicArray_getitem small_store (PyInterval interval_2_6)
     = Ok {| shape := (2, 2, 1)%nat; cells := [[[0]; [0]]; [[0]; [0]]] |}.
Proof.
  split; [split; [done|reflexivity]|].
  split; [reflexivity|]. split; vm_compute; reflexivity.
Qed.

Lemma write_then_read_witness :
  exists self' sub,
    GenomicArray_setitem small_store (PyTuple [PyInterval interval_2_6; PyInt 0])
      (Scalar 7) = Ok self'
    /\ GenomicArray_getitem self' (PyInterval interval_3_7) = Ok sub
    /\ nd_column sub 1 0 = [7; 7]
    /\ GenomicArray_getitem self' (PyTuple [PyInterval interval_3_7; PyInt 0])
       = Raise IndexError.
Proof.
  apply (write_then_read small_store interval_2_6 interval_3_7 0 (Scalar 7)
           small_array 1 0 [7; 7]).
  - discriminate.
  - vm_compute. reflexivity.
  - split; [reflexivity|]. repeat constructor.
  - reflexivity.
  - reflexivity.
  - reflexivity.
  - reflexivity.
  - reflexivity.
  - reflexivity.
  - reflexivity.
Defined.

(** After the write of 7 at [(interval, 0)], reading with the same key
    raises [IndexError], where the read of the specification returns the
    two sevens. *)
Lemma read_back_with_condition_fails :
  exists self',
    GenomicArray_setitem small_store (PyTuple [PyInterval interval_2_6; PyInt 0])
      (Scalar 7) = Ok self'
    /\ GenomicArray_getitem self' (PyTuple [PyInterval interval_2_6; PyInt 0])
       = Raise IndexError
    /\ spec_read self' interval_2_6 (PyInt 0) = Ok [7; 7].
Proof.
  eexists. split; [vm_compute; reflexivity|]. split; [reflexivity|].
  vm_compute. reflexivity.
Qed.

Lemma first_store_built :
  HDF5GenomicArray_init 0 cache_dir chr1_of_10 true (Some ["rep1"; "rep2"]%string)
    "int" None 2 3 true false (Some sevens) (Some tt) empty_world
  = (first_world, Ok first_store).
Proof. vm_compute. reflexivity. Qed.

Lemma HDF5_cache_reuse_witness :
  let r := HDF5GenomicArray_init 0 cache_dir (∅ : gmap string Z) true None "d" None
             5 1 true false (Some sevens) (Some tt) first_world in
  loader_calls r.1 = loader_calls first_world
  /\ files r.1 = files first_world
  /\ (forall arr, r.2 = Ok arr ->
        h5_conditions first_file = Some (condition arr)
        /\ h5_order first_file = Some (order arr)
        /\ h5_resolution first_file = Some (resolution arr)
        /\ handle arr = HFile first_file ReadOnly)
  /\ (forall (c : list string) (o rs : Z),
        h5_conditions first_file = Some c -> h5_order first_file = Some o ->
        h5_resolution first_file = Some rs ->
        0 < o -> 0 < rs ->
        true = true -> 1 <= 1 <= 4 -> 0 < 5 ->
        exists arr, r.2 = Ok arr
          /\ condition arr = c /\ order arr = o /\ resolution arr = rs)
  /\ (forall w0 arr1 (chroms1 : gmap string Z) (stranded1 : bool) conditions1
             (tc1 : string) datatags1 (res1 ord1 : Z) (cache1 ow1 : bool)
             (ld1 : option (loader_t (V:=Z) (LoaderArgs:=unit))) la1,
        HDF5GenomicArray_init 0 cache_dir chroms1 stranded1 conditions1 tc1
          datatags1 res1 ord1 cache1 ow1 ld1 la1 w0 = (first_world, Ok arr1) ->
        cache_dir (cache_tags stranded1 datatags1) = cache_dir (cache_tags true None) ->
        (forall arr, r.2 = Ok arr ->
           condition arr = condition arr1 /\ order arr = order arr1
           /\ resolution arr = resolution arr1)
        /\ (true = true -> 1 <= 1 <= 4 -> 0 < 5 -> exists arr, r.2 = Ok arr)).
Proof.
  apply (HDF5_cache_reuse 0 cache_dir first_world first_file (∅ : gmap string Z) true
           None "d" None 5 1 true (Some sevens) (Some tt)).
  vm_compute. reflexivity.
Defined.

(** The store that the second construction returns has the two
    conditions, the order 3 and the resolution 2 of the file, where its
    arguments were the default condition, order 1 and resolution 5. *)
Lemma HDF5_cache_reuse_values :
  exists arr,
    (HDF5GenomicArray_init 0 cache_dir (∅ : gmap string Z) true None "d" None
       5 1 true false (Some sevens) (Some tt) first_world).2 = Ok arr
    /\ condition arr = ["rep1"; "rep2"]%string /\ order arr = 3 /\ resolution arr = 2.
Proof. vm_compute. eexists. split; [reflexivity|]. repeat split. Qed.

Lemma create_genomic_array_dispatch_witness :
  create_genomic_array 0 cache_dir chr1_of_10 true None "int" "memmap" 1 1 None
    true false (Some sevens) (Some tt) empty_world
  = (empty_world, Raise Exception).
Proof.
  apply (proj1 (create_genomic_array_dispatch 0 cache_dir chr1_of_10 true None "int"
                  1 1 None true false (Some sevens) (Some tt))); discriminate.
Defined.

Lemma setitem_same_cell_witness :
  GenomicArray_setitem small_store (PyTuple [PyInterval interval_4_5; PyInt 0])
    (Scalar 7) = Ok small_store
  /\ GenomicArray_setitem first_store (PyTuple [PyInterval interval_4_5; PyInt 0])
       (Vector [7; 7]) = Ok first_store.
Proof.
  split.
  - apply (proj1 (proj2 (setitem_same_cell small_store interval_4_5 0 (Scalar 7)
                           eq_refl)) small_array).
    + discriminate.
    + vm_compute. reflexivity.
    + reflexivity.
    + reflexivity.
    + right. intros vs H. discriminate H.
  - apply (proj1 (proj2 (setitem_same_cell first_store interval_4_5 0 (Vector [7; 7])
                           eq_refl)) first_array).
    + discriminate.
    + vm_compute. reflexivity.
    + reflexivity.
    + reflexivity.
    + left. eexists _, _. reflexivity.
Defined.

(** On the store in memory, a write of two values to the empty cell
    range of [chr1:4-5] at resolution 2 raises [ValueError]. *)
Lemma same_cell_sequence_raises :
  iv_start interval_4_5 / resolution small_store
  = iv_end interval_4_5 / resolution small_store
  /\ GenomicArray_setitem small_store (PyTuple [PyInterval interval_4_5; PyInt 0])
       (Vector [7; 7]) = Raise ValueError.
Proof. split; vm_compute; reflexivity. Qed.

(** * More properties *)

(** ** The table of the indexer *)

Lemma py_repeat_range {A : Type} (x : A) (n : Z) :
  py_repeat x n = (fun _ => x) <$> py_range n.
Proof.
  unfold py_repeat, py_range. rewrite <- list_fmap_compose.
  symmetry. rewrite (const_fmap _ _ x) by done. by rewrite length_seq.
Qed.

Lemma add_region_columns_of b s fx rows iv :
  add_region b s fx (columns_of rows) iv = columns_of (rows ++ region_rows b s fx iv).
Proof.
  unfold add_region, region_rows, columns_of, fragment.
  destruct (has_fragment fx _ s); cbn [c_chrs c_offsets c_inregionidx c_strand c_rel_end];
    rewrite !fmap_app, !py_repeat_range, <- !list_fmap_compose, ?app_nil_r, ?app_assoc;
    cbn [fmap list_fmap]; f_equal; try done;
    f_equal; unfold compose; cbn; by rewrite ?list_fmap_id.
Qed.

Lemma fold_add_region_columns_of b s fx regions : forall rows,
  fold_left (add_region b s fx) regions (columns_of rows)
  = columns_of (rows ++ (regions ≫= region_rows b s fx)).
Proof.
  induction regions as [|iv regions IH]; intros rows; cbn [fold_left].
  - by rewrite app_nil_r.
  - rewrite add_region_columns_of, IH, <- app_assoc. done.
Qed.

Lemma py_index_fmap {A B : Type} (f : A -> B) (l : list A) (i : Z) :
  py_index (f <$> l) i = (x <- py_index l i ;; Ok (f x)).
Proof.
  unfold py_index. rewrite length_fmap, list_lookup_fmap.
  destruct (_ && _); [|done]. by destruct (l !! _).
Qed.

Lemma create_from_file_rows regions b s fl fx g :
  create_from_file regions b s fl fx = Ok g ->
  binsize g = b /\ stepsize g = s /\ flank g = fl
  /\ 0 < b /\ 0 < s /\ 0 <= fl
  /\ chrs g = r_chrom <$> (regions ≫= region_rows b s fx)
  /\ offsets g = r_offset <$> (regions ≫= region_rows b s fx)
  /\ inregionidx g = r_index <$> (regions ≫= region_rows b s fx)
  /\ strand g = r_strand <$> (regions ≫= region_rows b s fx)
  /\ rel_end g = r_rel_end <$> (regions ≫= region_rows b s fx).
Proof.
  unfold create_from_file, GenomicIndexer_init.
  destruct (Z.leb_spec b 0); [done|]. destruct (Z.leb_spec s 0); [done|].
  destruct (Z.ltb_spec fl 0); [done|]. cbn [bind]. intros [= <-].
  change no_columns with (columns_of []).
  rewrite fold_add_region_columns_of. cbn. repeat split; done || lia.
Qed.

Lemma getitem_as_rows regions b s fl fx g i :
  create_from_file regions b s fl fx = Ok g ->
  GenomicIndexer_getitem g (PyInt i)
  = py_index (bin_interval s fl <$> (regions ≫= region_rows b s fx)) i.
Proof.
  intros Hg.
  apply create_from_file_rows in Hg
    as (_ & Hs & Hf & _ & _ & _ & Hc & Ho & Hk & Hst & Hr).
  cbn [GenomicIndexer_getitem]. rewrite Hs, Hf, Hc, Ho, Hk, Hst, Hr.
  rewrite !py_index_fmap.
  destruct (py_index (regions ≫= region_rows b s fx) i) as [r|e]; cbn [bind]; done.
Qed.

Lemma py_index_elem {A : Type} (l : list A) (i : Z) (x : A) :
  py_index l i = Ok x -> x ∈ l.
Proof.
  unfold py_index. destruct (_ && _); [|done].
  destruct (l !! _) eqn:E; [|done]. intros [= <-].
  by apply list_elem_of_lookup_2 in E.
Qed.

Lemma getitem_row regions b s fl fx g i x :
  create_from_file regions b s fl fx = Ok g ->
  GenomicIndexer_getitem g (PyInt i) = Ok x ->
  0 < b /\ 0 < s /\ 0 <= fl
  /\ exists iv r, iv ∈ regions /\ r ∈ region_rows b s fx iv /\ x = bin_interval s fl r.
Proof.
  intros Hg Hx. rewrite (getitem_as_rows _ _ _ _ _ _ _ Hg) in Hx.
  apply create_from_file_rows in Hg as (_ & _ & _ & Hb & Hs & Hf & _).
  split; [done|]. split; [done|]. split; [done|].
  apply py_index_elem, list_elem_of_fmap in Hx as (r & -> & Hr).
  apply list_elem_of_bind in Hr as (iv & Hr & Hiv). eauto.
Qed.

Lemma elem_of_py_range (k n : Z) : k ∈ py_range n <-> 0 <= k < n.
Proof.
  unfold py_range. rewrite list_elem_of_fmap. setoid_rewrite elem_of_seq. split.
  - intros (j & -> & Hj). lia.
  - intros Hk. exists (Z.to_nat k). lia.
Qed.

Lemma elem_of_region_rows b s fx iv r :
  r ∈ region_rows b s fx iv ->
  r_chrom r = iv_chrom iv /\ r_offset r = iv_start iv /\ r_strand r = iv_strand iv
  /\ ((0 <= r_index r < region_val b s iv / s /\ r_rel_end r = b)
      \/ (fx = false /\ 0 < region_val b s iv mod s
          /\ r_index r = region_val b s iv / s
          /\ r_rel_end r = region_val b s iv mod s)).
Proof.
  unfold region_rows, fragment, has_fragment. rewrite elem_of_app, list_elem_of_fmap.
  intros [(k & -> & Hk)|Hr].
  - apply elem_of_py_range in Hk. cbn. repeat split; try done. by left.
  - destruct fx; cbn [negb andb] in Hr; [by apply elem_of_nil in Hr|].
    destruct (Z.ltb_spec 0 (region_val b s iv mod s)); [|by apply elem_of_nil in Hr].
    apply list_elem_of_singleton in Hr as ->. cbn. repeat split; try done. right.
    repeat split; try done.
    pose proof (Z_div_mod_eq_full (region_val b s iv) s). lia.
Qed.

(** X3.  Every interval that an indexer built by [create_from_file]
    returns is a full bin of [binsize + 2 * flank] positions or, only when
    variable sizes are allowed, a trailing fragment of at least one and
    fewer than [stepsize] positions plus the flanks. *)
Theorem getitem_length regions b s fl fx g i x :
  create_from_file regions b s fl fx = Ok g ->
  GenomicIndexer_getitem g (PyInt i) = Ok x ->
  iv_end x - iv_start x = b + 2 * fl
  \/ (fx = false /\ 1 + 2 * fl <= iv_end x - iv_start x < s + 2 * fl).
Proof.
  intros Hg Hx.
  destruct (getitem_row _ _ _ _ _ _ _ _ Hg Hx) as (Hb & Hs & Hf & iv & r & _ & Hr & ->).
  apply elem_of_region_rows in Hr as (_ & _ & _ & [[_ Hrel]|(Hfx & Hpos & _ & Hrel)]).
  - left. unfold bin_interval. cbn. rewrite Hrel.
    destruct (Z.ltb_spec 0 b); lia.
  - right. split; [done|]. unfold bin_interval. cbn. rewrite Hrel.
    pose proof (Z.mod_pos_bound (region_val b s iv) s Hs).
    destruct (Z.ltb_spec 0 (region_val b s iv mod s)); lia.
Qed.

(** X4.  With fixed-size batches, or when the quantity [val] of the loop
    (the length of the region, less [binsize - stepsize] when
    [stepsize <= binsize]) is negative for no region, every interval that
    the indexer returns lies, flanks aside, inside one of the input
    regions and has the chromosome and the strand of that region. *)
Theorem getitem_inside_region regions b s fl fx g i x :
  create_from_file regions b s fl fx = Ok g ->
  fx = true \/ Forall (fun iv => 0 <= region_val b s iv) regions ->
  GenomicIndexer_getitem g (PyInt i) = Ok x ->
  exists iv, iv ∈ regions
    /\ iv_chrom x = iv_chrom iv /\ iv_strand x = iv_strand iv
    /\ iv_start iv <= iv_start x + fl
    /\ iv_end x - fl <= iv_end iv.
Proof.
  intros Hg Hval Hx.
  destruct (getitem_row _ _ _ _ _ _ _ _ Hg Hx) as (Hb & Hs & Hf & iv & r & Hiv & Hr & ->).
  exists iv. split; [done|].
  apply elem_of_region_rows in Hr
    as (Hc & Ho & Hst & [[Hk Hrel]|(Hfx & Hpos & Hk & Hrel)]);
    unfold bin_interval; cbn; rewrite Hc, Ho, Hst, Hrel.
  - split; [done|]. split; [done|].
    pose proof (Z.mul_div_le (region_val b s iv) s Hs) as Hle.
    destruct (Z.ltb_spec 0 b); [|lia].
    unfold region_val in *. destruct (Z.leb_spec s b); split; nia.
  - split; [done|]. split; [done|].
    assert (0 <= region_val b s iv) as Hnn.
    { destruct Hval as [->|Hall]; [done|].
      rewrite Forall_forall in Hall. by apply Hall. }
    pose proof (Z_div_mod_eq_full (region_val b s iv) s) as Heq.
    assert (0 <= region_val b s iv / s) by (apply Z.div_pos; lia).
    destruct (Z.ltb_spec 0 (region_val b s iv mod s)); [|lia].
    rewrite Hk. unfold region_val in *. destruct (Z.leb_spec s b); split; nia.
Qed.

(** X1.  [create_from_file] raises [ValueError] exactly when [binsize] or
    [stepsize] is not positive or [flank] is negative, whatever the
    regions, and it raises nothing else; an indexer that it returns
    carries the three parameters and five columns of one common length. *)
Theorem create_from_file_errors regions b s fl fx :
  (create_from_file regions b s fl fx = Raise ValueError <-> b <= 0 \/ s <= 0 \/ fl < 0)
  /\ (forall e, create_from_file regions b s fl fx = Raise e -> e = ValueError)
  /\ (forall g, create_from_file regions b s fl fx = Ok g ->
        binsize g = b /\ stepsize g = s /\ flank g = fl /\ indexer_aligned g).
Proof.
  split; [|split].
  - unfold create_from_file, GenomicIndexer_init.
    destruct (Z.leb_spec b 0); [by split; auto|].
    destruct (Z.leb_spec s 0); [by split; auto|].
    destruct (Z.ltb_spec fl 0); [by split; auto|].
    cbn [bind]. split; [done|lia].
  - intros e. unfold create_from_file, GenomicIndexer_init.
    destruct (b <=? 0); [by intros [= <-]|]. destruct (s <=? 0); [by intros [= <-]|].
    destruct (fl <? 0); [by intros [= <-]|]. done.
  - intros g Hg. pose proof (create_from_file_aligned _ _ _ _ _ _ Hg).
    apply create_from_file_rows in Hg as (? & ? & ? & _). done.
Qed.

(** X2.  The bins of an indexer built by [create_from_file] are the bins of
    the regions, region after region in the order of the input and, within
    a region, by rising offset with the trailing fragment last: [len] is
    the number of rows of all regions and [get(i)] is the interval of the
    [i]-th row, a negative [i] counting from the end. *)
Theorem bins_in_region_order regions b s fl fx g :
  create_from_file regions b s fl fx = Ok g ->
  GenomicIndexer_len g = Z.of_nat (length (regions ≫= region_rows b s fx))
  /\ forall i, GenomicIndexer_getitem g (PyInt i)
               = py_index (bin_interval s fl <$> (regions ≫= region_rows b s fx)) i.
Proof.
  intros Hg. split.
  - apply create_from_file_rows in Hg as (_ & _ & _ & _ & _ & _ & Hc & _).
    unfold GenomicIndexer_len. by rewrite Hc, length_fmap.
  - intros i. by apply getitem_as_rows.
Qed.

Lemma elem_of_fold_union (where_ : string -> gset nat) (names : list string) :
  forall (s0 : gset nat) (i : nat),
    i ∈ fold_left (fun s name => s ∪ where_ name) names s0
    <-> i ∈ s0 \/ exists name, name ∈ names /\ i ∈ where_ name.
Proof.
  induction names as [|n names IH]; intros s0 i; cbn [fold_left].
  - split; [auto|]. intros [?|(? & H & _)]; [done|]. by apply elem_of_nil in H.
  - rewrite IH, elem_of_union. split.
    + intros [[?|?]|(m & ? & ?)]; [by left| |].
      * right. exists n. split; [left|done].
      * right. exists m. split; [by right|done].
    + intros [?|(m & Hm & ?)]; [by left; left|].
      apply elem_of_cons in Hm as [->|?]; [by left; right|]. right. eauto.
Qed.

Lemma elem_of_fold_difference (where_ : string -> gset nat) (names : list string) :
  forall (s0 : gset nat) (i : nat),
    i ∈ fold_left (fun s name => s ∖ where_ name) names s0
    <-> i ∈ s0 /\ forall name, name ∈ names -> i ∉ where_ name.
Proof.
  induction names as [|n names IH]; intros s0 i; cbn [fold_left].
  - split; [|tauto]. intros Hi. split; [done|]. intros m Hm. by apply elem_of_nil in Hm.
  - rewrite IH, elem_of_difference. split.
    + intros [[? ?] Hrest]. split; [done|]. intros m Hm.
      apply elem_of_cons in Hm as [->|?]; [done|]. by apply Hrest.
    + intros [? Hall]. split; [split; [done|]|].
      * apply Hall. left.
      * intros m Hm. apply Hall. by right.
Qed.

(** X5.  [idx_by_chrom] returns each index at most once, and an index is
    returned exactly when it is a row of the indexer whose chromosome is
    included (every chromosome is when [include] is [None] or empty) and
    not excluded; a name given as a string counts as the list of that one
    name.  A chromosome is included, or excluded, when it is one of the
    names as numpy compares strings: NUL characters at the end of either
    are ignored. *)
Theorem idx_by_chrom_spec (g : GenomicIndexer) (include exclude : chrom_filter) :
  NoDup (idx_by_chrom g include exclude)
  /\ forall i : nat,
       i ∈ idx_by_chrom g include exclude
       <-> exists c, chrs g !! i = Some c
             /\ (filter_names include = []
                 \/ exists n, n ∈ filter_names include /\ np_str c = np_str n)
             /\ ~ (exists n, n ∈ filter_names exclude /\ np_str c = np_str n).
Proof.
  unfold idx_by_chrom. split; [apply NoDup_elements|]. intros i.
  rewrite elem_of_elements, elem_of_fold_difference.
  setoid_rewrite elem_of_list_to_set. setoid_rewrite elem_of_where_eq.
  assert (i ∈ match filter_names include with
              | [] => list_to_set (seq 0 (length (chrs g)))
              | _ :: _ =>
                  fold_left (fun (s : gset nat) name =>
                               s ∪ list_to_set (where_eq (chrs g) name))
                            (filter_names include) ∅
              end
          <-> exists c, chrs g !! i = Some c
                /\ (filter_names include = []
                    \/ exists n, n ∈ filter_names include /\ np_str c = np_str n))
    as ->.
  { destruct (filter_names include) as [|n names] eqn:E.
    - rewrite elem_of_list_to_set, elem_of_seq. split.
      + intros [_ Hi]. destruct (lookup_lt_is_Some_2 (chrs g) i) as [c Hc]; [lia|].
        exists c. auto.
      + intros (c & Hc & _). apply lookup_lt_Some in Hc. lia.
    - rewrite (elem_of_fold_union (fun name => list_to_set (where_eq (chrs g) name))).
      rewrite elem_of_empty. setoid_rewrite elem_of_list_to_set.
      setoid_rewrite elem_of_where_eq. split.
      + intros [[]|(m & Hm & c & Hc & Heq)]. exists c. split; [done|]. right. eauto.
      + intros (c & Hc & [?|(m & Hm & Heq)]); [done|]. right. eauto. }
  split.
  - intros [(c & Hc & Hinc) Hexc]. exists c. split; [done|]. split; [done|].
    intros (m & Hm & Heq). apply (Hexc m Hm). eauto.
  - intros (c & Hc & Hinc & Hexc). split; [eauto|].
    intros name Hname (c' & Hc' & Heq). rewrite Hc in Hc'. injection Hc' as <-.
    apply Hexc. eauto.
Qed.

(** A name with a NUL character at its end selects the rows of the name
    without it. *)
Lemma idx_by_chrom_padding :
  idx_by_chrom two_bins (FStr ("chr1" +:+ String "000"%char "")) FNone
  = idx_by_chrom two_bins (FStr "chr1") FNone
  /\ length (idx_by_chrom two_bins (FStr ("chr1" +:+ String "000"%char "")) FNone)
     = 2%nat.
Proof. split; vm_compute; reflexivity. Qed.

(** ** Keys, frames and clipping of the array store *)

Lemma py_index_nonneg {A : Type} (l : list A) (i : nat) (x : A) :
  l !! i = Some x -> py_index l (Z.of_nat i) = Ok x.
Proof.
  intros Hx. unfold py_index. pose proof (lookup_lt_Some _ _ _ Hx).
  destruct (Z.ltb_spec (Z.of_nat i) 0); [lia|].
  destruct (Z.leb_spec 0 (Z.of_nat i)); [|lia].
  destruct (Z.ltb_spec (Z.of_nat i) (Z.of_nat (length l))); [|lia].
  cbn [andb]. by rewrite Nat2Z.id, Hx.
Qed.

Section MoreArrayFacts.
Context {V : Type}.
Implicit Types (a : ndarray (V:=V)) (self : GenomicArray (V:=V)).
Implicit Types (val : value (V:=V)) (h : handle_t (V:=V)).

Lemma setitem_accepts self (index : pyobj) val self' :
  GenomicArray_setitem self index val = Ok self' ->
  exists iv c rest, index = PyTuple (PyInterval iv :: PyInt c :: rest).
Proof.
  unfold GenomicArray_setitem. destruct index as [|z|s|iv|items]; try done.
  - cbn [py_getitem].
    destruct (py_index _ 0) as [x|] eqn:E0; cbn [bind]; [|done].
    destruct (py_index _ 1) as [y|] eqn:E1; cbn [bind]; [|done].
    apply py_index_elem, list_elem_of_fmap in E0 as (? & -> & _).
    apply py_index_elem, list_elem_of_fmap in E1 as (? & -> & _). done.
  - destruct items as [|x [|y rest]]; try done.
    cbn [py_getitem].
    rewrite (py_index_nonneg (x :: y :: rest) 0 x eq_refl
             : py_index (x :: y :: rest) 0 = Ok x).
    rewrite (py_index_nonneg (x :: y :: rest) 1 y eq_refl
             : py_index (x :: y :: rest) 1 = Ok y).
    cbn [bind]. destruct x; try done. destruct y; try done. eauto.
Qed.

Lemma py_getitem_str_error (s : string) (i : Z) (e : exn) :
  py_getitem (PyStr s) i = Raise e -> e = IndexError.
Proof. cbn [py_getitem]. apply py_index_error. Qed.

Lemma py_getitem_str_ok (s : string) (i : Z) (x : pyobj) :
  py_getitem (PyStr s) i = Ok x -> exists t, x = PyStr t.
Proof.
  cbn [py_getitem]. intros H.
  apply py_index_elem, list_elem_of_fmap in H as (? & -> & _). eauto.
Qed.

Lemma setitem_tuple_rest self (iv : GenomicInterval) (c : Z) (rest : list pyobj) val :
  GenomicArray_setitem self (PyTuple (PyInterval iv :: PyInt c :: rest)) val
  = GenomicArray_setitem self (PyTuple [PyInterval iv; PyInt c]) val.
Proof.
  unfold GenomicArray_setitem. cbn [py_getitem].
  rewrite (py_index_nonneg (PyInterval iv :: PyInt c :: rest) 0 _ eq_refl
           : py_index (PyInterval iv :: PyInt c :: rest) 0 = Ok (PyInterval iv)).
  rewrite (py_index_nonneg (PyInterval iv :: PyInt c :: rest) 1 _ eq_refl
           : py_index (PyInterval iv :: PyInt c :: rest) 1 = Ok (PyInt c)).
  done.
Qed.

(** X7.  The write reads the items 0 and 1 of its key and nothing else of
    it: the further items of a tuple that starts with a genomic interval
    and an integer are ignored.  Of the keys that are a tuple, a string,
    [None], an integer or a genomic interval, every other one raises
    before the store is looked at: a tuple that does not start with a
    genomic interval and an integer, and a string, raise [IndexError];
    [None], an integer and a genomic interval, which cannot be
    subscripted, raise [TypeError]. *)
Theorem setitem_key_errors self val :
  (forall iv c rest,
      GenomicArray_setitem self (PyTuple (PyInterval iv :: PyInt c :: rest)) val
      = GenomicArray_setitem self (PyTuple [PyInterval iv; PyInt c]) val)
  /\ (forall items,
        (forall iv c rest, items <> PyInterval iv :: PyInt c :: rest) ->
        GenomicArray_setitem self (PyTuple items) val = Raise IndexError)
  /\ (forall s, GenomicArray_setitem self (PyStr s) val = Raise IndexError)
  /\ GenomicArray_setitem self PyNone val = Raise TypeError
  /\ (forall z, GenomicArray_setitem self (PyInt z) val = Raise TypeError)
  /\ (forall iv, GenomicArray_setitem self (PyInterval iv) val = Raise TypeError).
Proof.
  split; [|split; [|split; [|split; [|split]]]]; try done.
  - intros iv c rest. apply setitem_tuple_rest.
  - intros items Hne. unfold GenomicArray_setitem.
    destruct items as [|x [|y rest]]; try done. cbn [py_getitem].
    rewrite (py_index_nonneg (x :: y :: rest) 0 x eq_refl
             : py_index (x :: y :: rest) 0 = Ok x).
    rewrite (py_index_nonneg (x :: y :: rest) 1 y eq_refl
             : py_index (x :: y :: rest) 1 = Ok y).
    cbn [bind]. destruct x; try done. destruct y; try done.
    by destruct (Hne iv z rest).
  - intros s0. unfold GenomicArray_setitem.
    destruct (py_getitem (PyStr s0) 0) as [x|e] eqn:E0; cbn [bind].
    2: { by apply py_getitem_str_error in E0 as ->. }
    destruct (py_getitem (PyStr s0) 1) as [y|e] eqn:E1; cbn [bind].
    2: { by apply py_getitem_str_error in E1 as ->. }
    apply py_getitem_str_ok in E0 as [t ->]. done.
Qed.

Lemma handle_lookup_store_ne h h' (chrom chrom' : string) a :
  handle_store h chrom a = Ok h' -> chrom' <> chrom ->
  handle_lookup h' chrom' = handle_lookup h chrom'.
Proof.
  destruct h as [d|f [|]]; simpl; try done; intros [= <-] Hne; simpl;
    by rewrite lookup_insert_ne.
Qed.

Lemma row_cell_set_cell_ne (si ci s' c' : nat) (row : list (list V)) (v : V) :
  s' <> si \/ c' <> ci ->
  row_cell s' c' (set_cell si ci row v) = row_cell s' c' row.
Proof.
  intros Hne. unfold row_cell, set_cell.
  destruct (decide (s' = si)) as [->|Hs].
  - rewrite list_lookup_alter_eq. destruct (row !! si) as [conds|]; [|done].
    cbn. apply list_lookup_insert_ne. destruct Hne as [?|?]; congruence.
  - by rewrite list_lookup_alter_ne.
Qed.

Lemma nd_setitem_frame a (start stop s c : Z) val a' (si ci : nat) :
  nd_wf a ->
  nd_setitem a start stop s c val = Ok a' ->
  norm_index s (shape a).1.2 = Ok si ->
  norm_index c (shape a).2 = Ok ci ->
  forall i s' c' : nat,
    ((i < (slice_range start stop (shape a).1.1).1)%nat
     \/ ((slice_range start stop (shape a).1.1).1
         + (slice_range start stop (shape a).1.1).2 <= i)%nat)
    \/ s' <> si \/ c' <> ci ->
    nd_get a' i s' c' = nd_get a i s' c'.
Proof.
  intros [Hlen Hwf] Ha' Hsi Hci i s' c' Hout.
  apply nd_setitem_inv in Ha' as (si' & ci' & vs & Hsi' & Hci' & Hvs & _ & Hcells).
  rewrite Hsi in Hsi'. rewrite Hci in Hci'. injection Hsi' as <-. injection Hci' as <-.
  apply broadcast_length in Hvs.
  destruct (slice_range start stop (shape a).1.1) as [lo k] eqn:Hsr. cbn [fst snd] in *.
  pose proof (slice_range_bounds _ _ _ _ _ Hsr) as Hb.
  unfold nd_get. rewrite Hcells.
  destruct (decide (i < lo)%nat) as [Hlt|Hge].
  { rewrite lookup_app_l by (rewrite length_take; lia). by rewrite lookup_take_lt. }
  rewrite lookup_app_r by (rewrite length_take; lia).
  rewrite length_take, Nat.min_l by lia.
  destruct (decide (lo + k <= i)%nat) as [Hhi|Hin].
  { rewrite lookup_app_r
      by (rewrite length_zip_with, length_take, length_drop; lia).
    rewrite length_zip_with, length_take, length_drop, lookup_drop.
    f_equal. f_equal. lia. }
  rewrite lookup_app_l
    by (rewrite length_zip_with, length_take, length_drop; lia).
  rewrite lookup_zip_with, lookup_take_lt, lookup_drop by lia.
  replace (lo + (i - lo))%nat with i by lia.
  destruct (cells a !! i) as [row|]; [|done]. cbn.
  destruct (vs !! (i - lo)%nat) as [v|] eqn:Ev.
  - cbn. apply row_cell_set_cell_ne. destruct Hout as [[?|?]|?]; [lia|lia|done].
  - apply lookup_ge_None in Ev. lia.
Qed.

(** X9.  A write that succeeds changes nothing but the addressed cells:
    the metadata of the store and the arrays of the other chromosomes are
    the same, the array written to keeps its shape, and each of its cells
    outside the slice, on another strand or in another condition keeps
    its value. *)
Theorem setitem_frame self (iv : GenomicInterval) (c : Z) val self' :
  store_wf self ->
  GenomicArray_setitem self (PyTuple [PyInterval iv; PyInt c]) val = Ok self' ->
  (stranded self' = stranded self /\ condition self' = condition self
   /\ order self' = order self /\ resolution self' = resolution self
   /\ typecode self' = typecode self)
  /\ (forall chrom, chrom <> iv_chrom iv ->
        handle_lookup (handle self') chrom = handle_lookup (handle self) chrom)
  /\ exists a a' si ci,
       handle_lookup (handle self) (iv_chrom iv) = Ok a
       /\ handle_lookup (handle self') (iv_chrom iv) = Ok a'
       /\ shape a' = shape a
       /\ norm_index (strand_axis (stranded self) (iv_strand iv)) (shape a).1.2 = Ok si
       /\ norm_index c (shape a).2 = Ok ci
       /\ forall i s' c' : nat,
            ((i < (slice_range (iv_start iv / resolution self)
                               (iv_end iv / resolution self) (shape a).1.1).1)%nat
             \/ ((slice_range (iv_start iv / resolution self)
                              (iv_end iv / resolution self) (shape a).1.1).1
                 + (slice_range (iv_start iv / resolution self)
                                (iv_end iv / resolution self) (shape a).1.1).2 <= i)%nat)
            \/ s' <> si \/ c' <> ci ->
            nd_get a' i s' c' = nd_get a i s' c'.
Proof.
  intros Hwf Hset.
  apply setitem_inv in Hset
    as (a & si & ci & Hres & Ha & Hsi & Hci
        & [[-> Hk]|(a' & h' & Hw & Ha' & Hh' & ->)]).
  { split; [done|]. split; [done|]. exists a, a, si, ci. done. }
  split; [done|]. split.
  { intros chrom Hne. cbn [set_handle handle]. by apply (handle_lookup_store_ne _ _ _ _ _ Hh'). }
  pose proof (nd_setitem_inv _ _ _ _ _ _ _ Ha') as (? & ? & vs & _ & _ & _ & Hshape & _).
  exists a, a', si, ci. split; [done|]. split.
  { cbn [set_handle handle]. by apply (handle_lookup_store _ _ _ _ Hh'). }
  split; [done|]. split; [done|]. split; [done|].
  by apply (nd_setitem_frame a _ _ _ _ _ a' si ci (Hwf _ _ Ha) Ha').
Qed.

(** X10.  A write that succeeds on a store whose arrays fill their shapes
    leaves a store whose arrays fill their shapes, whatever the key. *)
Theorem setitem_wf self (index : pyobj) val self' :
  store_wf self ->
  GenomicArray_setitem self index val = Ok self' ->
  store_wf self'.
Proof.
  intros Hwf Hset.
  destruct (setitem_accepts _ _ _ _ Hset) as (iv & c & rest & ->).
  rewrite setitem_tuple_rest in Hset.
  apply setitem_inv in Hset
    as (a & si & ci & Hres & Ha & _ & _ & [[-> _]|(a' & h' & Hw & Ha' & Hh' & ->)]);
    [done|].
  intros chrom b. cbn [set_handle handle].
  destruct (decide (chrom = iv_chrom iv)) as [->|Hne].
  - rewrite (handle_lookup_store _ _ _ _ Hh'). intros [= <-].
    eapply nd_setitem_wf; [apply (Hwf _ _ Ha)|exact Ha'].
  - rewrite (handle_lookup_store_ne _ _ _ _ _ Hh') by done. apply Hwf.
Qed.

End MoreArrayFacts.

(** ** What the constructors do to the cache and with the loader *)

Section MoreConstructorFacts.
Context {V : Type} (zero : V) {LoaderArgs : Type}.
Variable location : option (list string) -> string.
Implicit Types (w : world (V:=V)) (self arr : GenomicArray (V:=V)).
Implicit Types (f : h5file (V:=V)) (la : option LoaderArgs).
Implicit Types (ld : option (loader_t (V:=V) (LoaderArgs:=LoaderArgs))).

Ltac run_steps :=
  unfold HDF5_create, HDF5_reload, NP_create, NP_reload, invoke_loader, bindM, liftM,
    retM, raiseM, path_exists, makedirs, write_file, read_file, attr, positive;
  repeat (case_match; unfold retM, raiseM in *; simplify_eq/=; try done).

Lemma HDF5_reload_world self (path : string) w : (HDF5_reload self path w).1 = w.
Proof. run_steps. Qed.

Lemma NP_reload_world (path : string) w : (NP_reload (V:=V) path w).1 = w.
Proof. run_steps. Qed.

Lemma invoke_loader_world ld la self w :
  dirs (invoke_loader ld la self w).1 = dirs w
  /\ files (invoke_loader ld la self w).1 = files w
  /\ (loader_calls w <= loader_calls (invoke_loader ld la self w).1 <= S (loader_calls w))%nat
  /\ (ld = None -> loader_calls (invoke_loader ld la self w).1 = loader_calls w).
Proof. run_steps; repeat split; done || lia. Qed.

Lemma HDF5_create_world self (chroms : gmap string Z) (stranded : bool) (path : string)
    ld la w :
  let w' := (HDF5_create zero self chroms stranded path ld la w).1 in
  dirs w' = dirs w
  /\ (forall p, p <> path -> files w' !! p = files w !! p)
  /\ (loader_calls w <= loader_calls w' <= S (loader_calls w))%nat
  /\ (ld = None -> loader_calls w' = loader_calls w).
Proof.
  cbv zeta. run_steps;
    (split; [done|]; split;
     [intros p Hp; by rewrite ?lookup_insert_ne by done|]; split; [lia|done]).
Qed.

Lemma NP_create_world self (chroms : gmap string Z) (stranded : bool) (res ord : Z)
    (cache : bool) (path : string) ld la w :
  let w' := (NP_create zero self chroms stranded res ord cache path ld la w).1 in
  dirs w' = dirs w
  /\ (forall p, p <> path -> files w' !! p = files w !! p)
  /\ (cache = false -> files w' = files w)
  /\ (loader_calls w <= loader_calls w' <= S (loader_calls w))%nat
  /\ (ld = None -> loader_calls w' = loader_calls w).
Proof.
  cbv zeta. run_steps;
    (split; [done|]; split;
     [intros p Hp; by rewrite ?lookup_insert_ne by done|]; split; [done|];
     split; [lia|done]).
Qed.

Lemma HDF5_init_world (chroms : gmap string Z) (stranded : bool) conditions (tc : string)
    datatags (res ord : Z) (cache ow : bool) ld la w :
  let w' := (HDF5GenomicArray_init zero location chroms stranded conditions tc datatags
               res ord cache ow ld la w).1 in
  let dir := location (cache_tags stranded datatags) in
  (dirs w' = dirs w \/ dirs w' = {[dir]} ∪ list_to_set (parents dir) ∪ dirs w)
  /\ (forall p, p <> path_join dir "storage.h5" -> files w' !! p = files w !! p)
  /\ (loader_calls w <= loader_calls w' <= S (loader_calls w))%nat
  /\ (ld = None -> loader_calls w' = loader_calls w).
Proof.
  cbv zeta. unfold HDF5GenomicArray_init, bindM, liftM, path_exists, makedirs.
  destruct (GenomicArray_init stranded conditions tc res ord) as [self|e];
    [|cbn; repeat split; auto].
  destruct cache; cbn; [|repeat split; auto].
  set (dir := location (cache_tags stranded datatags)).
  set (path := path_join dir "storage.h5").
  assert (forall w2, dirs w2 = dirs w \/ dirs w2 = {[dir]} ∪ list_to_set (parents dir) ∪ dirs w ->
            files w2 = files w -> loader_calls w2 = loader_calls w ->
            let w' := (let (w', r) :=
                         (if negb (exists_in w2 path) || ow
                          then HDF5_create zero self chroms stranded path ld la
                          else retM self) w2 in
                       match r with
                       | Ok a => HDF5_reload a path w'
                       | Raise e => (w', Raise e)
                       end).1 in
            (dirs w' = dirs w \/ dirs w' = {[dir]} ∪ list_to_set (parents dir) ∪ dirs w)
            /\ (forall p, p <> path -> files w' !! p = files w !! p)
            /\ (loader_calls w <= loader_calls w' <= S (loader_calls w))%nat
            /\ (ld = None -> loader_calls w' = loader_calls w)) as Hrest.
  { intros w2 Hd Hf Hc. cbv zeta.
    destruct (negb (exists_in w2 path) || ow).
    - pose proof (HDF5_create_world self chroms stranded path ld la w2)
        as (Hd' & Hf' & Hc' & Hn').
      destruct (HDF5_create zero self chroms stranded path ld la w2) as [w3 [a|e]];
        cbn [fst] in *; rewrite ?HDF5_reload_world;
        (split; [by rewrite Hd'|]; split;
         [intros p Hp; by rewrite Hf', Hf|]; split; [lia|];
         intros Hld; rewrite Hn' by done; lia).
    - unfold retM. rewrite HDF5_reload_world. rewrite Hf, Hc. repeat split; auto; lia. }
  destruct (exists_in w dir); cbn.
  - apply Hrest; auto.
  - apply Hrest; cbn; auto.
Qed.

Lemma NP_init_world (chroms : gmap string Z) (stranded : bool) conditions (tc : string)
    datatags (res ord : Z) (cache ow : bool) ld la w :
  let w' := (NPGenomicArray_init zero location chroms stranded conditions tc datatags
               res ord cache ow ld la w).1 in
  let dir := location (cache_tags stranded datatags) in
  (dirs w' = dirs w \/ dirs w' = {[dir]} ∪ list_to_set (parents dir) ∪ dirs w)
  /\ (forall p, p <> path_join dir "storage.npz" -> files w' !! p = files w !! p)
  /\ (cache = false -> dirs w' = dirs w /\ files w' = files w)
  /\ (loader_calls w <= loader_calls w' <= S (loader_calls w))%nat
  /\ (ld = None -> loader_calls w' = loader_calls w).
Proof.
  cbv zeta.
  unfold NPGenomicArray_init, bindM, liftM, path_exists, makedirs, positive, retM, raiseM.
  repeat (case_match; simplify_eq/=);
    repeat match goal with
    | H : NP_reload ?path ?w0 = (_, _) |- _ =>
        let H' := fresh in
        pose proof (NP_reload_world path w0) as H'; rewrite H in H';
        cbn [fst] in H'; subst; clear H
    | H : NP_create _ ?self _ _ _ _ ?c ?path _ _ ?w0 = (_, _) |- _ =>
        let H' := fresh in
        pose proof (NP_create_world self chroms stranded res ord c path ld la w0) as H';
        cbv zeta in H'; rewrite H in H'; cbn [fst dirs files loader_calls] in H';
        destruct H' as (? & ? & ? & ? & ?); clear H
    end;
    cbn [dirs files loader_calls fst] in *;
    (split; [first [left; congruence|right; congruence]|]; split;
     [intros p Hp; first [done|auto; fail|by etrans; [eauto|]]|]; split;
     [intros Hcache; try subst cache; cbn [andb] in *;
      first [congruence|split; first [done|congruence|auto]]|];
     split; [lia|];
     first [done|auto; fail|intros Hld; etrans; [eauto|done]]).
Qed.

(** *** At the level of the factory *)

(** X12.  Whatever its arguments and its outcome, a call of
    [create_genomic_array] invokes the loader at most once, and never
    when none is given. *)
Theorem loader_at_most_once (storage : string) (chroms : gmap string Z) (stranded : bool)
    conditions (tc : string) (res ord : Z) datatags (cache ow : bool) ld la w :
  let w' := (create_genomic_array zero location chroms stranded conditions tc storage
               res ord datatags cache ow ld la w).1 in
  (loader_calls w <= loader_calls w' <= S (loader_calls w))%nat
  /\ (ld = None -> loader_calls w' = loader_calls w).
Proof.
  cbv zeta. unfold create_genomic_array. repeat case_bool_decide.
  - pose proof (HDF5_init_world chroms stranded conditions tc datatags res ord cache ow
                  ld la w) as (_ & _ & ? & ?). done.
  - pose proof (NP_init_world chroms stranded conditions tc datatags res ord cache ow
                  ld la w) as (_ & _ & _ & ? & ?). done.
  - cbn. split; [lia|done].
Qed.

(** X13.  Whatever its outcome, a call of [create_genomic_array] makes
    no directory but the cache directory of its tags and the parents on
    the way to it, each of them the part of that path before one of its
    ['/'], and changes no file but the storage file of its backend in
    that directory; the in-memory backend without caching touches
    neither, and an unknown storage leaves everything as it was. *)
Theorem constructor_touches_only_cache (storage : string) (chroms : gmap string Z)
    (stranded : bool) conditions (tc : string) (res ord : Z) datatags (cache ow : bool)
    ld la w :
  let w' := (create_genomic_array zero location chroms stranded conditions tc storage
               res ord datatags cache ow ld la w).1 in
  let dir := location (cache_tags stranded datatags) in
  (forall d, d ∈ dirs w -> d ∈ dirs w')
  /\ (forall d, d ∈ dirs w' -> d ∈ dirs w \/ d = dir \/ d ∈ parents dir)
  /\ (forall d, d ∈ parents dir -> exists rest, dir = d +:+ String "/" rest)
  /\ (forall p,
        p <> path_join dir (if bool_decide (storage = "hdf5"%string)
                            then "storage.h5" else "storage.npz") ->
        files w' !! p = files w !! p)
  /\ (storage = "ndarray"%string -> cache = false -> dirs w' = dirs w /\ files w' = files w)
  /\ (storage <> "hdf5"%string -> storage <> "ndarray"%string -> w' = w).
Proof.
  cbv zeta.
  assert (Hdirs : dirs (create_genomic_array zero location chroms stranded conditions
                          tc storage res ord datatags cache ow ld la w).1 = dirs w
                  \/ dirs (create_genomic_array zero location chroms stranded conditions
                             tc storage res ord datatags cache ow ld la w).1
                     = {[location (cache_tags stranded datatags)]}
                       ∪ list_to_set (parents (location (cache_tags stranded datatags)))
                       ∪ dirs w).
  { unfold create_genomic_array. repeat case_bool_decide; simplify_eq.
    - by pose proof (HDF5_init_world chroms stranded conditions tc datatags res ord
                       cache ow ld la w) as (? & _).
    - by pose proof (NP_init_world chroms stranded conditions tc datatags res ord cache
                       ow ld la w) as (? & _).
    - by left. }
  split; [|split; [|split; [intros d; apply parents_prefix|]]].
  - intros d Hd. destruct Hdirs as [-> | ->]; [done|].
    rewrite !elem_of_union. by right.
  - intros d. destruct Hdirs as [-> | ->]; [by left|].
    rewrite !elem_of_union, elem_of_singleton, elem_of_list_to_set. tauto.
  - unfold create_genomic_array. repeat case_bool_decide; simplify_eq.
    + pose proof (HDF5_init_world chroms stranded conditions tc datatags res ord cache
                    ow ld la w) as (_ & ? & _). done.
    + pose proof (NP_init_world chroms stranded conditions tc datatags res ord cache ow
                    ld la w) as (_ & ? & ? & _). done.
    + cbn. repeat split; auto.
Qed.
Lemma invoke_loader_inv ld la self0 w w' self' :
  invoke_loader ld la self0 w = (w', Ok self') ->
  loaded ld la self0 self'
  /\ dirs w' = dirs w /\ files w' = files w
  /\ loader_calls w' = (loader_calls w + loader_runs ld)%nat.
Proof.
  unfold invoke_loader, loaded, loader_runs, retM, raiseM. destruct ld as [run|].
  - destruct la as [args|]; [|done]. intros [= <- Hrun]. cbn.
    split; [eauto|]. repeat split; lia.
  - intros [= <- <-]. repeat split; lia.
Qed.

Lemma HDF5_create_loaded self (chroms : gmap string Z) (stranded : bool) (path : string)
    ld la w w' self' :
  HDF5_create zero self chroms stranded path ld la w = (w', Ok self') ->
  exists datasets f' m,
    zero_arrays zero chroms stranded (condition self) = Ok datasets
    /\ loaded ld la
         (set_handle self
            (HFile {| h5_datasets := datasets; h5_conditions := Some (condition self);
                      h5_order := Some (order self);
                      h5_resolution := Some (resolution self) |} Writable)) self'
    /\ handle self' = HFile f' m
    /\ files w' !! path = Some (H5 f')
    /\ loader_calls w' = (loader_calls w + loader_runs ld)%nat.
Proof.
  unfold HDF5_create. intros H.
  apply bindM_inv in H as ([] & w1 & Hw1 & H).
  unfold write_file in Hw1. injection Hw1 as <-.
  apply bindM_inv in H as (datasets & w2 & Hds & H).
  unfold liftM in Hds. injection Hds as <- Hds.
  apply bindM_inv in H as (self1 & w3 & Hld & H).
  apply invoke_loader_inv in Hld as (Hld & _ & _ & Hcalls).
  destruct (handle self1) as [d|f' m] eqn:Hh; [done|].
  apply bindM_inv in H as ([] & w4 & Hw4 & H).
  unfold write_file in Hw4. injection Hw4 as <-.
  unfold retM in H. injection H as <- <-.
  exists datasets, f', m. split; [done|]. split; [done|]. split; [done|].
  split; [apply lookup_insert_eq|done].
Qed.

Lemma zero_arrays_store self (chroms : gmap string Z) (st : bool)
    (datasets : gmap string (ndarray (V:=V))) c o r m :
  stranded self = st ->
  zero_arrays zero chroms st (condition self) = Ok datasets ->
  zeroed_store zero
    (set_handle self (HFile {| h5_datasets := datasets; h5_conditions := c;
                               h5_order := o; h5_resolution := r |} m)) chroms.
Proof.
  intros <- Hds chrom n Hn. cbn.
  destruct (zero_arrays_shape zero _ _ _ _ _ _ Hds Hn) as (a & -> & ? & ?). eauto.
Qed.

Lemma GenomicArray_init_fields (strands : bool) conditions (tc : string) (res ord : Z) self :
  GenomicArray_init strands conditions tc res ord = Ok self ->
  stranded self = strands
  /\ condition self = default ["sample"%string] conditions
  /\ order self = ord /\ resolution self = res /\ typecode self = tc
  /\ 1 <= ord <= 4 /\ 0 < res.
Proof.
  unfold GenomicArray_init.
  destruct (Z.leb_spec ord 0); [done|]. destruct (Z.ltb_spec ord 1); [done|].
  destruct (Z.ltb_spec 4 ord); [done|]. destruct (Z.leb_spec res 0); [done|].
  intros [= <-]. cbn. repeat split; lia.
Qed.

Lemma HDF5_reload_fields self (path : string) w w' arr :
  HDF5_reload self path w = (w', Ok arr) ->
  stranded arr = stranded self /\ typecode arr = typecode self.
Proof.
  unfold HDF5_reload, bindM, read_file, attr, positive, retM, raiseM.
  intros H. repeat (case_match; simplify_eq/=; try done).
Qed.

(** X14.  When the HDF5 constructor builds the file ([overwrite], or no
    file at the cache path) and returns, the loader, if any, ran exactly
    once, on a writable store with the configured metadata and a zero
    array for every chromosome; the file at the cache path is the file
    that the loader left, and the returned store reads it through a
    read-only handle. *)
Theorem HDF5_fresh_build w w' arr (chroms : gmap string Z) (strands : bool) conditions
    (tc : string) datatags (res ord : Z) (cache ow : bool) ld la :
  HDF5GenomicArray_init zero location chroms strands conditions tc datatags
    res ord cache ow ld la w = (w', Ok arr) ->
  ow = true
  \/ exists_in w (path_join (location (cache_tags strands datatags)) "storage.h5")
     = false ->
  exists self0 self' f' m,
    loaded ld la self0 self'
    /\ (stranded self0 = strands
        /\ condition self0 = default ["sample"%string] conditions
        /\ order self0 = ord /\ resolution self0 = res /\ typecode self0 = tc
        /\ writable (handle self0) = true
        /\ zeroed_store zero self0 chroms)
    /\ handle self' = HFile f' m
    /\ files w' !! path_join (location (cache_tags strands datatags)) "storage.h5"
       = Some (H5 f')
    /\ handle arr = HFile f' ReadOnly
    /\ stranded arr = stranded self'
    /\ typecode arr = typecode self'
    /\ loader_calls w' = (loader_calls w + loader_runs ld)%nat.
Proof.
  unfold HDF5GenomicArray_init. intros H Hfresh.
  apply bindM_inv in H as (self & w1 & Hbase & H).
  unfold liftM in Hbase. injection Hbase as <- Hbase.
  apply GenomicArray_init_fields in Hbase as (Hst & Hcond & Hord & Hres & Htc & _).
  apply bindM_inv in H as ([] & w2 & Hcache & H).
  destruct cache; [|done]. injection Hcache as <-.
  apply bindM_inv in H as (de & w3 & Hde & H).
  unfold path_exists in Hde. injection Hde as <- <-.
  apply bindM_inv in H as ([] & w4 & Hmk & H).
  apply bindM_inv in H as (fe & w5 & Hfe & H).
  unfold path_exists in Hfe. injection Hfe as <- <-.
  assert (loader_calls w4 = loader_calls w) as Hcalls4.
  { destruct (exists_in w _) in Hmk; unfold makedirs in Hmk; by injection Hmk as <-. }
  assert (negb (exists_in w4 (path_join (location (cache_tags strands datatags))
                                        "storage.h5")) || ow = true) as Hbranch.
  { destruct Hfresh as [->|Hex]; [apply orb_true_r|].
    destruct (exists_in w _) in Hmk.
    - injection Hmk as <-. by rewrite Hex.
    - unfold makedirs in Hmk. injection Hmk as <-.
      rewrite exists_in_makedirs, Hex; [done|]. by apply path_join_longer. }
  rewrite Hbranch in H.
  apply bindM_inv in H as (self' & w6 & Hcreate & H).
  apply HDF5_create_loaded in Hcreate as (ds & f' & m & Hds & Hld & Hh & Hfile & Hcalls).
  pose proof (HDF5_reload_fields _ _ _ _ _ H) as [? ?].
  apply HDF5_reload_inv in H as [-> (f'' & Hf'' & _ & _ & _ & _ & _ & Harr)].
  rewrite Hfile in Hf''. injection Hf'' as <-.
  eexists _, self', f', m. split; [exact Hld|]. split.
  { cbn. repeat split; try done.
    apply (zero_arrays_store self chroms strands ds _ _ _ _ Hst Hds). }
  repeat split; try done. lia.
Qed.

(** *** The in-memory backend *)

Lemma NP_create_loaded self (chroms : gmap string Z) (stranded : bool) (res ord : Z)
    (cache : bool) (path : string) ld la w w' built :
  NP_create zero self chroms stranded res ord cache path ld la w = (w', Ok built) ->
  exists arrays d locals,
    zero_arrays zero chroms stranded (condition self) = Ok arrays
    /\ loaded ld la (set_handle self (HDict (EArray <$> arrays))) built.1
    /\ d = match handle built.1 with
           | HDict d => d
           | HFile _ _ => EArray <$> arrays
           end
    /\ built.2 = Some locals
    /\ l_names locals = dom d
    /\ (forall chrom, chrom ∉ reserved -> l_data locals !! chrom = d !! chrom)
    /\ l_data locals !! "conditions"%string = Some (EStrings (condition built.1))
    /\ l_data locals !! "order"%string = Some (EInt ord)
    /\ l_data locals !! "resolution"%string = Some (EInt res)
    /\ l_condition locals = condition built.1
    /\ l_order locals = ord /\ l_resolution locals = res
    /\ (cache = true -> files w' !! path = Some (Npz (l_data locals)))
    /\ loader_calls w' = (loader_calls w + loader_runs ld)%nat.
Proof.
  unfold NP_create. intros H.
  apply bindM_inv in H as (arrays & w1 & Harr & H).
  unfold liftM in Harr. injection Harr as <- Harr.
  apply bindM_inv in H as (self1 & w2 & Hld & H).
  apply invoke_loader_inv in Hld as (Hld & _ & _ & Hcalls).
  apply bindM_inv in H as ([] & w3 & Hw3 & H).
  unfold retM in H. injection H as <- <-.
  eexists arrays, _, _. split; [done|]. split; [done|]. split; [reflexivity|].
  split; [reflexivity|]. cbn [fst snd l_names l_data l_condition l_order l_resolution].
  split; [done|]. split.
  { intros chrom Hres. unfold reserved in Hres.
    rewrite !lookup_insert_ne
      by (intros <-; apply Hres; rewrite !elem_of_union, !elem_of_singleton; tauto).
    done. }
  split; [by rewrite 2!lookup_insert_ne, lookup_insert_eq by done|].
  split; [by rewrite lookup_insert_ne, lookup_insert_eq by done|].
  split; [by rewrite lookup_insert_eq|].
  split; [done|]. split; [done|]. split; [done|]. split.
  - intros ->. unfold write_file in Hw3. injection Hw3 as <-. apply lookup_insert_eq.
  - destruct cache; unfold write_file, retM in Hw3; injection Hw3 as <-; cbn; lia.
Qed.

Lemma NP_reload_locals (path : string) w w' (locals : np_locals (V:=V)) :
  NP_reload path w = (w', Ok locals) ->
  w' = w
  /\ files w !! path = Some (Npz (l_data locals))
  /\ l_names locals = dom (l_data locals) ∖ reserved
  /\ l_data locals !! "conditions"%string = Some (EStrings (l_condition locals))
  /\ l_data locals !! "order"%string = Some (EInt (l_order locals))
  /\ l_data locals !! "resolution"%string = Some (EInt (l_resolution locals)).
Proof.
  unfold NP_reload, bindM, read_file, retM, raiseM.
  destruct (files w !! path) as [[f|d]|]; try done.
  destruct (d !! "conditions"%string) as [[?|?|?]|] eqn:E1; try done.
  destruct (d !! "order"%string) as [[?|?|?]|] eqn:E2; try done.
  destruct (d !! "resolution"%string) as [[?|?|?]|] eqn:E3; try done.
  intros [= <- <-]. done.
Qed.

Lemma NP_reload_files (path : string) w1 w2 :
  files w1 !! path = files w2 !! path ->
  (NP_reload (V:=V) path w1).2 = (NP_reload path w2).2.
Proof.
  unfold NP_reload, bindM, read_file, retM, raiseM. intros <-.
  repeat (case_match; simplify_eq/=; try done).
Qed.

(** The last steps of the in-memory constructor. *)
Lemma NP_finish_inv self (locals : np_locals (V:=V)) w w' arr :
  bindM (positive (l_resolution locals))
    (fun resolution =>
       bindM (positive (l_order locals))
         (fun order =>
            retM (set_meta self (l_condition locals) order resolution
                    (HDict (filter (fun kv => kv.1 ∈ l_names locals) (l_data locals))))))
    w = (w', Ok arr) ->
  w' = w
  /\ 0 < l_resolution locals /\ 0 < l_order locals
  /\ arr = set_meta self (l_condition locals) (l_order locals) (l_resolution locals)
             (HDict (filter (fun kv => kv.1 ∈ l_names locals) (l_data locals))).
Proof.
  unfold bindM, positive, retM, raiseM.
  destruct (Z.leb_spec (l_resolution locals) 0); [done|].
  destruct (Z.leb_spec (l_order locals) 0); [done|].
  intros [= <- <-]. done.
Qed.

Lemma filter_names_lookup (names : gset string) (d : gmap string (entry (V:=V)))
    (chrom : string) :
  (chrom ∈ names <-> is_Some (d !! chrom)) ->
  filter (fun kv => kv.1 ∈ names) d !! chrom = d !! chrom.
Proof.
  intros Hiff. destruct (d !! chrom) as [x|] eqn:E.
  - apply map_lookup_filter_Some. split; [done|]. cbn. apply Hiff. eauto.
  - apply map_lookup_filter_None. by left.
Qed.

(** X15.  When the in-memory constructor builds the arrays ([overwrite],
    no caching, or no archive at the cache path) and returns, the loader,
    if any, ran exactly once, on a writable store with the configured
    metadata and a zero array for every chromosome; the returned store
    has, for every name but the three reserved ones, the array of the
    dictionary that the loader left, the conditions that the loader left,
    the [order] and the [resolution] of the arguments, and a writable
    handle. *)
Theorem NP_fresh_build w w' arr (chroms : gmap string Z) (strands : bool) conditions
    (tc : string) datatags (res ord : Z) (cache ow : bool) ld la :
  NPGenomicArray_init zero location chroms strands conditions tc datatags
    res ord cache ow ld la w = (w', Ok arr) ->
  ow = true \/ cache = false
  \/ exists_in w (path_join (location (cache_tags strands datatags)) "storage.npz")
     = false ->
  exists self0 self',
    loaded ld la self0 self'
    /\ (stranded self0 = strands
        /\ condition self0 = default ["sample"%string] conditions
        /\ order self0 = ord /\ resolution self0 = res /\ typecode self0 = tc
        /\ writable (handle self0) = true
        /\ zeroed_store zero self0 chroms)
    /\ (forall d, handle self' = HDict d ->
          forall chrom, chrom ∉ reserved ->
            handle_lookup (handle arr) chrom = handle_lookup (handle self') chrom)
    /\ condition arr = condition self'
    /\ order arr = ord /\ resolution arr = res
    /\ stranded arr = stranded self'
    /\ typecode arr = typecode self'
    /\ writable (handle arr) = true
    /\ loader_calls w' = (loader_calls w + loader_runs ld)%nat.
Proof.
  unfold NPGenomicArray_init. intros H Hfresh.
  apply bindM_inv in H as (self & w1 & Hbase & H).
  unfold liftM in Hbase. injection Hbase as <- Hbase.
  apply GenomicArray_init_fields in Hbase as (Hst & Hcond & Hord & Hres & Htc & _).
  apply bindM_inv in H as (de & w3 & Hde & H).
  unfold path_exists in Hde. injection Hde as <- <-.
  apply bindM_inv in H as ([] & w4 & Hmk & H).
  apply bindM_inv in H as (fe & w5 & Hfe & H).
  unfold path_exists in Hfe. injection Hfe as <- <-.
  assert (loader_calls w4 = loader_calls w) as Hcalls4.
  { destruct (_ && _) in Hmk; unfold makedirs, retM in Hmk; by injection Hmk as <-. }
  assert (cache && negb (exists_in w4 (path_join (location (cache_tags strands datatags))
                                                 "storage.npz")) || ow
          || negb cache = true) as Hbranch.
  { destruct Hfresh as [->|[->|Hex]]; [by rewrite orb_true_r|by rewrite orb_true_r|].
    destruct cache; [|cbn; by rewrite orb_true_r]. cbn [andb] in *.
    destruct (exists_in w _) in Hmk.
    - injection Hmk as <-. by rewrite Hex.
    - unfold makedirs in Hmk. injection Hmk as <-.
      rewrite exists_in_makedirs, Hex; [done|]. by apply path_join_longer. }
  rewrite Hbranch in H.
  apply bindM_inv in H as (built & w6 & Hcreate & H).
  apply NP_create_loaded in Hcreate
    as (arrays & d & locals & Harr & Hld & Hd & Hb & Hnames & Hdata & Hdc & Hdo & Hdr
        & Hlc & Hlo & Hlr & Hfile & Hcalls).
  apply bindM_inv in H as (locals' & w7 & Hlocals & H).
  apply NP_finish_inv in H as (-> & _ & _ & ->).
  assert (w7 = w6 /\ l_condition locals' = condition built.1
          /\ l_order locals' = ord /\ l_resolution locals' = res
          /\ forall chrom, chrom ∉ reserved ->
               filter (fun kv => kv.1 ∈ l_names locals') (l_data locals') !! chrom
               = d !! chrom) as (-> & Hc' & Ho' & Hr' & Hlook).
  { destruct cache.
    - apply NP_reload_locals in Hlocals as (-> & Hf & Hn' & Hdc' & Hdo' & Hdr').
      rewrite (Hfile eq_refl) in Hf. injection Hf as Hf. rewrite <- Hf in *.
      split; [done|]. split; [congruence|]. split; [congruence|]. split; [congruence|].
      intros chrom Hc. rewrite filter_names_lookup; [by apply Hdata|].
      rewrite Hn', elem_of_difference, elem_of_dom. tauto.
    - rewrite Hb in Hlocals. unfold retM in Hlocals. injection Hlocals as <- <-.
      split; [done|]. split; [done|]. split; [done|]. split; [done|].
      intros chrom Hc. rewrite filter_names_lookup; [by apply Hdata|].
      rewrite Hnames, elem_of_dom, (Hdata _ Hc). done. }
  eexists _, built.1. split; [exact Hld|]. split.
  { cbn. repeat split; try done. intros chrom n Hn. cbn.
    rewrite <- Hst in Harr.
    destruct (zero_arrays_shape zero _ _ _ _ _ _ Harr Hn) as (a & Ha & ? & ?).
    rewrite lookup_fmap, Ha. cbn. eauto. }
  split.
  { intros d' Hd' chrom Hc. rewrite Hd' in Hd. subst d'. cbn [handle set_meta handle_lookup].
    rewrite Hd'. cbn [handle_lookup]. by rewrite Hlook. }
  cbn. repeat split; try done. lia.
Qed.

Lemma NP_init_cached_inv w w' arr (chroms : gmap string Z) (stranded : bool) conditions
    (tc : string) datatags (res ord : Z) (ow : bool) ld la :
  NPGenomicArray_init zero location chroms stranded conditions tc datatags
    res ord true ow ld la w = (w', Ok arr) ->
  exists locals,
    NP_reload (path_join (location (cache_tags stranded datatags)) "storage.npz") w'
    = (w', Ok locals)
    /\ 0 < l_resolution locals /\ 0 < l_order locals
    /\ condition arr = l_condition locals /\ order arr = l_order locals
    /\ resolution arr = l_resolution locals
    /\ handle arr = HDict (filter (fun kv => kv.1 ∈ l_names locals) (l_data locals)).
Proof.
  unfold NPGenomicArray_init. intros H.
  do 5 (apply bindM_inv in H as (? & ? & _ & H)).
  apply bindM_inv in H as (locals & w7 & Hlocals & H).
  apply NP_finish_inv in H as (-> & ? & ? & ->).
  pose proof (NP_reload_locals _ _ _ _ Hlocals) as (-> & _).
  exists locals. done.
Qed.

(** X16.  After a first in-memory construction with caching has returned,
    a second one with caching and without [overwrite] whose tags lead to
    the same location invokes no loader and changes no file; the store it
    returns has the conditions, order, resolution and arrays of the first
    store, not those of its own arguments; and it does return a store
    when its [order] and [resolution] arguments are valid. *)
Theorem NP_cache_reuse w0 w1 arr1 (chroms1 : gmap string Z) (stranded1 : bool)
    conditions1 (tc1 : string) datatags1 (res1 ord1 : Z) (ow1 : bool) ld1 la1
    (chroms2 : gmap string Z) (stranded2 : bool) conditions2 (tc2 : string) datatags2
    (res2 ord2 : Z) ld2 la2 :
  NPGenomicArray_init zero location chroms1 stranded1 conditions1 tc1 datatags1
    res1 ord1 true ow1 ld1 la1 w0 = (w1, Ok arr1) ->
  location (cache_tags stranded2 datatags2) = location (cache_tags stranded1 datatags1) ->
  let r := NPGenomicArray_init zero location chroms2 stranded2 conditions2 tc2
             datatags2 res2 ord2 true false ld2 la2 w1 in
  loader_calls r.1 = loader_calls w1
  /\ files r.1 = files w1
  /\ (forall arr2, r.2 = Ok arr2 ->
        condition arr2 = condition arr1 /\ order arr2 = order arr1
        /\ resolution arr2 = resolution arr1 /\ handle arr2 = handle arr1)
  /\ (1 <= ord2 <= 4 -> 0 < res2 -> exists arr2, r.2 = Ok arr2).
Proof.
  intros H1 Hloc r. subst r.
  apply NP_init_cached_inv in H1 as (locals & Hreload & Hrpos & Hopos & Hc & Ho & Hr & Hh).
  pose proof (NP_reload_locals _ _ _ _ Hreload) as (_ & Hfile & _).
  rewrite <- Hloc in Hreload, Hfile.
  set (path := path_join (location (cache_tags stranded2 datatags2)) "storage.npz") in *.
  unfold NPGenomicArray_init, bindM, liftM.
  destruct (GenomicArray_init stranded2 conditions2 tc2 res2 ord2) as [self|e] eqn:Hbase.
  2: { cbn. split; [done|]. split; [done|]. split; [done|]. intros Hord Hres.
       destruct (GenomicArray_init_ok (V:=V) stranded2 conditions2 tc2 res2 ord2 Hord Hres)
         as [self Hself]. congruence. }
  unfold path_exists. cbn [andb].
  assert (forall w2, files w2 = files w1 -> loader_calls w2 = loader_calls w1 ->
            let r := (let (w', r) :=
                        (if true && negb (exists_in w2 path) || false || negb true
                         then NP_create zero self chroms2 stranded2 res2 ord2 true path
                                ld2 la2
                         else retM (self, None)) w2 in
                      match r with
                      | Ok a =>
                          let (w'0, r0) := NP_reload path w' in
                          match r0 with
                          | Ok a0 =>
                              let (w'1, r1) := positive (l_resolution a0) w'0 in
                              match r1 with
                              | Ok a1 =>
                                  let (w'2, r2) := positive (l_order a0) w'1 in
                                  match r2 with
                                  | Ok a2 =>
                                      retM (set_meta a.1 (l_condition a0) a2 a1
                                              (HDict (filter (fun kv => kv.1 ∈ l_names a0)
                                                             (l_data a0)))) w'2
                                  | Raise e => (w'2, Raise e)
                                  end
                              | Raise e => (w'1, Raise e)
                              end
                          | Raise e => (w'0, Raise e)
                          end
                      | Raise e => (w', Raise e)
                      end) in
            loader_calls r.1 = loader_calls w1 /\ files r.1 = files w1
            /\ (forall arr2, r.2 = Ok arr2 ->
                  condition arr2 = condition arr1 /\ order arr2 = order arr1
                  /\ resolution arr2 = resolution arr1 /\ handle arr2 = handle arr1)
            /\ (1 <= ord2 <= 4 -> 0 < res2 -> exists arr2, r.2 = Ok arr2)) as Hrest.
  { intros w2 Hf Hcalls. cbv zeta.
    rewrite (exists_in_file w2 path (Npz (l_data locals))) by (by rewrite Hf).
    cbn [negb andb orb]. unfold retM. lazy beta iota zeta.
    pose proof (NP_reload_files path w2 w1) as Hsame. rewrite Hf in Hsame.
    specialize (Hsame eq_refl). rewrite Hreload in Hsame. cbn [snd] in Hsame.
    pose proof (NP_reload_locals path w2) as Hw.
    destruct (NP_reload path w2) as [w3 [locals'|e]]; cbn [snd] in Hsame; [|done].
    injection Hsame as ->. destruct (Hw _ _ eq_refl) as (-> & _).
    unfold positive, retM, raiseM.
    destruct (Z.leb_spec (l_resolution locals) 0); [lia|].
    destruct (Z.leb_spec (l_order locals) 0); [lia|]. cbn.
    split; [done|]. split; [done|]. split; [|eauto].
    intros arr2 [= <-]. cbn. by rewrite Hc, Ho, Hr, Hh. }
  destruct (negb (exists_in w1 (location (cache_tags stranded2 datatags2)))); cbn [andb].
  - unfold makedirs. apply Hrest; done.
  - unfold retM at 1. apply Hrest; done.
Qed.

Lemma NP_init_inv_positive w w' arr (chroms : gmap string Z) (stranded : bool) conditions
    (tc : string) datatags (res ord : Z) (cache ow : bool) ld la :
  NPGenomicArray_init zero location chroms stranded conditions tc datatags
    res ord cache ow ld la w = (w', Ok arr) ->
  0 < order arr /\ 0 < resolution arr /\ exists d, handle arr = HDict d.
Proof.
  unfold NPGenomicArray_init. intros H.
  do 6 (apply bindM_inv in H as (? & ? & _ & H)).
  apply NP_finish_inv in H as (-> & ? & ? & ->). cbn. eauto.
Qed.

(** X17.  A store that [create_genomic_array] returns has a positive
    order and a positive resolution; its storage is one of the two known
    names, its handle is writable exactly for the in-memory backend, and
    an HDF5 store was built with caching enabled. *)
Theorem constructed_store_invariants (storage : string) w w' arr (chroms : gmap string Z)
    (stranded : bool) conditions (tc : string) datatags (res ord : Z)
    (cache ow : bool) ld la :
  create_genomic_array zero location chroms stranded conditions tc storage res ord
    datatags cache ow ld la w = (w', Ok arr) ->
  0 < order arr /\ 0 < resolution arr
  /\ (storage = "hdf5"%string \/ storage = "ndarray"%string)
  /\ writable (handle arr) = bool_decide (storage = "ndarray"%string)
  /\ (storage = "hdf5"%string -> cache = true).
Proof.
  unfold create_genomic_array. repeat case_bool_decide; simplify_eq; [| |done].
  - intros Hinit.
    pose proof (HDF5_init_inv zero location _ _ _ _ _ _ _ _ _ _ _ _ _ _ Hinit)
      as (f & _ & _ & _ & _ & ? & ? & Hh).
    rewrite Hh. split; [done|]. split; [done|]. split; [by left|]. split; [done|].
    intros _. unfold HDF5GenomicArray_init in Hinit.
    apply bindM_inv in Hinit as (? & ? & _ & Hinit).
    apply bindM_inv in Hinit as (? & ? & Hc & _). by destruct cache.
  - intros Hinit. apply NP_init_inv_positive in Hinit as (? & ? & d & ->).
    split; [done|]. split; [done|]. split; [by right|]. split; [done|]. done.
Qed.
End MoreConstructorFacts.

(** ** Iteration over the indexer *)

Lemma getitem_nat g (i : nat) :
  ((i < shortest_column g)%nat ->
     exists iv, GenomicIndexer_getitem g (PyInt (Z.of_nat i)) = Ok iv)
  /\ ((shortest_column g <= i)%nat ->
        GenomicIndexer_getitem g (PyInt (Z.of_nat i)) = Raise IndexError).
Proof.
  unfold shortest_column.
  pose proof (py_index_ok (offsets g) (Z.of_nat i)) as Ho.
  pose proof (py_index_ok (inregionidx g) (Z.of_nat i)) as Hk.
  pose proof (py_index_ok (rel_end g) (Z.of_nat i)) as Hr.
  pose proof (py_index_ok (chrs g) (Z.of_nat i)) as Hc.
  pose proof (py_index_ok (strand g) (Z.of_nat i)) as Hs.
  split.
  - intros Hi. cbn [GenomicIndexer_getitem].
    destruct (py_index (offsets g) _); cbn [is_ok bind] in *;
      [|destruct Ho as [_ Ho]; discriminate Ho; lia].
    destruct (py_index (inregionidx g) _); cbn [is_ok bind] in *;
      [|destruct Hk as [_ Hk]; discriminate Hk; lia].
    destruct (py_index (rel_end g) _); cbn [is_ok bind] in *;
      [|destruct Hr as [_ Hr]; discriminate Hr; lia].
    destruct (py_index (chrs g) _); cbn [is_ok bind] in *;
      [|destruct Hc as [_ Hc]; discriminate Hc; lia].
    destruct (py_index (strand g) _); cbn [is_ok bind] in *;
      [|destruct Hs as [_ Hs]; discriminate Hs; lia].
    eauto.
  - intros Hi. apply getitem_error. cbn [GenomicIndexer_getitem].
    destruct (py_index (offsets g) _); cbn [is_ok bind] in *; [|done].
    destruct (py_index (inregionidx g) _); cbn [is_ok bind] in *; [|done].
    destruct (py_index (rel_end g) _); cbn [is_ok bind] in *; [|done].
    destruct (py_index (chrs g) _); cbn [is_ok bind] in *; [|done].
    destruct (py_index (strand g) _); cbn [is_ok bind] in *; [|done].
    destruct Ho as [Ho _], Hk as [Hk _], Hr as [Hr _], Hc as [Hc _], Hs as [Hs _].
    specialize (Ho eq_refl). specialize (Hk eq_refl). specialize (Hr eq_refl).
    specialize (Hc eq_refl). specialize (Hs eq_refl). lia.
Qed.

Lemma iter_items_spec g : forall (d fuel i : nat),
  (i + d = shortest_column g)%nat -> (d < fuel)%nat ->
  exists ivs,
    iter_items g fuel (Z.of_nat i) = Ok ivs
    /\ length ivs = d
    /\ forall k : nat, (k < d)%nat ->
         exists iv, GenomicIndexer_getitem g (PyInt (Z.of_nat (i + k))) = Ok iv
                    /\ ivs !! k = Some iv.
Proof.
  induction d as [|d IH]; intros fuel i Hd Hfuel.
  - destruct fuel as [|fuel]; [lia|]. cbn [iter_items].
    destruct (getitem_nat g i) as [_ Hi]. rewrite Hi by lia.
    exists []. split; [done|]. split; [done|]. intros k Hk. lia.
  - destruct fuel as [|fuel]; [lia|]. cbn [iter_items].
    destruct (getitem_nat g i) as [Hi _].
    destruct Hi as [iv Hiv]; [lia|]. rewrite Hiv.
    destruct (IH fuel (S i)) as (ivs & Hivs & Hlen & Hk); [lia|lia|].
    replace (Z.of_nat i + 1) with (Z.of_nat (S i)) by lia. rewrite Hivs. cbn [bind].
    exists (iv :: ivs). split; [done|]. split; [cbn; lia|].
    intros [|k] Hlt.
    + rewrite Nat.add_0_r. eauto.
    + destruct (Hk k) as (iv' & Hiv' & Hl); [lia|].
      replace (i + S k)%nat with (S i + k)%nat by lia. eauto.
Qed.

(** X6.  [tostr] never raises: the iteration over the indexer ends at the
    first index that one of the columns does not have, and the result has
    one string [chrom:start-end] per bin before it, in the order of the
    bins; for columns of one common length that is every bin.  The
    iteration has ended by item [len(offsets)]: asking for more items
    changes nothing. *)
Theorem tostr_lists_every_bin g :
  exists names,
    tostr g = Ok names
    /\ length names = shortest_column g
    /\ (forall k : nat, (k < shortest_column g)%nat ->
          exists iv, GenomicIndexer_getitem g (PyInt (Z.of_nat k)) = Ok iv
                     /\ names !! k = Some (format_interval iv))
    /\ (indexer_aligned g -> Z.of_nat (length names) = GenomicIndexer_len g)
    /\ (forall fuel, (length (offsets g) < fuel)%nat ->
          iter_items g fuel 0 = iter_items g (S (length (offsets g))) 0).
Proof.
  assert (Hle : (shortest_column g <= length (offsets g))%nat)
    by (unfold shortest_column; lia).
  destruct (iter_items_spec g (shortest_column g) (S (length (offsets g))) 0)
    as (ivs & Hivs & Hlen & Hk); [lia|lia|].
  exists (format_interval <$> ivs). unfold tostr.
  change (Z.of_nat 0) with 0 in Hivs. rewrite Hivs. cbn [bind].
  split; [done|]. split; [by rewrite length_fmap|]. split; [|split].
  - intros k Hlt. destruct (Hk k Hlt) as (iv & Hiv & Hl). exists iv.
    split; [done|]. by rewrite list_lookup_fmap, Hl.
  - intros [H1 H2 H3 H4]. rewrite length_fmap, Hlen. unfold GenomicIndexer_len.
    unfold shortest_column. lia.
  - intros fuel Hfuel.
    destruct (iter_items_spec g (shortest_column g) fuel 0)
      as (ivs' & Hivs' & Hlen' & Hk'); [lia|lia|].
    change (Z.of_nat 0) with 0 in Hivs'. rewrite Hivs'. f_equal.
    apply list_eq. intros k. destruct (decide (k < shortest_column g)%nat) as [Hlt|Hge].
    + destruct (Hk k Hlt) as (iv & Hiv & ->).
      destruct (Hk' k Hlt) as (iv' & Hiv' & ->). congruence.
    + rewrite !lookup_ge_None_2 by lia. done.
Qed.

(** ** The outcome of a write *)

Section SetitemOutcomes.
Context {V : Type}.
Implicit Types (a : ndarray (V:=V)) (self : GenomicArray (V:=V)).
Implicit Types (val : value (V:=V)) (h : handle_t (V:=V)).

Lemma norm_index_in_axis (i : Z) (n : nat) :
  (in_axis i n -> exists j, norm_index i n = Ok j)
  /\ (~ in_axis i n -> norm_index i n = Raise IndexError).
Proof.
  unfold in_axis, norm_index.
  destruct (Z.ltb_spec i 0).
  - destruct (Z.leb_spec 0 (i + Z.of_nat n)), (Z.ltb_spec (i + Z.of_nat n) (Z.of_nat n));
      cbn [andb]; split; intros; eauto; lia.
  - destruct (Z.leb_spec 0 i), (Z.ltb_spec i (Z.of_nat n));
      cbn [andb]; split; intros; eauto; lia.
Qed.

Lemma broadcast_fits val (k : nat) :
  (fits val k -> exists vs, broadcast val k = Ok vs)
  /\ (~ fits val k -> broadcast val k = Raise ValueError).
Proof.
  destruct val as [v|vs]; cbn [fits broadcast].
  - split; [eauto|tauto].
  - case_bool_decide as Hk.
    + split; [eauto|tauto].
    + destruct vs as [|v [|v' vs]]; cbn [length] in *.
      * split; [intros [?|?]; [done|lia]|done].
      * split; [eauto|]. intros Hn. destruct Hn. by right.
      * split; [intros [?|?]; [done|lia]|done].
Qed.

Lemma nd_setitem_outcome a (start stop s c : Z) val :
  let k := (slice_range start stop (shape a).1.1).2 in
  (~ (in_axis s (shape a).1.2 /\ in_axis c (shape a).2) ->
     nd_setitem a start stop s c val = Raise IndexError)
  /\ (in_axis s (shape a).1.2 -> in_axis c (shape a).2 -> ~ fits val k ->
        nd_setitem a start stop s c val = Raise ValueError)
  /\ (in_axis s (shape a).1.2 -> in_axis c (shape a).2 -> fits val k ->
        exists a', nd_setitem a start stop s c val = Ok a').
Proof.
  unfold nd_setitem. destruct (shape a) as [[n0 n1] n2]. cbn [fst snd].
  destruct (slice_range start stop n0) as [lo k] eqn:Hsr. cbn [snd].
  destruct (norm_index_in_axis s n1) as [Hs1 Hs2].
  destruct (norm_index_in_axis c n2) as [Hc1 Hc2].
  destruct (broadcast_fits val k) as [Hv1 Hv2].
  split; [|split].
  - intros Hn. destruct (decide (in_axis s n1)) as [Hs|Hs].
    + destruct (Hs1 Hs) as [si ->]. cbn [bind]. rewrite Hc2; [done|]. tauto.
    + by rewrite Hs2.
  - intros Hs Hc Hv. destruct (Hs1 Hs) as [si ->]. destruct (Hc1 Hc) as [ci ->].
    cbn [bind]. by rewrite Hv2.
  - intros Hs Hc Hv. destruct (Hs1 Hs) as [si ->]. destruct (Hc1 Hc) as [ci ->].
    destruct (Hv1 Hv) as [vs ->]. cbn [bind]. eauto.
Qed.

Lemma handle_store_writable h (chrom : string) a :
  writable h = true ->
  exists h', handle_store h chrom a = Ok h' /\ writable h' = true.
Proof. destruct h as [d|f [|]]; cbn; intros; try done; eauto. Qed.

Lemma h5_setitem_outcome (m : file_mode) a (start stop s c : Z) val :
  let k := (slice_range start stop (shape a).1.1).2 in
  (~ (in_axis s (shape a).1.2 /\ in_axis c (shape a).2) ->
     h5_setitem m a start stop s c val = Raise IndexError)
  /\ (in_axis s (shape a).1.2 -> in_axis c (shape a).2 -> k = 0%nat ->
        h5_setitem m a start stop s c val = Ok None)
  /\ (in_axis s (shape a).1.2 -> in_axis c (shape a).2 -> k <> 0%nat ->
        ~ fits val k ->
        h5_setitem m a start stop s c val = Raise TypeError)
  /\ (in_axis s (shape a).1.2 -> in_axis c (shape a).2 -> k <> 0%nat ->
        fits val k -> m = ReadOnly ->
        h5_setitem m a start stop s c val = Raise OSError)
  /\ (in_axis s (shape a).1.2 -> in_axis c (shape a).2 -> k <> 0%nat ->
        fits val k -> m = Writable ->
        exists a', h5_setitem m a start stop s c val = Ok (Some a')
                   /\ nd_setitem a start stop s c val = Ok a').
Proof.
  unfold h5_setitem, nd_setitem, h5_broadcast.
  destruct (shape a) as [[n0 n1] n2]. cbn [fst snd].
  destruct (slice_range start stop n0) as [lo k] eqn:Hsr. cbn [snd].
  destruct (norm_index_in_axis s n1) as [Hs1 Hs2].
  destruct (norm_index_in_axis c n2) as [Hc1 Hc2].
  destruct (broadcast_fits val k) as [Hv1 Hv2].
  split; [|split; [|split; [|split]]].
  - intros Hn. destruct (decide (in_axis s n1)) as [Hs|Hs].
    + destruct (Hs1 Hs) as [si ->]. cbn [bind]. rewrite Hc2; [done|]. tauto.
    + by rewrite Hs2.
  - intros Hs Hc ->. destruct (Hs1 Hs) as [si ->]. destruct (Hc1 Hc) as [ci ->]. done.
  - intros Hs Hc Hk Hv. destruct (Hs1 Hs) as [si ->]. destruct (Hc1 Hc) as [ci ->].
    cbn [bind]. rewrite bool_decide_eq_false_2 by done. by rewrite Hv2.
  - intros Hs Hc Hk Hv ->. destruct (Hs1 Hs) as [si ->]. destruct (Hc1 Hc) as [ci ->].
    cbn [bind]. rewrite bool_decide_eq_false_2 by done.
    destruct (Hv1 Hv) as [vs ->]. done.
  - intros Hs Hc Hk Hv ->. destruct (Hs1 Hs) as [si ->]. destruct (Hc1 Hc) as [ci ->].
    cbn [bind]. rewrite bool_decide_eq_false_2 by done.
    destruct (Hv1 Hv) as [vs ->]. cbn [bind]. eauto.
Qed.

(** A write that returns on a store that does not accept writes has
    written nothing. *)
Lemma setitem_not_writable self (index : pyobj) val self' :
  writable (handle self) = false ->
  GenomicArray_setitem self index val = Ok self' ->
  self' = self.
Proof.
  intros Hw H.
  destruct (setitem_accepts _ _ _ _ H) as (iv & c & rest & ->).
  rewrite setitem_tuple_rest in H.
  apply setitem_inv in H
    as (a & si & ci & _ & _ & _ & _ & [[-> _]|(a' & h' & Hw' & _)]); [done|].
  congruence.
Qed.

Lemma setitem_read_only self (iv : GenomicInterval) (c : Z) val a (f : h5file (V:=V)) :
  resolution self <> 0 ->
  handle self = HFile f ReadOnly ->
  handle_lookup (handle self) (iv_chrom iv) = Ok a ->
  in_axis (strand_axis (stranded self) (iv_strand iv)) (shape a).1.2 ->
  in_axis c (shape a).2 ->
  (slice_range (iv_start iv / resolution self)
     (iv_end iv / resolution self) (shape a).1.1).2 <> 0%nat ->
  fits val (slice_range (iv_start iv / resolution self)
              (iv_end iv / resolution self) (shape a).1.1).2 ->
  GenomicArray_setitem self (PyTuple [PyInterval iv; PyInt c]) val = Raise OSError.
Proof.
  intros Hres Hh Ha Hs Hc Hk Hv. rewrite setitem_unfold, !floordiv_ok by done.
  cbn [bind]. rewrite Ha. cbn [bind]. rewrite Hh.
  destruct (h5_setitem_outcome ReadOnly a (iv_start iv / resolution self)
              (iv_end iv / resolution self)
              (strand_axis (stranded self) (iv_strand iv)) c val)
    as (_ & _ & _ & Hro & _).
  by rewrite (Hro Hs Hc Hk Hv eq_refl).
Qed.

Lemma setitem_empty_selection self (iv : GenomicInterval) (c : Z) val a
    (f : h5file (V:=V)) (m : file_mode) :
  resolution self <> 0 ->
  handle self = HFile f m ->
  handle_lookup (handle self) (iv_chrom iv) = Ok a ->
  in_axis (strand_axis (stranded self) (iv_strand iv)) (shape a).1.2 ->
  in_axis c (shape a).2 ->
  (slice_range (iv_start iv / resolution self)
     (iv_end iv / resolution self) (shape a).1.1).2 = 0%nat ->
  GenomicArray_setitem self (PyTuple [PyInterval iv; PyInt c]) val = Ok self.
Proof.
  intros Hres Hh Ha Hs Hc Hk. rewrite setitem_unfold, !floordiv_ok by done.
  cbn [bind]. rewrite Ha. cbn [bind]. rewrite Hh.
  destruct (h5_setitem_outcome m a (iv_start iv / resolution self)
              (iv_end iv / resolution self)
              (strand_axis (stranded self) (iv_strand iv)) c val)
    as (_ & Hempty & _).
  by rewrite (Hempty Hs Hc Hk).
Qed.

Lemma setitem_fits self (iv : GenomicInterval) (c : Z) val a :
  resolution self <> 0 ->
  handle_lookup (handle self) (iv_chrom iv) = Ok a ->
  writable (handle self) = true ->
  in_axis (strand_axis (stranded self) (iv_strand iv)) (shape a).1.2 ->
  in_axis c (shape a).2 ->
  fits val (slice_range (iv_start iv / resolution self)
              (iv_end iv / resolution self) (shape a).1.1).2 ->
  exists self',
    GenomicArray_setitem self (PyTuple [PyInterval iv; PyInt c]) val = Ok self'
    /\ writable (handle self') = true.
Proof.
  intros Hres Ha Hw Hs Hc Hv.
  destruct (nd_setitem_outcome a (iv_start iv / resolution self)
              (iv_end iv / resolution self)
              (strand_axis (stranded self) (iv_strand iv)) c val) as (_ & _ & Hok).
  destruct (Hok Hs Hc Hv) as [a' Ha'].
  destruct (handle_store_writable (handle self) (iv_chrom iv) a' Hw) as (h' & Hh' & Hw').
  destruct (decide ((slice_range (iv_start iv / resolution self)
                       (iv_end iv / resolution self) (shape a).1.1).2 = 0%nat))
    as [Hk|Hk].
  - destruct (handle self) as [d|f m] eqn:Hh.
    + rewrite setitem_unfold, !floordiv_ok by done. cbn [bind]. rewrite Hh, Ha.
      cbn [bind]. rewrite Ha'. cbn [bind]. rewrite Hh'. cbn [bind]. eauto.
    + exists self. split; [|by rewrite Hh].
      apply (setitem_empty_selection self iv c val a f m); try done.
      by rewrite Hh.
  - rewrite setitem_unfold, !floordiv_ok by done. cbn [bind].
    destruct (handle self) as [d|f m] eqn:Hh.
    + rewrite Ha. cbn [bind]. rewrite Ha'. cbn [bind]. rewrite Hh'. cbn [bind]. eauto.
    + destruct m; [done|]. rewrite Ha. cbn [bind].
      rewrite (h5_setitem_nd _ _ _ _ _ _ _ Hk Ha'). cbn [bind]. rewrite Hh'.
      cbn [bind]. eauto.
Qed.

Lemma getitem_stored self (iv : GenomicInterval) a :
  resolution self <> 0 ->
  handle_lookup (handle self) (iv_chrom iv) = Ok a ->
  exists sub, GenomicArray_getitem self (PyInterval iv) = Ok sub.
Proof.
  intros Hres Ha. cbn [GenomicArray_getitem]. rewrite !floordiv_ok by done.
  cbn [bind]. rewrite Ha. cbn [bind]. eauto.
Qed.

(** X8.  What a write [self[interval, condition] = value] does, in the
    order of the checks.  At resolution 0 it raises
    [ZeroDivisionError]; for a chromosome that is not stored it raises
    the error of the lookup; when the strand or the condition is outside
    its axis it raises [IndexError], on both kinds of handle.  Then the
    two differ.  On the dictionary of arrays in memory, a value that is
    neither a scalar nor a sequence of one element or of as many
    elements as the slice has cells raises [ValueError], also when the
    slice is empty; otherwise the write succeeds.  On an HDF5 file, a
    write to an empty slice returns with the store as it was, whatever
    the value and also when the file is read-only; on a slice with cells
    a value that does not fit raises [TypeError], a value that fits
    raises [OSError] when the file is read-only and is written
    otherwise.  After a write that succeeds the handle is writable as
    before. *)
Theorem setitem_outcomes self (iv : GenomicInterval) (c : Z) val :
  let r := GenomicArray_setitem self (PyTuple [PyInterval iv; PyInt c]) val in
  (resolution self = 0 -> r = Raise ZeroDivisionError)
  /\ (resolution self <> 0 ->
      forall e, handle_lookup (handle self) (iv_chrom iv) = Raise e -> r = Raise e)
  /\ (resolution self <> 0 ->
      forall a, handle_lookup (handle self) (iv_chrom iv) = Ok a ->
        let s := strand_axis (stranded self) (iv_strand iv) in
        let k := (slice_range (iv_start iv / resolution self)
                    (iv_end iv / resolution self) (shape a).1.1).2 in
        (~ (in_axis s (shape a).1.2 /\ in_axis c (shape a).2) ->
           r = Raise IndexError)
        /\ (in_axis s (shape a).1.2 -> in_axis c (shape a).2 ->
            (forall d, handle self = HDict d ->
               (~ fits val k -> r = Raise ValueError)
               /\ (fits val k ->
                   exists self', r = Ok self' /\ writable (handle self') = true))
            /\ (forall f m, handle self = HFile f m ->
                  (k = 0%nat -> r = Ok self)
                  /\ (k <> 0%nat -> ~ fits val k -> r = Raise TypeError)
                  /\ (k <> 0%nat -> fits val k -> m = ReadOnly -> r = Raise OSError)
                  /\ (k <> 0%nat -> fits val k -> m = Writable ->
                      exists self', r = Ok self'
                        /\ writable (handle self') = true)))).
Proof.
  intros r. subst r. split; [|split].
  - intros Hres. rewrite setitem_unfold. unfold floordiv. rewrite Hres. done.
  - intros Hres e He. rewrite setitem_unfold, !floordiv_ok by done. cbn [bind].
    by rewrite He.
  - intros Hres a Ha s k.
    destruct (nd_setitem_outcome a (iv_start iv / resolution self)
                (iv_end iv / resolution self) s c val) as (Hidx & Hval & Hok).
    fold k in Hval, Hok.
    split.
    + intros Hn. rewrite setitem_unfold, !floordiv_ok by done. cbn [bind].
      rewrite Ha. cbn [bind]. fold s.
      destruct (handle self) as [d|f m].
      * by rewrite Hidx.
      * destruct (h5_setitem_outcome m a (iv_start iv / resolution self)
                    (iv_end iv / resolution self) s c val) as (Hidx' & _).
        by rewrite Hidx'.
    + intros Hs Hc. split.
      * intros d Hh. split.
        -- intros Hv. rewrite setitem_unfold, !floordiv_ok by done. cbn [bind].
           rewrite Ha. cbn [bind]. fold s. rewrite Hh. by rewrite Hval.
        -- intros Hv. apply (setitem_fits self iv c val a); try done.
           by rewrite Hh.
      * intros f m Hh.
        destruct (h5_setitem_outcome m a (iv_start iv / resolution self)
                    (iv_end iv / resolution self) s c val)
          as (_ & _ & Htype & _).
        fold k in Htype.
        split; [|split; [|split]].
        -- intros Hk. by apply (setitem_empty_selection self iv c val a f m).
        -- intros Hk Hv. rewrite setitem_unfold, !floordiv_ok by done. cbn [bind].
           rewrite Ha. cbn [bind]. fold s. rewrite Hh. by rewrite Htype.
        -- intros Hk Hv ->. by apply (setitem_read_only self iv c val a f).
        -- intros Hk Hv ->. apply (setitem_fits self iv c val a); try done.
           by rewrite Hh.
Qed.

End SetitemOutcomes.

(** ** Configuration errors, fresh builds and what a built store accepts *)

Section FreshBuild.
Context {V : Type} (zero : V) {LoaderArgs : Type}.
Variable location : option (list string) -> string.
Implicit Types (w : world (V:=V)) (self arr : GenomicArray (V:=V)).
Implicit Types (f : h5file (V:=V)) (la : option LoaderArgs).
Implicit Types (ld : option (loader_t (V:=V) (LoaderArgs:=LoaderArgs))).

Lemma GenomicArray_init_errors (stranded : bool) conditions (tc : string) (res ord : Z) :
  (ord <= 0 ->
     GenomicArray_init (V:=V) stranded conditions tc res ord = Raise ValueError)
  /\ (4 < ord ->
        GenomicArray_init (V:=V) stranded conditions tc res ord = Raise Exception)
  /\ (0 < ord <= 4 -> res <= 0 ->
        GenomicArray_init (V:=V) stranded conditions tc res ord = Raise ValueError).
Proof.
  unfold GenomicArray_init.
  destruct (Z.leb_spec ord 0), (Z.ltb_spec ord 1), (Z.ltb_spec 4 ord),
    (Z.leb_spec res 0); repeat split; intros; try done; lia.
Qed.

(** X18.  For both backends the checks of the base constructor come
    first and leave the cache as it was: an [order] that is not positive
    raises [ValueError], an [order] above 4 raises [Exception], a
    [resolution] that is not positive raises [ValueError]; the HDF5
    backend then raises [ValueError] without caching. *)
Theorem invalid_configuration (storage : string) (chroms : gmap string Z)
    (stranded : bool) conditions (tc : string) (res ord : Z) datatags
    (cache ow : bool) ld la w :
  storage = "hdf5"%string \/ storage = "ndarray"%string ->
  let r := create_genomic_array zero location chroms stranded conditions tc storage
             res ord datatags cache ow ld la w in
  (ord <= 0 -> r = (w, Raise ValueError))
  /\ (4 < ord -> r = (w, Raise Exception))
  /\ (0 < ord <= 4 -> res <= 0 -> r = (w, Raise ValueError))
  /\ (storage = "hdf5"%string -> 0 < ord <= 4 -> 0 < res -> cache = false ->
      r = (w, Raise ValueError)).
Proof.
  intros Hst r. subst r.
  destruct (GenomicArray_init_errors stranded conditions tc res ord) as (H1 & H2 & H3).
  unfold create_genomic_array, HDF5GenomicArray_init, NPGenomicArray_init.
  unfold bindM at 1 3. unfold liftM.
  split; [|split; [|split]].
  - intros H. rewrite (H1 H). destruct Hst as [-> | ->]; done.
  - intros H. rewrite (H2 H). destruct Hst as [-> | ->]; done.
  - intros H H'. rewrite (H3 H H'). destruct Hst as [-> | ->]; done.
  - intros -> Hord Hres ->.
    destruct (GenomicArray_init_ok (V:=V) stranded conditions tc res ord)
      as [self ->]; [lia|done|]. done.
Qed.

(** X20.  What a store accepts after construction.  A store of the HDF5
    backend is sealed: a write that returns has left the store as it
    was.  On a stored chromosome, with the strand and the condition
    within their axes, a write to an empty cell range returns, and a
    write of a value that fits a range with cells raises [OSError]; an
    interval on a stored chromosome can be read.  A store of the
    in-memory backend accepts the write of a scalar to any stored
    chromosome for a strand and a condition within their axes, and stays
    writable. *)
Theorem store_mutability (storage : string) w w' arr (chroms : gmap string Z)
    (strands : bool) conditions (tc : string) datatags (res ord : Z)
    (cache ow : bool) ld la :
  create_genomic_array zero location chroms strands conditions tc storage res ord
    datatags cache ow ld la w = (w', Ok arr) ->
  (storage = "hdf5"%string ->
     (forall index val arr',
         GenomicArray_setitem arr index val = Ok arr' -> arr' = arr)
     /\ (forall (iv : GenomicInterval) (c : Z) val a,
           handle_lookup (handle arr) (iv_chrom iv) = Ok a ->
           in_axis (strand_axis (stranded arr) (iv_strand iv)) (shape a).1.2 ->
           in_axis c (shape a).2 ->
           let k := (slice_range (iv_start iv / resolution arr)
                       (iv_end iv / resolution arr) (shape a).1.1).2 in
           (k = 0%nat ->
            GenomicArray_setitem arr (PyTuple [PyInterval iv; PyInt c]) val = Ok arr)
           /\ (k <> 0%nat -> fits val k ->
               GenomicArray_setitem arr (PyTuple [PyInterval iv; PyInt c]) val
               = Raise OSError))
     /\ (forall (iv : GenomicInterval) a,
           handle_lookup (handle arr) (iv_chrom iv) = Ok a ->
           exists sub, GenomicArray_getitem arr (PyInterval iv) = Ok sub))
  /\ (storage = "ndarray"%string ->
      forall (iv : GenomicInterval) (c : Z) (v : V) a,
        handle_lookup (handle arr) (iv_chrom iv) = Ok a ->
        in_axis (strand_axis (stranded arr) (iv_strand iv)) (shape a).1.2 ->
        in_axis c (shape a).2 ->
        exists arr',
          GenomicArray_setitem arr (PyTuple [PyInterval iv; PyInt c]) (Scalar v)
          = Ok arr'
          /\ writable (handle arr') = true).
Proof.
  unfold create_genomic_array. intros Hinit. split.
  - intros ->. rewrite bool_decide_eq_true_2 in Hinit by done.
    apply HDF5_init_inv in Hinit as (f & _ & _ & _ & _ & _ & Hres & Hh).
    assert (Hw : writable (handle arr) = false) by (by rewrite Hh).
    split; [|split].
    + intros index val arr'. by apply setitem_not_writable.
    + intros iv c val a Ha Hs Hc. cbv zeta. split.
      * intros Hk. apply (setitem_empty_selection arr iv c val a f ReadOnly);
          [lia|done|done|done|done|done].
      * intros Hk Hv. apply (setitem_read_only arr iv c val a f);
          [lia|done|done|done|done|done|done].
    + intros iv a Ha. apply (getitem_stored arr iv a); [lia|done].
  - intros ->. rewrite bool_decide_eq_false_2 in Hinit by done.
    rewrite bool_decide_eq_true_2 in Hinit by done.
    apply NP_init_inv_positive in Hinit as (_ & Hres & d & Hh).
    intros iv c v a Ha Hs Hc.
    apply (setitem_fits arr iv c (Scalar v) a); [lia|done|by rewrite Hh|done|done|done].
Qed.

End FreshBuild.

(** ** The properties above at the example inputs *)

Lemma ragged_bins_built : create_from_file [region_0_9] 5 5 0 false = Ok ragged_bins.
Proof. reflexivity. Qed.

Lemma tostr_ragged_bins : tostr ragged_bins = Ok ["chr1:0-5"; "chr1:5-9"]%string.
Proof. vm_compute. reflexivity. Qed.

Lemma getitem_length_witness :
  iv_end interval_5_9 - iv_start interval_5_9 = 5 + 2 * 0
  \/ (false = false
      /\ 1 + 2 * 0 <= iv_end interval_5_9 - iv_start interval_5_9 < 5 + 2 * 0).
Proof.
  apply (getitem_length [region_0_9] 5 5 0 false ragged_bins 1 interval_5_9).
  - reflexivity.
  - reflexivity.
Defined.

Lemma getitem_inside_region_witness :
  exists iv, iv ∈ [region_0_9]
    /\ iv_chrom interval_5_9 = iv_chrom iv /\ iv_strand interval_5_9 = iv_strand iv
    /\ iv_start iv <= iv_start interval_5_9 + 0
    /\ iv_end interval_5_9 - 0 <= iv_end iv.
Proof.
  apply (getitem_inside_region [region_0_9] 5 5 0 false ragged_bins 1 interval_5_9).
  - reflexivity.
  - right. apply Forall_cons. split; [vm_compute; discriminate|apply Forall_nil; exact I].
  - reflexivity.
Defined.

Lemma bins_in_region_order_witness :
  GenomicIndexer_len two_bins
  = Z.of_nat (length ([region_0_10] ≫= region_rows 5 5 true))
  /\ forall i, GenomicIndexer_getitem two_bins (PyInt i)
               = py_index (bin_interval 5 0 <$> ([region_0_10] ≫= region_rows 5 5 true)) i.
Proof. apply (bins_in_region_order [region_0_10] 5 5 0 true two_bins). reflexivity. Defined.

Lemma small_store_wf : store_wf small_store.
Proof.
  intros chrom a. cbn [handle small_store handle_lookup].
  destruct (decide (chrom = "chr1"%string)) as [->|Hne].
  - rewrite lookup_singleton_eq. intros [= <-]. apply small_array_wf.
  - rewrite lookup_singleton_ne by done. done.
Qed.

Lemma written_store_built :
  GenomicArray_setitem small_store (PyTuple [PyInterval interval_2_6; PyInt 0])
    (Scalar 7) = Ok written_store.
Proof. vm_compute. reflexivity. Qed.

Lemma setitem_frame_witness :
  (stranded written_store = stranded small_store
   /\ condition written_store = condition small_store
   /\ order written_store = order small_store
   /\ resolution written_store = resolution small_store
   /\ typecode written_store = typecode small_store)
  /\ (forall chrom, chrom <> iv_chrom interval_2_6 ->
        handle_lookup (handle written_store) chrom
        = handle_lookup (handle small_store) chrom)
  /\ exists a a' si ci,
       handle_lookup (handle small_store) (iv_chrom interval_2_6) = Ok a
       /\ handle_lookup (handle written_store) (iv_chrom interval_2_6) = Ok a'
       /\ shape a' = shape a
       /\ norm_index (strand_axis (stranded small_store) (iv_strand interval_2_6))
            (shape a).1.2 = Ok si
       /\ norm_index 0 (shape a).2 = Ok ci
       /\ forall i s' c' : nat,
            ((i < (slice_range (iv_start interval_2_6 / resolution small_store)
                               (iv_end interval_2_6 / resolution small_store)
                               (shape a).1.1).1)%nat
             \/ ((slice_range (iv_start interval_2_6 / resolution small_store)
                              (iv_end interval_2_6 / resolution small_store)
                              (shape a).1.1).1
                 + (slice_range (iv_start interval_2_6 / resolution small_store)
                                (iv_end interval_2_6 / resolution small_store)
                                (shape a).1.1).2 <= i)%nat)
            \/ s' <> si \/ c' <> ci ->
            nd_get a' i s' c' = nd_get a i s' c'.
Proof.
  apply (setitem_frame small_store interval_2_6 0 (Scalar 7) written_store).
  - exact small_store_wf.
  - vm_compute. reflexivity.
Defined.

Lemma setitem_wf_witness : store_wf small_store /\ store_wf written_store.
Proof.
  split; [exact small_store_wf|].
  apply (setitem_wf small_store (PyTuple [PyInterval interval_2_6; PyInt 0]) (Scalar 7)
           written_store).
  - exact small_store_wf.
  - vm_compute. reflexivity.
Defined.


Lemma HDF5_fresh_build_witness :
  exists self0 self' f' m,
    loaded (Some sevens) (Some tt) self0 self'
    /\ (stranded self0 = true
        /\ condition self0 = default ["sample"%string] (Some ["rep1"; "rep2"]%string)
        /\ order self0 = 3 /\ resolution self0 = 2 /\ typecode self0 = "int"%string
        /\ writable (handle self0) = true
        /\ zeroed_store 0 self0 chr1_of_10)
    /\ handle self' = HFile f' m
    /\ files first_world !! path_join (cache_dir (cache_tags true None)) "storage.h5"
       = Some (H5 f')
    /\ handle first_store = HFile f' ReadOnly
    /\ stranded first_store = stranded self'
    /\ typecode first_store = typecode self'
    /\ loader_calls first_world
       = (loader_calls empty_world + loader_runs (Some sevens))%nat.
Proof.
  apply (HDF5_fresh_build 0 cache_dir empty_world first_world first_store chr1_of_10
           true (Some ["rep1"; "rep2"]%string) "int" None 2 3 true false
           (Some sevens) (Some tt)).
  - vm_compute. reflexivity.
  - right. vm_compute. reflexivity.
Defined.

Lemma archive_store_built :
  NPGenomicArray_init 0 cache_dir chr1_of_10 true (Some ["rep1"; "rep2"]%string)
    "int" None 2 3 true false (Some sevens) (Some tt) empty_world
  = (archive_world, Ok archive_store).
Proof. vm_compute. reflexivity. Qed.

Lemma NP_fresh_build_witness :
  exists self0 self',
    loaded (Some sevens) (Some tt) self0 self'
    /\ (stranded self0 = true
        /\ condition self0 = default ["sample"%string] (Some ["rep1"; "rep2"]%string)
        /\ order self0 = 3 /\ resolution self0 = 2 /\ typecode self0 = "int"%string
        /\ writable (handle self0) = true
        /\ zeroed_store 0 self0 chr1_of_10)
    /\ (forall d, handle self' = HDict d ->
          forall chrom, chrom ∉ reserved ->
            handle_lookup (handle archive_store) chrom
            = handle_lookup (handle self') chrom)
    /\ condition archive_store = condition self'
    /\ order archive_store = 3 /\ resolution archive_store = 2
    /\ stranded archive_store = stranded self'
    /\ typecode archive_store = typecode self'
    /\ writable (handle archive_store) = true
    /\ loader_calls archive_world
       = (loader_calls empty_world + loader_runs (Some sevens))%nat.
Proof.
  apply (NP_fresh_build 0 cache_dir empty_world archive_world archive_store chr1_of_10
           true (Some ["rep1"; "rep2"]%string) "int" None 2 3 true false
           (Some sevens) (Some tt)).
  - vm_compute. reflexivity.
  - right. right. vm_compute. reflexivity.
Defined.

Lemma NP_cache_reuse_witness :
  let r := NPGenomicArray_init 0 cache_dir (∅ : gmap string Z) true None "d" None
             5 1 true false (Some sevens) (Some tt) archive_world in
  loader_calls r.1 = loader_calls archive_world
  /\ files r.1 = files archive_world
  /\ (forall arr2, r.2 = Ok arr2 ->
        condition arr2 = condition archive_store /\ order arr2 = order archive_store
        /\ resolution arr2 = resolution archive_store
        /\ handle arr2 = handle archive_store)
  /\ (1 <= 1 <= 4 -> 0 < 5 -> exists arr2, r.2 = Ok arr2).
Proof.
  apply (NP_cache_reuse 0 cache_dir empty_world archive_world archive_store chr1_of_10
           true (Some ["rep1"; "rep2"]%string) "int" None 2 3 false
           (Some sevens) (Some tt)).
  - vm_compute. reflexivity.
  - reflexivity.
Defined.

Lemma zero_store_built :
  create_genomic_array 0 cache_dir chr1_of_10 true None "int" "hdf5" 2 1 None
    true false None (None : option unit) empty_world
  = (zero_world, Ok zero_store).
Proof. vm_compute. reflexivity. Qed.

Lemma constructed_store_invariants_witness :
  0 < order zero_store /\ 0 < resolution zero_store
  /\ ("hdf5"%string = "hdf5"%string \/ "hdf5"%string = "ndarray"%string)
  /\ writable (handle zero_store) = bool_decide ("hdf5"%string = "ndarray"%string)
  /\ ("hdf5"%string = "hdf5"%string -> true = true).
Proof.
  apply (constructed_store_invariants 0 cache_dir "hdf5" empty_world zero_world
           zero_store chr1_of_10 true None "int" None 2 1 true false None
           (None : option unit)).
  vm_compute. reflexivity.
Defined.

Lemma invalid_configuration_witness :
  create_genomic_array 0 cache_dir chr1_of_10 true None "int" "hdf5" 2 0 None
    true false (Some sevens) (Some tt) first_world
  = (first_world, Raise ValueError)
  /\ create_genomic_array 0 cache_dir chr1_of_10 true None "int" "ndarray" 2 5 None
       true false (Some sevens) (Some tt) first_world
     = (first_world, Raise Exception).
Proof.
  split.
  - apply (proj1 (invalid_configuration 0 cache_dir "hdf5" chr1_of_10 true None "int"
                    2 0 None true false (Some sevens) (Some tt) first_world
                    (or_introl eq_refl))).
    lia.
  - apply (proj1 (proj2 (invalid_configuration 0 cache_dir "ndarray" chr1_of_10 true
                           None "int" 2 5 None true false (Some sevens) (Some tt)
                           first_world (or_intror eq_refl)))).
    lia.
Defined.

Lemma store_mutability_witness :
  (forall index val arr',
      GenomicArray_setitem zero_store index val = Ok arr' -> arr' = zero_store)
  /\ exists arr',
       GenomicArray_setitem small_store (PyTuple [PyInterval interval_2_6; PyInt 0])
         (Scalar 7) = Ok arr'
       /\ writable (handle arr') = true.
Proof.
  split.
  - apply (proj1 (proj1 (store_mutability 0 cache_dir "hdf5" empty_world zero_world
                           zero_store chr1_of_10 true None "int" None 2 1 true false
                           None (None : option unit) zero_store_built) eq_refl)).
  - apply (proj2 (store_mutability 0 cache_dir "ndarray" empty_world empty_world
                    small_store ({[ "chr1"%string := 3 ]} : gmap string Z) true None
                    "int" None 2 1 false false None (None : option unit)
                    small_store_built) eq_refl interval_2_6 0 7 small_array).
    + reflexivity.
    + unfold in_axis. simpl. lia.
    + unfold in_axis. simpl. lia.
Defined.

(** A write of 7 to the two cells of [chr1:2-6] of the sealed store
    raises [OSError]; outside the condition axis it raises [IndexError]
    first; on the empty cell range of [chr1:4-5] it returns. *)
Lemma sealed_store_writes :
  GenomicArray_setitem zero_store (PyTuple [PyInterval interval_2_6; PyInt 0])
    (Scalar 7) = Raise OSError
  /\ GenomicArray_setitem zero_store (PyTuple [PyInterval interval_2_6; PyInt 5])
       (Scalar 7) = Raise IndexError
  /\ GenomicArray_setitem zero_store (PyTuple [PyInterval interval_4_5; PyInt 0])
       (Scalar 7) = Ok zero_store.
Proof. repeat split; vm_compute; reflexivity. Qed.
